(** * Gallery listing API: record normalisation, publish filter, recency sort

    A shallow embedding of the route handlers of the gallery API
    (GET / POST / PUT over a blob store): the JSON values the handlers read,
    the [pushItem] normaliser with its [pick*] helpers, the publish filter,
    the recency sort and the category-to-folder mappings. *)

From Stdlib Require Import String Ascii List ZArith QArith Bool Lia.
From Stdlib Require Import Permutation Sorted.
Import ListNotations.
Local Open Scope string_scope.
Local Open Scope Z_scope.
Set Warnings "-register-all".

(** ** The JavaScript values and built-ins the handlers rely on *)
Module Js.

(** A number as [JSON.parse] yields it: finite, or an infinity for a
    literal out of the range of a double (never NaN). *)
Inductive number : Type :=
| Finite (q : Q)
| Infinity (negative : bool).

(** A value produced by [response.json()].  An object is kept as the list of
    its own properties; a lookup takes the first binding of a key. *)
Inductive value : Type :=
| Null
| Bool (b : bool)
| Num (n : number)
| Str (s : string)
| Arr (elems : list value)
| Obj (fields : list (string * value)).

Inductive type_tag : Type := TObject | TBoolean | TNumber | TString.

(** [typeof v]; [null] and arrays are of type "object". *)
Definition typeof (v : value) : type_tag :=
  match v with
  | Null | Arr _ | Obj _ => TObject
  | Bool _ => TBoolean
  | Num _ => TNumber
  | Str _ => TString
  end.

Definition nonEmpty (s : string) : bool :=
  match s with EmptyString => false | String _ _ => true end.

(** ToBoolean. *)
Definition truthy (v : value) : bool :=
  match v with
  | Null => false
  | Bool b => b
  | Num (Finite q) => negb (Qeq_bool q 0)
  | Num (Infinity _) => true
  | Str s => nonEmpty s
  | Arr _ | Obj _ => true
  end.

Fixpoint assoc (k : string) (fields : list (string * value)) : option value :=
  match fields with
  | [] => None
  | (k', v) :: rest => if String.eqb k k' then Some v else assoc k rest
  end.

(** [v[k]] for the property names the handlers use (none of them is an
    index, [length] or a name found on a prototype): only an object has
    them; [None] is [undefined]. *)
Definition prop (v : value) (k : string) : option value :=
  match v with
  | Obj fields => assoc k fields
  | _ => None
  end.

Definition isArray (v : value) : bool :=
  match v with Arr _ => true | _ => false end.

(** [a || b] on [string | undefined]: the empty string is falsy. *)
Definition orElse (a b : option string) : option string :=
  match a with
  | Some s => if nonEmpty s then a else b
  | None => b
  end.

(** [a || 'literal']. *)
Definition orLit (a : option string) (d : string) : string :=
  match a with
  | Some s => if nonEmpty s then s else d
  | None => d
  end.

(** [s.endsWith(suffix)]. *)
Definition endsWith (s suffix : string) : bool :=
  let n := String.length s in
  let m := String.length suffix in
  (m <=? n)%nat && String.eqb (substring (n - m) m s) suffix.

(** [Array.prototype.sort(comparefn)].  A comparator result of [None] is
    NaN, which the sort reads as +0.  The sort is stable; the model inserts
    each element in front of the sorted rest, before the first element it
    does not have to follow.  For a consistent comparator this is the one
    order a stable sort can give.  For a comparator that is not consistent
    (NaN for some pairs only) ECMAScript leaves the order to the engine,
    which compares other pairs than this insertion does: from four
    elements on an engine may return another permutation than the one
    computed here. *)
Definition sortCompare {A} (comparefn : A -> A -> option Z) (x y : A) : Z :=
  match comparefn x y with
  | Some v => v
  | None => 0
  end.

Fixpoint sortInsert {A} (comparefn : A -> A -> option Z) (x : A) (l : list A)
  : list A :=
  match l with
  | [] => [x]
  | y :: rest =>
      if sortCompare comparefn x y <=? 0 then x :: l
      else y :: sortInsert comparefn x rest
  end.

Fixpoint sort {A} (comparefn : A -> A -> option Z) (l : list A) : list A :=
  match l with
  | [] => []
  | x :: rest => sortInsert comparefn x (sort comparefn rest)
  end.

(** What [JSON.stringify] writes for a number, read again: an infinity is
    written as [null]. *)
Definition numberJson (n : number) : value :=
  match n with
  | Finite _ => Num n
  | Infinity _ => Null
  end.

(** [JSON.parse(JSON.stringify(v))] for a value that came from
    [JSON.parse]: every infinity in it has become [null]. *)
Fixpoint reparse (v : value) : value :=
  match v with
  | Num n => numberJson n
  | Arr elems => Arr (map reparse elems)
  | Obj fields => Obj (map (fun kv => (fst kv, reparse (snd kv))) fields)
  | _ => v
  end.

(** [Date.parse] on the one format ECMAScript fixes, in the full UTC form
    that [toISOString] writes: [YYYY-MM-DDTHH:mm:ss.sssZ].  The result is
    the number of milliseconds since the epoch; [None] is NaN (Invalid
    Date).  The hour 24 is read, with the rest of the time at zero, as the
    midnight that ends the day.  What engines accept beyond this format is
    their own choice, and this reading treats every other string as
    invalid. *)
Definition digit (c : ascii) : option Z :=
  let n := Z.of_nat (nat_of_ascii c) in
  if (48 <=? n) && (n <=? 57) then Some (n - 48) else None.

Fixpoint digits (acc : Z) (cs : list ascii) : option Z :=
  match cs with
  | [] => Some acc
  | c :: rest =>
      match digit c with
      | Some d => digits (10 * acc + d) rest
      | None => None
      end
  end.

(** Days from 1970-01-01 to the civil date [y-m-d] (proleptic Gregorian). *)
Definition daysFromCivil (y m d : Z) : Z :=
  let y' := if m <=? 2 then y - 1 else y in
  let era := y' / 400 in
  let yoe := y' - era * 400 in
  let mp := (m + 9) mod 12 in
  let doy := (153 * mp + 2) / 5 + d - 1 in
  let doe := yoe * 365 + yoe / 4 - yoe / 100 + doy in
  era * 146097 + doe - 719468.

Definition isoDateParse (s : string) : option Z :=
  match list_ascii_of_string s with
  | [y1; y2; y3; y4; "-"%char; m1; m2; "-"%char; d1; d2; "T"%char;
     h1; h2; ":"%char; n1; n2; ":"%char; s1; s2; "."%char; f1; f2; f3;
     "Z"%char] =>
      match digits 0 [y1; y2; y3; y4], digits 0 [m1; m2], digits 0 [d1; d2],
            digits 0 [h1; h2], digits 0 [n1; n2], digits 0 [s1; s2],
            digits 0 [f1; f2; f3] with
      | Some y, Some m, Some d, Some hh, Some mm, Some ss, Some ms =>
          if (1 <=? m) && (m <=? 12) && (1 <=? d) && (d <=? 31)
             && ((hh <=? 23)
                 || (hh =? 24) && (mm =? 0) && (ss =? 0) && (ms =? 0))
             && (mm <=? 59) && (ss <=? 59)
          then Some ((((daysFromCivil y m d * 24 + hh) * 60 + mm) * 60 + ss)
                     * 1000 + ms)
          else None
      | _, _, _, _, _, _, _ => None
      end
  | _ => None
  end.

End Js.

Coercion Js.Finite : Q >-> Js.number.
Bind Scope Q_scope with Js.number.

(** ** The host: wall clock, date parser and blob store *)

(** A blob as [list] reports it. *)
Record Blob : Type := { pathname : string; url : string }.

(** What [fetch(url)] followed by [response.json()] comes to. *)
Inductive Fetched : Type :=
| NetworkError                          (* [fetch] rejects *)
| HttpStatus                            (* [response.ok] is false *)
| Body (parsed : option Js.value).      (* [None]: [response.json()] throws *)

Record Host : Type := {
  (** [new Date().toISOString()] at the n-th reading of the clock *)
  Date_now : nat -> string;
  (** [new Date(s).getTime()]; [None] is NaN *)
  Date_parse : string -> option Z;
  (** [list({prefix})]; [None] when the call rejects *)
  blob_list : string -> option (list Blob);
  blob_fetch : string -> Fetched
}.

(** Handler code threads the number of clock readings taken so far. *)
Definition Eff (A : Type) : Type := nat -> A * nat.
Definition ret {A} (a : A) : Eff A := fun t => (a, t).
Definition bind {A B} (c : Eff A) (k : A -> Eff B) : Eff B :=
  fun t => let (a, t') := c t in k a t'.
Notation "x <- c ;; k" := (bind c (fun x => k))
  (at level 61, c at next level, right associativity).

Definition now (h : Host) : Eff string := fun t => (Date_now h t, S t).

(** [a || new Date().toISOString()]: the clock is read only when [a] is
    falsy. *)
Definition orNow (h : Host) (a : option string) : Eff string :=
  match a with
  | Some s => if Js.nonEmpty s then ret s else now h
  | None => now h
  end.

(** ** The data model *)

Record GalleryItem : Type := {
  id : string;
  title : string;
  content : string;
  author : string;
  imageUrl : option string;
  publishDate : string;
  tags : list string;
  isPublished : bool;
  type : string;
  store : string;
  storeUrl : option string;
  appCategory : string;
  status : string;
  name : string;
  developer : string;
  description : string;
  iconUrl : string;
  screenshotUrls : list string;
  rating : Js.number;
  downloads : string;
  version : string;
  size : string;
  category : string;
  views : Js.number;
  likes : Js.number;
  uploadDate : string;
  isFeatured : bool;
  isEvent : bool;
  adminStoreUrl : option string
}.

(** ** GET: the normaliser [pushItem] *)

Section PushItem.

(** the [type] query parameter of the request, and the raw value [r] *)
Variable type_ : string.
Variable r : Js.value.

Definition getStr (k : string) : option string :=
  match Js.prop r k with
  | Some (Js.Str s) => Some s
  | _ => None
  end.

Definition getArrStr (k : string) : list string :=
  match Js.prop r k with
  | Some (Js.Arr elems) =>
      flat_map (fun x => match x with Js.Str s => [s] | _ => [] end) elems
  | _ => []
  end.

Definition getNum (k : string) (d : Js.number) : Js.number :=
  match Js.prop r k with
  | Some (Js.Num n) => n
  | _ => d
  end.

(** [r[k] === true] *)
Definition isTrue (k : string) : bool :=
  match Js.prop r k with
  | Some (Js.Bool true) => true
  | _ => false
  end.

Definition oneOf (s : string) (allowed : list string) : bool :=
  existsb (String.eqb s) allowed.

Definition pickType : string :=
  match getStr "type" with
  | Some t =>
      if oneOf t ["gallery"; "featured"; "events"; "normal"] then t
      else Js.orLit (Some type_) "gallery"
  | None => Js.orLit (Some type_) "gallery"
  end.

Definition pickStatus : string :=
  match getStr "status" with
  | Some s =>
      if oneOf s ["published"; "in-review"; "development"] then s
      else if isTrue "isPublished" then "published" else "development"
  | None => if isTrue "isPublished" then "published" else "development"
  end.

Definition pickStore : string :=
  match getStr "store" with
  | Some s => if String.eqb s "app-store" then "app-store" else "google-play"
  | None => "google-play"
  end.

Definition firstImage : option string :=
  Js.orElse (Js.orElse (getStr "imageUrl") (getStr "iconUrl"))
            (hd_error (getArrStr "screenshotUrls")).

Definition screenshots : list string := getArrStr "screenshotUrls".

Definition byType : string :=
  if String.eqb type_ "featured" then "featured"
  else if String.eqb type_ "events" then "events"
  else "normal".

Definition pickCategory : string :=
  match getStr "appCategory" with
  | Some c => if oneOf c ["featured"; "events"; "normal"] then c else byType
  | None => byType
  end.

Definition normalized (id_ publishDate_ uploadDate_ : string) : GalleryItem :=
  {| id := id_;
     title := Js.orLit (Js.orElse (getStr "title") (getStr "name")) "";
     content := Js.orLit (Js.orElse (getStr "content") (getStr "description")) "";
     author := Js.orLit (Js.orElse (getStr "author") (getStr "developer")) "";
     imageUrl := firstImage;
     publishDate := publishDate_;
     tags := getArrStr "tags";
     isPublished := isTrue "isPublished" || String.eqb pickStatus "published";
     type := pickType;
     store := pickStore;
     storeUrl := getStr "storeUrl";
     appCategory := pickCategory;
     status := pickStatus;
     name := Js.orLit (Js.orElse (getStr "name") (getStr "title")) "";
     developer := Js.orLit (Js.orElse (getStr "developer") (getStr "author")) "";
     description :=
       Js.orLit (Js.orElse (getStr "description") (getStr "content")) "";
     iconUrl := Js.orLit (Js.orElse (getStr "iconUrl") firstImage) "";
     screenshotUrls :=
       match screenshots with
       | _ :: _ => screenshots
       | [] => match firstImage with
               | Some s => if Js.nonEmpty s then [s] else []
               | None => []
               end
       end;
     rating := getNum "rating" (45 # 10);
     downloads := Js.orLit (getStr "downloads") "1K+";
     version := Js.orLit (getStr "version") "1.0.0";
     size := Js.orLit (getStr "size") "50MB";
     category := Js.orLit (getStr "category") "";
     views := getNum "views" 0;
     likes := getNum "likes" 0;
     uploadDate := uploadDate_;
     isFeatured := isTrue "isFeatured";
     isEvent := isTrue "isEvent";
     adminStoreUrl := getStr "adminStoreUrl" |}.

(** [pushItem(raw)]: [None] when the function returns without pushing. *)
Definition pushItem (h : Host) : Eff (option GalleryItem) :=
  if negb (Js.truthy r) then ret None
  else match Js.typeof r with
  | Js.TObject =>
      match getStr "id" with
      | Some id_ =>
          if Js.nonEmpty id_ then
            publishDate_ <-
              orNow h (Js.orElse (getStr "publishDate") (getStr "uploadDate")) ;;
            uploadDate_ <-
              orNow h (Js.orElse (getStr "uploadDate") (getStr "publishDate")) ;;
            ret (Some (normalized id_ publishDate_ uploadDate_))
          else ret None
      | None => ret None
      end
  | _ => ret None
  end.

End PushItem.

(** ** GET: enumeration, loading, filter and sort *)

Inductive Response : Type :=
| Json (items : list GalleryItem) (cacheControl : string)
| JsonError (error : string) (status : Z).

Definition isAllApps (type_ : string) : bool :=
  String.eqb type_ "gallery" || String.eqb type_ "normal".

(** The folders GET reads, in the iteration order of the [Set]. *)
Definition folderPaths (type_ : string) : list string :=
  if isAllApps type_ then ["gallery-gallery"; "gallery-normal"]
  else if String.eqb type_ "featured" then ["gallery-featured"]
  else if String.eqb type_ "events" then ["gallery-events"]
  else [].

(** The enumeration loop; one rejected [list] call aborts it. *)
Fixpoint allBlobs (h : Host) (folders : list string) : option (list Blob) :=
  match folders with
  | [] => Some []
  | folderPath :: rest =>
      match blob_list h (folderPath ++ "/") with
      | None => None
      | Some blobs =>
          match allBlobs h rest with
          | None => None
          | Some more => Some (blobs ++ more)%list
          end
      end
  end.

Definition jsonFiles (blobs : list Blob) : list Blob :=
  filter (fun blob => Js.endsWith (pathname blob) ".json") blobs.

(** What one call of [pushItem] appends to [items]. *)
Definition appended (pushed : option GalleryItem) : list GalleryItem :=
  match pushed with
  | Some item => [item]
  | None => []
  end.

(** [data.forEach(pushItem)] *)
Fixpoint forEachPush (h : Host) (type_ : string) (elems : list Js.value)
  : Eff (list GalleryItem) :=
  match elems with
  | [] => ret []
  | raw :: rest =>
      pushed <- pushItem type_ raw h ;;
      more <- forEachPush h type_ rest ;;
      ret (appended pushed ++ more)%list
  end.

(** The body of the loading loop for one JSON file: what it pushes on
    [items].  Every failure inside is caught and ignored. *)
Definition loadFile (h : Host) (type_ : string) (jsonFile : Blob)
  : Eff (list GalleryItem) :=
  match blob_fetch h (url jsonFile) with
  | Body (Some data) =>
      match data with
      | Js.Arr elems => forEachPush h type_ elems
      | _ =>
          if Js.truthy data
             && match Js.prop data "id" with
                | Some v => Js.truthy v
                | None => false
                end
          then pushed <- pushItem type_ data h ;; ret (appended pushed)
          else ret []
      end
  | _ => ret []
  end.

Fixpoint loadItems (h : Host) (type_ : string) (files : list Blob)
  : Eff (list GalleryItem) :=
  match files with
  | [] => ret []
  | jsonFile :: rest =>
      pushed <- loadFile h type_ jsonFile ;;
      more <- loadItems h type_ rest ;;
      ret (pushed ++ more)%list
  end.

(** The predicate of [items.filter] in either branch. *)
Definition keeps (type_ : string) (item : GalleryItem) : bool :=
  if isAllApps type_
  then isPublished item
       || String.eqb (status item) "in-review"
       || String.eqb (status item) "published"
  else isPublished item.

(** [new Date(a.uploadDate || a.publishDate || 0).getTime()] *)
Definition getTime (h : Host) (a : GalleryItem) : option Z :=
  if Js.nonEmpty (uploadDate a) then Date_parse h (uploadDate a)
  else if Js.nonEmpty (publishDate a) then Date_parse h (publishDate a)
  else Some 0.

(** The comparator [(a, b) => bd - ad]; NaN when either time is NaN. *)
Definition byRecency (h : Host) (a b : GalleryItem) : option Z :=
  match getTime h b, getTime h a with
  | Some bd, Some ad => Some (bd - ad)
  | _, _ => None
  end.

Definition filteredItems (h : Host) (type_ : string) (items : list GalleryItem)
  : list GalleryItem :=
  Js.sort (byRecency h) (filter (keeps type_) items).

Definition noStore : string :=
  "no-store, no-cache, max-age=0, must-revalidate".

Definition typeRequired : string := "Type parameter is required".
Definition listingFailed : string := "갤러리 조회 실패".

(** [GET(request)], given [searchParams.get('type')]. *)
Definition GET (h : Host) (type_ : option string) : Eff Response :=
  match type_ with
  | None => ret (JsonError typeRequired 400)
  | Some ty =>
      if negb (Js.nonEmpty ty)
      then ret (JsonError typeRequired 400)
      else match allBlobs h (folderPaths ty) with
           | None => ret (JsonError listingFailed 500)
           | Some blobs =>
               items <- loadItems h ty (jsonFiles blobs) ;;
               ret (Json (filteredItems h ty items) noStore)
           end
  end.

(** ** POST and PUT: where the JSON blob is written *)

(** POST: [(type === 'gallery' || type === 'normal') ? 'gallery-gallery'
    : `gallery-${type}`] *)
Definition POST_jsonFolder (type_ : string) : string :=
  if isAllApps type_ then "gallery-gallery" else "gallery-" ++ type_.

(** PUT: [type === 'gallery' ? 'gallery-gallery' : `gallery-${type}`] *)
Definition PUT_jsonFolder (type_ : string) : string :=
  if String.eqb type_ "gallery" then "gallery-gallery" else "gallery-" ++ type_.

(** The key handed to [put]: [`${jsonFolder}/${jsonFilename}`] with
    [jsonFilename = `${id}.json`]. *)
Definition jsonKey (jsonFolder id_ : string) : string :=
  jsonFolder ++ "/" ++ (id_ ++ ".json").

(** ** PUT, DELETE and POST: the store calls of the mutation handlers *)

(** What the mutation handlers need beyond [Host]. *)
Record Store : Type := {
  (** [del(url)] issued as the n-th store call of the request; [false]
      when it rejects *)
  blob_del : nat -> string -> bool;
  (** [put(key, ...)] issued as the n-th store call: the [url] of the blob
      written, [None] when it rejects *)
  blob_put : nat -> string -> option string;
  (** the text a template literal inserts for a value; [None] when the
      conversion throws *)
  ToString : Js.value -> option string;
  (** [`${Date.now()}`] at the n-th reading of the clock *)
  Date_ms : nat -> string;
  (** [Math.random().toString(36).substr(2, 9)] *)
  random36 : string;
  (** [s.trim()] *)
  String_trim : string -> string
}.

(** The calls a handler has issued to the store, oldest first.  The body
    of [PutJson] is the value handed to [JSON.stringify]; what a later
    [fetch] of the blob parses is [Js.reparse] of it. *)
Inductive StoreCall : Type :=
| Del (url_ : string)
| PutJson (key : string) (body : Js.value)
| PutFile (key : string).

Inductive Reply : Type :=
| Success (item : option Js.value) (jsonUrl : option string)
          (message : option string)
| Failure (error : string) (status : Z).

Definition itemRequired : string := "Item data and ID are required".
Definition typeAndIdRequired : string := "Type and ID parameters are required".
Definition notFound : string := "Item not found".
Definition fieldsRequired : string := "필수 필드가 누락되었습니다".
Definition createFailed : string := "갤러리 생성 실패".
Definition editFailed : string := "갤러리 편집 실패".
Definition deleteFailed : string := "갤러리 삭제 실패".
Definition updated : string := "Item updated successfully".
Definition deleted : string := "Item deleted successfully".

(** [!param] for a query parameter *)
Definition absent (param : option string) : bool :=
  match param with
  | Some text => negb (Js.nonEmpty text)
  | None => true
  end.

(** [const { item } = body; if (!item || !item.id) ...]: the item when the
    guard lets it through ([body] is not [null] here). *)
Definition itemWithId (body : Js.value) : option Js.value :=
  match Js.prop body "item" with
  | Some item =>
      if Js.truthy item
         && match Js.prop item "id" with
            | Some v => Js.truthy v
            | None => false
            end
      then Some item
      else None
  | None => None
  end.

(** The text of [`${item.id}`]. *)
Definition idText (s : Store) (item : Js.value) : option string :=
  match Js.prop item "id" with
  | Some v => ToString s v
  | None => None
  end.

(** [s.includes(part)] *)
Fixpoint includes (s part : string) : bool :=
  String.prefix part s
  || match s with
     | EmptyString => false
     | String _ rest => includes rest part
     end.

(** [allBlobs.find(blob => blob.pathname.endsWith('.json') &&
    blob.pathname.includes(`/${id}.json`))].  The template is evaluated
    only for a blob that passes the first test, and may throw then. *)
Inductive Found : Type :=
| Threw
| Missing
| Hit (blob : Blob).

Fixpoint findJson (id_ : option string) (blobs : list Blob) : Found :=
  match blobs with
  | [] => Missing
  | blob :: rest =>
      if Js.endsWith (pathname blob) ".json"
      then match id_ with
           | None => Threw
           | Some text =>
               if includes (pathname blob) ("/" ++ text ++ ".json")
               then Hit blob
               else findJson id_ rest
           end
      else findJson id_ rest
  end.

(** [allBlobs.find(blob => blob.pathname.includes(`/${id}.`) &&
    !blob.pathname.endsWith('.json'))] *)
Definition findImage (id_ : string) (blobs : list Blob) : option Blob :=
  find (fun blob => includes (pathname blob) ("/" ++ id_ ++ ".")
                    && negb (Js.endsWith (pathname blob) ".json")) blobs.

(** [PUT(request)], given the [type] parameter and what [request.json()]
    yields ([None] when it throws). *)
Definition PUT (h : Host) (s : Store) (type_ : option string)
           (json : option Js.value) : Reply * list StoreCall :=
  if absent type_ then (Failure typeRequired 400, [])
  else match type_, json with
  | Some ty, Some body =>
      match body with
      | Js.Null => (Failure editFailed 500, [])
      | _ =>
          match itemWithId body with
          | None => (Failure itemRequired 400, [])
          | Some item =>
              match allBlobs h (folderPaths ty) with
              | None => (Failure editFailed 500, [])
              | Some blobs =>
                  match findJson (idText s item) blobs, idText s item with
                  | Hit existingFile, Some text =>
                      if blob_del s 0%nat (url existingFile)
                      then
                        let key := jsonKey (PUT_jsonFolder ty) text in
                        match blob_put s 1%nat key with
                        | Some jsonUrl =>
                            (Success (Some item) (Some jsonUrl) (Some updated),
                             [Del (url existingFile); PutJson key item])
                        | None =>
                            (Failure editFailed 500,
                             [Del (url existingFile); PutJson key item])
                        end
                      else (Failure editFailed 500, [Del (url existingFile)])
                  | Missing, _ => (Failure notFound 404, [])
                  | _, _ => (Failure editFailed 500, [])
                  end
              end
          end
      end
  | _, _ => (Failure editFailed 500, [])
  end.

(** [DELETE(request)], given the [type] and [id] parameters. *)
Definition DELETE (h : Host) (s : Store) (type_ id_ : option string)
  : Reply * list StoreCall :=
  if absent type_ || absent id_ then (Failure typeAndIdRequired 400, [])
  else match type_, id_ with
  | Some ty, Some text =>
      match allBlobs h (folderPaths ty) with
      | None => (Failure deleteFailed 500, [])
      | Some blobs =>
          match findJson (Some text) blobs with
          | Hit jsonFile =>
              if blob_del s 0%nat (url jsonFile)
              then match findImage text blobs with
                   | Some imageFile =>
                       if blob_del s 1%nat (url imageFile)
                       then (Success None None (Some deleted),
                             [Del (url jsonFile); Del (url imageFile)])
                       else (Failure deleteFailed 500,
                             [Del (url jsonFile); Del (url imageFile)])
                   | None =>
                       (Success None None (Some deleted), [Del (url jsonFile)])
                   end
              else (Failure deleteFailed 500, [Del (url jsonFile)])
          | Missing => (Failure notFound 404, [])
          | Threw => (Failure deleteFailed 500, [])
          end
      end
  | _, _ => (Failure typeAndIdRequired 400, [])
  end.

(** [{ ...item, type }] on the properties of [item]: an existing [type]
    keeps its place and takes the new value, a missing one is added last. *)
Fixpoint withType (fields : list (string * Js.value)) (ty : string)
  : list (string * Js.value) :=
  match fields with
  | [] => [("type", Js.Str ty)]
  | (k, v) :: rest =>
      if String.eqb "type" k then (k, Js.Str ty) :: rest
      else (k, v) :: withType rest ty
  end.

(** [request.headers.get('content-type')?.includes('application/json')] *)
Definition isJsonRequest (contentType : option string) : bool :=
  match contentType with
  | Some text => includes text "application/json"
  | None => false
  end.

(** [POST(request)] for a request with a JSON content type (the branch
    used to move an item to another type), given the [type] parameter and
    what [request.json()] yields. *)
Definition POST_json (s : Store) (type_ : option string)
           (json : option Js.value) : Reply * list StoreCall :=
  if absent type_ then (Failure typeRequired 400, [])
  else match type_, json with
  | Some ty, Some body =>
      match body with
      | Js.Null => (Failure createFailed 500, [])
      | _ =>
          match itemWithId body with
          | Some (Js.Obj fields) =>
              let galleryItem := Js.Obj (withType fields ty) in
              match idText s galleryItem with
              | Some text =>
                  let key := jsonKey (POST_jsonFolder ty) text in
                  match blob_put s 0%nat key with
                  | Some jsonUrl =>
                      (Success (Some galleryItem) (Some jsonUrl) None,
                       [PutJson key galleryItem])
                  | None =>
                      (Failure createFailed 500, [PutJson key galleryItem])
                  end
              | None => (Failure createFailed 500, [])
              end
          | _ => (Failure itemRequired 400, [])
          end
      end
  | _, _ => (Failure createFailed 500, [])
  end.

(** An entry of the submitted form. *)
Inductive FormValue : Type :=
| Text (text : string)
| File (name_ : string).

(** [formData.get(name)] *)
Definition Form : Type := string -> option FormValue.

(** ToBoolean of an entry *)
Definition filled (entry : option FormValue) : bool :=
  match entry with
  | Some (Text text) => Js.nonEmpty text
  | Some (File _) => true
  | None => false
  end.

(** What [JSON.stringify] writes for an entry: a file has no property of
    its own to write. *)
Definition entryJson (entry : FormValue) : Js.value :=
  match entry with
  | Text text => Js.Str text
  | File _ => Js.Obj []
  end.

(** What [JSON.stringify] writes for [formData.get(name)]. *)
Definition entryValue (entry : option FormValue) : Js.value :=
  match entry with
  | Some e => entryJson e
  | None => Js.Null
  end.

(** [entry || 'literal'] and [entry || undefined], as written to JSON *)
Definition entryOr (entry : option FormValue) (d : string) : Js.value :=
  match entry with
  | Some e => if filled entry then entryJson e else Js.Str d
  | None => Js.Str d
  end.

Definition entryOpt (entry : option FormValue) : option Js.value :=
  match entry with
  | Some e => if filled entry then Some (entryJson e) else None
  | None => None
  end.

(** [entry === 'literal'] *)
Definition entryIs (entry : option FormValue) (literal : string) : bool :=
  match entry with
  | Some (Text text) => String.eqb text literal
  | _ => false
  end.

(** [s.split(sep)] for a separator of one character *)
Fixpoint splitAt (sep : ascii) (current s : string) : list string :=
  match s with
  | EmptyString => [current]
  | String c rest =>
      if Ascii.eqb c sep then current :: splitAt sep "" rest
      else splitAt sep (current ++ String c "") rest
  end.

Definition split (s : string) (sep : ascii) : list string := splitAt sep "" s.

(** [name.split('.').pop()] *)
Definition extension (name_ : string) : string :=
  last (split name_ "."%char) "".

(** A property that [JSON.stringify] leaves out when its value is
    undefined. *)
Definition optional (k : string) (v : option Js.value)
  : list (string * Js.value) :=
  match v with
  | Some x => [(k, x)]
  | None => []
  end.

(** POST builds the image folder by the same expression as the JSON
    folder. *)
Definition POST_imageFolder (type_ : string) : string :=
  if isAllApps type_ then "gallery-gallery" else "gallery-" ++ type_.

(** [tags ? tags.split(',').map(tag => tag.trim()) : []]; [None] when the
    entry is a file, which has no [split]. *)
Definition formTags (s : Store) (entry : option FormValue)
  : option Js.value :=
  match entry with
  | Some (Text text) =>
      if Js.nonEmpty text
      then Some (Js.Arr (map (fun tag => Js.Str (String_trim s tag))
                             (split text ","%char)))
      else Some (Js.Arr [])
  | Some (File _) => None
  | None => Some (Js.Arr [])
  end.

(** The object literal of the form branch, as [JSON.stringify] writes it. *)
Definition formItem (form : Form) (ty id_ : string) (imageUrl_ : option string)
           (publishDate_ uploadDate_ : string) (tags_ : Js.value)
  : Js.value :=
  let isPublished_ := entryIs (form "isPublished") "true" in
  let image := option_map Js.Str imageUrl_ in
  Js.Obj
    ([("id", Js.Str id_);
      ("title", entryValue (form "title"));
      ("content", entryValue (form "content"));
      ("author", entryValue (form "author"))]
     ++ optional "imageUrl" image
     ++ [("publishDate", Js.Str publishDate_);
         ("tags", tags_);
         ("isPublished", Js.Bool isPublished_);
         ("status",
          entryOr (form "status")
                  (if isPublished_ then "published" else "development"));
         ("type", Js.Str ty);
         ("store", entryOr (form "store") "google-play")]
     ++ optional "storeUrl" (entryOpt (form "storeUrl"))
     ++ [("appCategory", entryOr (form "appCategory") "normal");
         ("name", entryValue (form "title"));
         ("developer", entryValue (form "author"));
         ("description", entryValue (form "content"))]
     ++ optional "iconUrl" image
     ++ [("screenshotUrls",
          Js.Arr (match imageUrl_ with
                  | Some u => if Js.nonEmpty u then [Js.Str u] else []
                  | None => []
                  end));
         ("rating", Js.Num (45 # 10));
         ("downloads", Js.Str "1K+");
         ("version", Js.Str "1.0.0");
         ("size", Js.Str "50MB");
         ("category", Js.Str "");
         ("views", Js.Num 0);
         ("likes", Js.Num 0);
         ("uploadDate", Js.Str uploadDate_);
         ("isFeatured", Js.Bool (entryIs (form "appCategory") "featured"));
         ("isEvent", Js.Bool (entryIs (form "appCategory") "events"))])%list.

(** The rest of the form branch once the image, if any, is stored: the
    two dates are read, the item is built and its JSON is written as the
    n-th store call. *)
Definition POST_write (h : Host) (s : Store) (form : Form) (ty id_ : string)
           (imageUrl_ : option string) (calls : list StoreCall)
  : Eff (Reply * list StoreCall) :=
  publishDate_ <- now h ;;
  match formTags s (form "tags") with
  | None => ret (Failure createFailed 500, calls)
  | Some tags_ =>
      uploadDate_ <- now h ;;
      let galleryItem :=
        formItem form ty id_ imageUrl_ publishDate_ uploadDate_ tags_ in
      let key := jsonKey (POST_jsonFolder ty) id_ in
      ret (match blob_put s (length calls) key with
           | Some jsonUrl =>
               (Success (Some galleryItem) (Some jsonUrl) None,
                calls ++ [PutJson key galleryItem])%list
           | None =>
               (Failure createFailed 500,
                calls ++ [PutJson key galleryItem])%list
           end)
  end.

(** [POST(request)] for a request without a JSON content type, given the
    [type] parameter and what [request.formData()] yields ([None] when it
    throws). *)
Definition POST_form (h : Host) (s : Store) (type_ : option string)
           (formData : option Form) : Eff (Reply * list StoreCall) :=
  if absent type_ then ret (Failure typeRequired 400, [])
  else match type_, formData with
  | Some ty, Some form =>
      if negb (filled (form "title") && filled (form "content")
               && filled (form "author"))
      then ret (Failure fieldsRequired 400, [])
      else
        fun t =>
          let id_ := ty ++ "-" ++ Date_ms s t ++ "-" ++ random36 s in
          match form "file" with
          | Some (File name_) =>
              let key := POST_imageFolder ty ++ "/"
                         ++ (id_ ++ "." ++ extension name_) in
              match blob_put s 0%nat key with
              | Some imageUrl_ =>
                  POST_write h s form ty id_ (Some imageUrl_) [PutFile key]
                             (S t)
              | None => ((Failure createFailed 500, [PutFile key]), S t)
              end
          | Some (Text text) =>
              if Js.nonEmpty text
              then ((Failure createFailed 500, []), S t)
              else POST_write h s form ty id_ None [] (S t)
          | None => POST_write h s form ty id_ None [] (S t)
          end
  | _, _ => ret (Failure createFailed 500, [])
  end.

(** [POST(request)]: the content type of the request picks the branch. *)
Definition POST (h : Host) (s : Store) (type_ contentType : option string)
           (json : option Js.value) (formData : option Form)
  : Eff (Reply * list StoreCall) :=
  if isJsonRequest contentType then ret (POST_json s type_ json)
  else POST_form h s type_ formData.

(** What [NextResponse.json] writes for a record of the listing, read
    again: the properties in the order of the literal, a property whose
    value is undefined left out and an infinite number written as [null]. *)
Definition toJson (item : GalleryItem) : Js.value :=
  Js.Obj
    ([("id", Js.Str (id item));
      ("title", Js.Str (title item));
      ("content", Js.Str (content item));
      ("author", Js.Str (author item))]
     ++ optional "imageUrl" (option_map Js.Str (imageUrl item))
     ++ [("publishDate", Js.Str (publishDate item));
         ("tags", Js.Arr (map Js.Str (tags item)));
         ("isPublished", Js.Bool (isPublished item));
         ("type", Js.Str (type item));
         ("store", Js.Str (store item))]
     ++ optional "storeUrl" (option_map Js.Str (storeUrl item))
     ++ [("appCategory", Js.Str (appCategory item));
         ("status", Js.Str (status item));
         ("name", Js.Str (name item));
         ("developer", Js.Str (developer item));
         ("description", Js.Str (description item));
         ("iconUrl", Js.Str (iconUrl item));
         ("screenshotUrls", Js.Arr (map Js.Str (screenshotUrls item)));
         ("rating", Js.numberJson (rating item));
         ("downloads", Js.Str (downloads item));
         ("version", Js.Str (version item));
         ("size", Js.Str (size item));
         ("category", Js.Str (category item));
         ("views", Js.numberJson (views item));
         ("likes", Js.numberJson (likes item));
         ("uploadDate", Js.Str (uploadDate item));
         ("isFeatured", Js.Bool (isFeatured item));
         ("isEvent", Js.Bool (isEvent item))]
     ++ optional "adminStoreUrl"
                 (option_map Js.Str (adminStoreUrl item)))%list.

(** ** The gallery manager component: what it shows of a listing *)
Module GalleryManager.

(** [type === "normal" ? "gallery" : type] *)
Definition queryType (type_ : string) : string :=
  if String.eqb type_ "normal" then "gallery" else type_.

(** The filter [loadItems] applies to the array it received. *)
Definition shown (type_ : string) (data : list GalleryItem)
  : list GalleryItem :=
  if String.eqb (queryType type_) "gallery"
  then filter (fun item => String.eqb (status item) "published"
                           || String.eqb (status item) "in-review"
                           || String.eqb (status item) "development") data
  else filter (fun item => String.eqb (status item) "published") data.

(** [loadItems()]: the [items] state after the call, given the state
    before and the answer to [fetch(`/api/gallery?type=${queryType}`)]
    ([None] when the fetch or the parse throws). *)
Definition clientLoadItems (type_ : string) (response : option Response)
           (items : list GalleryItem) : list GalleryItem :=
  match response with
  | Some (Json data _) => shown type_ data
  | _ => items
  end.

(** The component loading from this server. *)
Definition refresh (h : Host) (type_ : string) (items : list GalleryItem)
  : Eff (list GalleryItem) :=
  response <- GET h (Some (queryType type_)) ;;
  ret (clientLoadItems type_ (Some response) items).

End GalleryManager.

(** ** Reading aids for the statements *)

Definition statusValues : list string :=
  ["published"; "in-review"; "development"].

(** A string field is given when it holds a non-empty string, and missing
    when it is undefined or empty. *)
Definition given (o : option string) (s : string) : Prop :=
  o = Some s /\ s <> "".
Definition missing (o : option string) : Prop :=
  o = None \/ o = Some "".

(** [item] is something [pushItem] pushes under [type_]. *)
Definition pushedBy (h : Host) (type_ : string) (item : GalleryItem) : Prop :=
  exists raw t t', pushItem type_ raw h t = (Some item, t').

(** The time a record sorts by, read as a number (0 for NaN). *)
Definition sortTimestamp (h : Host) (item : GalleryItem) : Z :=
  match getTime h item with
  | Some ms => ms
  | None => 0
  end.

(** The comparator is [key b - key a] on the elements of [l]. *)
Definition ordersByKey {A} (comparefn : A -> A -> option Z) (key : A -> Z)
           (l : list A) : Prop :=
  forall x y, In x l -> In y l -> comparefn x y = Some (key y - key x).

Definition descendingBy {A} (key : A -> Z) : A -> A -> Prop :=
  fun a b => key b <= key a.

Definition typeValues : list string :=
  ["gallery"; "featured"; "events"; "normal"].

Definition storeValues : list string := ["app-store"; "google-play"].

Definition categoryValues : list string := ["featured"; "events"; "normal"].

(** A record with its [type] replaced. *)
Definition retyped (item : GalleryItem) (ty : string) : GalleryItem :=
  {| id := id item;
     title := title item;
     content := content item;
     author := author item;
     imageUrl := imageUrl item;
     publishDate := publishDate item;
     tags := tags item;
     isPublished := isPublished item;
     type := ty;
     store := store item;
     storeUrl := storeUrl item;
     appCategory := appCategory item;
     status := status item;
     name := name item;
     developer := developer item;
     description := description item;
     iconUrl := iconUrl item;
     screenshotUrls := screenshotUrls item;
     rating := rating item;
     downloads := downloads item;
     version := version item;
     size := size item;
     category := category item;
     views := views item;
     likes := likes item;
     uploadDate := uploadDate item;
     isFeatured := isFeatured item;
     isEvent := isEvent item;
     adminStoreUrl := adminStoreUrl item |}.

(** A number that is an infinity replaced. *)
Definition finiteOr (n d : Js.number) : Js.number :=
  match n with
  | Js.Finite _ => n
  | Js.Infinity _ => d
  end.

(** A record with each infinite number replaced by the default of its
    field. *)
Definition defaulted (item : GalleryItem) : GalleryItem :=
  {| id := id item;
     title := title item;
     content := content item;
     author := author item;
     imageUrl := imageUrl item;
     publishDate := publishDate item;
     tags := tags item;
     isPublished := isPublished item;
     type := type item;
     store := store item;
     storeUrl := storeUrl item;
     appCategory := appCategory item;
     status := status item;
     name := name item;
     developer := developer item;
     description := description item;
     iconUrl := iconUrl item;
     screenshotUrls := screenshotUrls item;
     rating := finiteOr (rating item) (45 # 10);
     downloads := downloads item;
     version := version item;
     size := size item;
     category := category item;
     views := finiteOr (views item) 0;
     likes := finiteOr (likes item) 0;
     uploadDate := uploadDate item;
     isFeatured := isFeatured item;
     isEvent := isEvent item;
     adminStoreUrl := adminStoreUrl item |}.

Definition isFinite (n : Js.number) : Prop :=
  match n with
  | Js.Finite _ => True
  | Js.Infinity _ => False
  end.

(** The predicate of the [find] that PUT and DELETE run for the JSON blob,
    for an id whose text is [text]. *)
Definition matchesJson (text : string) (blob : Blob) : bool :=
  Js.endsWith (pathname blob) ".json"
  && includes (pathname blob) ("/" ++ text ++ ".json").

(** [key] is the key of a JSON blob that POST hands to [put] while serving
    some request for [type_]; likewise for PUT. *)
Definition POST_writes (s : Store) (type_ key : string) : Prop :=
  exists h contentType json formData t reply calls t' body,
    POST h s (Some type_) contentType json formData t = ((reply, calls), t')
    /\ In (PutJson key body) calls.

Definition PUT_writes (s : Store) (type_ key : string) : Prop :=
  exists h json reply calls body,
    PUT h s (Some type_) json = (reply, calls)
    /\ In (PutJson key body) calls.

(** What the handlers expect of [list], for one blob: a call that succeeds
    returns the blob, in the one page of results the handlers read, when
    the prefix asked for starts its pathname ([storesUnder]), and only
    then ([listsByPrefix]). *)
Definition storesUnder (h : Host) (blob : Blob) : Prop :=
  forall prefix_ blobs,
    blob_list h prefix_ = Some blobs ->
    String.prefix prefix_ (pathname blob) = true ->
    In blob blobs.

Definition listsByPrefix (h : Host) (blob : Blob) : Prop :=
  forall prefix_ blobs,
    blob_list h prefix_ = Some blobs ->
    (In blob blobs <-> String.prefix prefix_ (pathname blob) = true).

(** A string without the separator. *)
Fixpoint noSep (sep : ascii) (s : string) : bool :=
  match s with
  | EmptyString => true
  | String c rest => negb (Ascii.eqb c sep) && noSep sep rest
  end.

(** ** Sample hosts and raw values *)

(** A host with an empty store, whose clock stands still. *)
Definition emptyHost : Host :=
  {| Date_now := fun _ => "2025-01-01T00:00:00.000Z";
     Date_parse := Js.isoDateParse;
     blob_list := fun _ => Some [];
     blob_fetch := fun _ => NetworkError |}.

(** [{id:"a1", name:"Foo", isPublished:true}] *)
Definition raw_a1 : Js.value :=
  Js.Obj [("id", Js.Str "a1"); ("name", Js.Str "Foo");
          ("isPublished", Js.Bool true)].

(** [{id:"r1", status:"in-review", isPublished:true}] *)
Definition raw_review_flagged : Js.value :=
  Js.Obj [("id", Js.Str "r1"); ("status", Js.Str "in-review");
          ("isPublished", Js.Bool true)].

(** [{id:"s1", status:"archived", isPublished:true}] *)
Definition raw_odd_status : Js.value :=
  Js.Obj [("id", Js.Str "s1"); ("status", Js.Str "archived");
          ("isPublished", Js.Bool true)].

(** [{id:"t1", title:"", name:"Foo"}] *)
Definition raw_empty_title : Js.value :=
  Js.Obj [("id", Js.Str "t1"); ("title", Js.Str ""); ("name", Js.Str "Foo")].

(** [{id:"t2", title:"New", name:"Old", content:"Body", description:"Desc",
      author:"Ann", developer:"Dev"}] *)
Definition raw_both_names : Js.value :=
  Js.Obj [("id", Js.Str "t2"); ("title", Js.Str "New"); ("name", Js.Str "Old");
          ("content", Js.Str "Body"); ("description", Js.Str "Desc");
          ("author", Js.Str "Ann"); ("developer", Js.Str "Dev")].

(** [{id:"i0"}]: no image field of any kind *)
Definition raw_no_image : Js.value := Js.Obj [("id", Js.Str "i0")].

(** [{id:"i1", iconUrl:"icon.png"}] *)
Definition raw_icon_only : Js.value :=
  Js.Obj [("id", Js.Str "i1"); ("iconUrl", Js.Str "icon.png")].

(** [{id, isPublished:true, uploadDate}] *)
Definition raw_dated (id_ uploadDate_ : string) : Js.value :=
  Js.Obj [("id", Js.Str id_); ("isPublished", Js.Bool true);
          ("uploadDate", Js.Str uploadDate_)].

Definition blobAt (key : string) : Blob :=
  {| pathname := key; url := "https://blob.example/" ++ key |}.

(** A store whose [gallery-gallery] folder holds three records, one per
    JSON file; the second has an upload date that is not a date. *)
Definition datedHost : Host :=
  {| Date_now := fun _ => "2025-01-01T00:00:00.000Z";
     Date_parse := Js.isoDateParse;
     blob_list := fun prefix_ =>
       if String.eqb prefix_ "gallery-gallery/"
       then Some [blobAt "gallery-gallery/old.json";
                  blobAt "gallery-gallery/bad.json";
                  blobAt "gallery-gallery/new.json"]
       else Some [];
     blob_fetch := fun url_ =>
       if String.eqb url_ "https://blob.example/gallery-gallery/old.json"
       then Body (Some (raw_dated "old" "2024-01-01T00:00:00.000Z"))
       else if String.eqb url_ "https://blob.example/gallery-gallery/bad.json"
       then Body (Some (raw_dated "bad" "unknown"))
       else if String.eqb url_ "https://blob.example/gallery-gallery/new.json"
       then Body (Some (raw_dated "new" "2024-06-01T00:00:00.000Z"))
       else NetworkError |}.

(** The same store with the unreadable date replaced by a real one, and a
    store whose enumeration call fails. *)
Definition cleanHost : Host :=
  {| Date_now := Date_now datedHost;
     Date_parse := Js.isoDateParse;
     blob_list := blob_list datedHost;
     blob_fetch := fun url_ =>
       if String.eqb url_ "https://blob.example/gallery-gallery/bad.json"
       then Body (Some (raw_dated "mid" "2024-03-01T00:00:00.000Z"))
       else blob_fetch datedHost url_ |}.

Definition downHost : Host :=
  {| Date_now := Date_now datedHost;
     Date_parse := Js.isoDateParse;
     blob_list := fun _ => None;
     blob_fetch := fun _ => NetworkError |}.

(** A store whose [gallery-gallery] and [gallery-featured] folders list
    one JSON file, an array of a published record, a record in review and a
    record in development; next to it lie an image and a file that does
    not parse. *)
Definition mixedHost : Host :=
  {| Date_now := fun _ => "2025-01-01T00:00:00.000Z";
     Date_parse := Js.isoDateParse;
     blob_list := fun prefix_ =>
       if String.eqb prefix_ "gallery-gallery/"
          || String.eqb prefix_ "gallery-featured/"
       then Some [blobAt (prefix_ ++ "cover.png");
                  blobAt (prefix_ ++ "broken.json");
                  blobAt (prefix_ ++ "apps.json")]
       else Some [];
     blob_fetch := fun url_ =>
       if Js.endsWith url_ "/apps.json"
       then Body (Some (Js.Arr
              [Js.Obj [("id", Js.Str "pub"); ("isPublished", Js.Bool true)];
               Js.Obj [("id", Js.Str "rev"); ("status", Js.Str "in-review")];
               Js.Obj [("id", Js.Str "dev")]]))
       else if Js.endsWith url_ "/broken.json"
       then Body None
       else NetworkError |}.

(** What [pushItem] pushes for [raw] on [emptyHost], when it pushes. *)
Definition pushed (type_ : string) (raw : Js.value) (id_ : string)
  : GalleryItem :=
  normalized type_ raw id_ (Date_now emptyHost 0%nat) (Date_now emptyHost 1%nat).

(** A store that accepts every call and answers a write with the public
    address of the key; a string converts to itself, and the samples use
    no other value in a template. *)
Definition openStore : Store :=
  {| blob_del := fun _ _ => true;
     blob_put := fun _ key => Some ("https://blob.example/" ++ key);
     ToString := fun v => match v with Js.Str text => Some text | _ => None end;
     Date_ms := fun _ => "1735689600000";
     random36 := "k3x9q2m1z";
     String_trim := fun text => text |}.

(** The same store, refusing every write. *)
Definition readOnlyStore : Store :=
  {| blob_del := blob_del openStore;
     blob_put := fun _ _ => None;
     ToString := ToString openStore;
     Date_ms := Date_ms openStore;
     random36 := random36 openStore;
     String_trim := String_trim openStore |}.

(** The same store, accepting the first call of a request only. *)
Definition oneCallStore : Store :=
  {| blob_del := fun n _ => Nat.eqb n 0;
     blob_put := fun n key =>
       if Nat.eqb n 0 then Some ("https://blob.example/" ++ key) else None;
     ToString := ToString openStore;
     Date_ms := Date_ms openStore;
     random36 := random36 openStore;
     String_trim := String_trim openStore |}.

(** A host whose [gallery-gallery] folder lists the record [a1] and its
    image. *)
Definition a1Host : Host :=
  {| Date_now := fun _ => "2025-01-01T00:00:00.000Z";
     Date_parse := Js.isoDateParse;
     blob_list := fun prefix_ =>
       if String.eqb prefix_ "gallery-gallery/"
       then Some [blobAt "gallery-gallery/a1.png";
                  blobAt "gallery-gallery/a1.json"]
       else Some [];
     blob_fetch := fun url_ =>
       if String.eqb url_ "https://blob.example/gallery-gallery/a1.json"
       then Body (Some raw_a1)
       else NetworkError |}.

(** [{item: {id:"a1", title:"Foo", type:"gallery"}}] *)
Definition body_a1 : Js.value :=
  Js.Obj [("item", Js.Obj [("id", Js.Str "a1"); ("title", Js.Str "Foo");
                           ("type", Js.Str "gallery")])].

(** A form with the three required fields, a comma-separated tag list and
    an image. *)
Definition form_foo : Form := fun name_ =>
  if String.eqb name_ "title" then Some (Text "Foo")
  else if String.eqb name_ "content" then Some (Text "About Foo")
  else if String.eqb name_ "author" then Some (Text "Ann")
  else if String.eqb name_ "tags" then Some (Text "a,b")
  else if String.eqb name_ "file" then Some (File "shot.final.png")
  else None.

(** [{id:"e1", type:"events", store:"app-store", appCategory:"bogus"}] *)
Definition raw_typed : Js.value :=
  Js.Obj [("id", Js.Str "e1"); ("type", Js.Str "events");
          ("store", Js.Str "app-store"); ("appCategory", Js.Str "bogus")].

(** A host with two files: one holds [raw_a1], the other the array of
    it. *)
Definition pairHost : Host :=
  {| Date_now := fun _ => "2025-01-01T00:00:00.000Z";
     Date_parse := Js.isoDateParse;
     blob_list := fun _ => Some [];
     blob_fetch := fun url_ =>
       if Js.endsWith url_ "/single.json" then Body (Some raw_a1)
       else if Js.endsWith url_ "/wrapped.json"
       then Body (Some (Js.Arr [raw_a1]))
       else NetworkError |}.

(** The fields of the item in [body_a1]. *)
Definition fields_a1 : list (string * Js.value) :=
  [("id", Js.Str "a1"); ("title", Js.Str "Foo"); ("type", Js.Str "gallery")].

(** The id the form branch generates on the sample store at reading 0. *)
Definition id_foo : string := "gallery-1735689600000-k3x9q2m1z".

(** The records GET answers with on a sample host, the clock at 0. *)
Definition listing (h : Host) (type_ : string) : list GalleryItem :=
  match fst (GET h (Some type_) 0%nat) with
  | Json items _ => items
  | JsonError _ _ => []
  end.

(** What the form branch stores for [form_foo] under "gallery" on the
    sample store, and the record read back from it. *)
Definition imageKey_foo : string := "gallery-gallery/" ++ id_foo ++ ".png".

Definition stored_foo : Js.value :=
  formItem form_foo "gallery" id_foo
           (Some ("https://blob.example/" ++ imageKey_foo))
           (Date_now emptyHost 1%nat) (Date_now emptyHost 2%nat)
           (Js.Arr [Js.Str "a"; Js.Str "b"]).

Definition item_foo : GalleryItem :=
  normalized "gallery" stored_foo id_foo
             (Date_now emptyHost 1%nat) (Date_now emptyHost 2%nat).

(** A host whose [gallery-featured] folder holds one record, in review and
    flagged as published. *)
Definition flaggedHost : Host :=
  {| Date_now := fun _ => "2025-01-01T00:00:00.000Z";
     Date_parse := Js.isoDateParse;
     blob_list := fun prefix_ =>
       if String.eqb prefix_ "gallery-featured/"
       then Some [blobAt "gallery-featured/r1.json"]
       else Some [];
     blob_fetch := fun url_ =>
       if String.eqb url_ "https://blob.example/gallery-featured/r1.json"
       then Body (Some raw_review_flagged)
       else NetworkError |}.

(** A host whose store holds [contents] and lists them by prefix. *)
Definition storeHost (contents : list Blob) : Host :=
  {| Date_now := fun _ => "2025-01-01T00:00:00.000Z";
     Date_parse := Js.isoDateParse;
     blob_list := fun prefix_ =>
       Some (filter (fun blob => String.prefix prefix_ (pathname blob))
                    contents);
     blob_fetch := fun _ => NetworkError |}.

(** [{item: {id}}] *)
Definition body_of (text : string) : Js.value :=
  Js.Obj [("item", Js.Obj [("id", Js.Str text)])].

(** [{item: {id:"a1", title:"Foo", rating:1e400}}] *)
Definition fields_huge : list (string * Js.value) :=
  [("id", Js.Str "a1"); ("title", Js.Str "Foo");
   ("rating", Js.Num (Js.Infinity false))].

Definition body_huge : Js.value := Js.Obj [("item", Js.Obj fields_huge)].

(** [{id:"big", isPublished:true, rating:1e400}]: [JSON.parse] reads the
    number as [Infinity]. *)
Definition raw_huge_rating : Js.value :=
  Js.Obj [("id", Js.Str "big"); ("isPublished", Js.Bool true);
          ("rating", Js.Num (Js.Infinity false))].

(** [{id:"ok", isPublished:true, rating:3}] *)
Definition raw_rated : Js.value :=
  Js.Obj [("id", Js.Str "ok"); ("isPublished", Js.Bool true);
          ("rating", Js.Num 3)].

(** A host whose [gallery-featured] folder holds these two records. *)
Definition hugeHost : Host :=
  {| Date_now := fun _ => "2025-01-01T00:00:00.000Z";
     Date_parse := Js.isoDateParse;
     blob_list := fun prefix_ =>
       if String.eqb prefix_ "gallery-featured/"
       then Some [blobAt "gallery-featured/both.json"]
       else Some [];
     blob_fetch := fun url_ =>
       if String.eqb url_ "https://blob.example/gallery-featured/both.json"
       then Body (Some (Js.Arr [raw_huge_rating; raw_rated]))
       else NetworkError |}.

(** * Facts about the built-ins *)

Section SortFacts.

Context {A : Type} (comparefn : A -> A -> option Z).

Lemma sortInsert_perm (x : A) (l : list A) :
  Permutation (Js.sortInsert comparefn x l) (x :: l).
Proof.
  induction l as [|y rest IH]; simpl.
  - apply Permutation_refl.
  - destruct (Js.sortCompare comparefn x y <=? 0).
    + apply Permutation_refl.
    + eapply perm_trans; [apply perm_skip, IH | apply perm_swap].
Qed.

Lemma sort_perm (l : list A) : Permutation (Js.sort comparefn l) l.
Proof.
  induction l as [|x rest IH]; simpl.
  - apply perm_nil.
  - eapply perm_trans; [apply sortInsert_perm | apply perm_skip, IH].
Qed.

Lemma sort_In (l : list A) (x : A) : In x (Js.sort comparefn l) <-> In x l.
Proof.
  split; apply Permutation_in;
    [apply sort_perm | apply Permutation_sym, sort_perm].
Qed.

(** When the comparator is [key b - key a] on the elements at hand, the
    sort orders by decreasing key and keeps equal keys in place. *)
Variable key : A -> Z.

Local Abbreviation byKeyDesc := (ordersByKey comparefn key).
Local Abbreviation descending := (descendingBy key).

Lemma byKeyDesc_tail (x : A) (l : list A) : byKeyDesc (x :: l) -> byKeyDesc l.
Proof. intros H a b Ha Hb. apply H; right; assumption. Qed.

Lemma sortInsert_sorted (x : A) (l : list A) :
  byKeyDesc (x :: l) ->
  StronglySorted descending l ->
  StronglySorted descending (Js.sortInsert comparefn x l).
Proof.
  intros Hk Hs. induction Hs as [|y rest Hs IH Hall]; simpl.
  - constructor; constructor.
  - assert (Hxy : Js.sortCompare comparefn x y = key y - key x).
    { unfold Js.sortCompare. rewrite (Hk x y); simpl; auto. }
    rewrite Hxy. destruct (Z.leb_spec (key y - key x) 0) as [Hle|Hgt].
    + constructor; [constructor; assumption|].
      constructor; [unfold descendingBy; lia|].
      rewrite Forall_forall in *. intros z Hz.
      specialize (Hall z Hz). unfold descendingBy in *. lia.
    + constructor.
      * apply IH. intros a b Ha Hb. apply Hk; simpl in *; tauto.
      * rewrite Forall_forall in *. intros z Hz.
        apply (Permutation_in _ (sortInsert_perm x rest)) in Hz.
        destruct Hz as [<-|Hz]; [unfold descendingBy; lia | auto].
Qed.

Lemma sort_sorted (l : list A) :
  byKeyDesc l -> StronglySorted descending (Js.sort comparefn l).
Proof.
  induction l as [|x rest IH]; intros Hk; simpl.
  - constructor.
  - apply sortInsert_sorted.
    + intros a b Ha Hb. apply Hk.
      * destruct Ha as [<-|Ha]; [left; reflexivity|right; apply sort_In, Ha].
      * destruct Hb as [<-|Hb]; [left; reflexivity|right; apply sort_In, Hb].
    + apply IH. eapply byKeyDesc_tail, Hk.
Qed.

Lemma sortInsert_stable (k : Z) (x : A) (l : list A) :
  byKeyDesc (x :: l) ->
  filter (fun a => key a =? k) (Js.sortInsert comparefn x l)
  = filter (fun a => key a =? k) (x :: l).
Proof.
  induction l as [|y rest IH]; intros Hk; [reflexivity|].
  cbn [Js.sortInsert].
  assert (Hxy : Js.sortCompare comparefn x y = key y - key x).
  { unfold Js.sortCompare. rewrite (Hk x y); simpl; auto. }
  rewrite Hxy. destruct (Z.leb_spec (key y - key x) 0) as [Hle|Hgt];
    [reflexivity|].
  cbn [filter]. rewrite IH.
  - cbn [filter].
    destruct (Z.eqb_spec (key y) k), (Z.eqb_spec (key x) k);
      try reflexivity; lia.
  - intros a b Ha Hb. apply Hk; simpl in *; tauto.
Qed.

Lemma sort_stable (k : Z) (l : list A) :
  byKeyDesc l ->
  filter (fun a => key a =? k) (Js.sort comparefn l)
  = filter (fun a => key a =? k) l.
Proof.
  induction l as [|x rest IH]; intros Hk; [reflexivity|].
  cbn [Js.sort]. rewrite sortInsert_stable.
  - cbn [filter]. rewrite IH by (eapply byKeyDesc_tail, Hk). reflexivity.
  - intros a b Ha Hb. apply Hk.
    + destruct Ha as [<-|Ha]; [left; reflexivity|right; apply sort_In, Ha].
    + destruct Hb as [<-|Hb]; [left; reflexivity|right; apply sort_In, Hb].
Qed.

(** Two lists in decreasing key order that agree, key by key, on the
    elements of that key and their order are the same list: with a
    comparator that orders by key, a stable sort has one possible result. *)
Lemma sorted_stable_unique (l1 : list A) :
  forall l2,
    StronglySorted descending l1 ->
    StronglySorted descending l2 ->
    (forall k, filter (fun a => key a =? k) l1
               = filter (fun a => key a =? k) l2) ->
    l1 = l2.
Proof.
  assert (Hhead : forall x l y l',
             StronglySorted descending (y :: l') ->
             (forall k, filter (fun a => key a =? k) (x :: l)
                        = filter (fun a => key a =? k) (y :: l')) ->
             key x <= key y).
  { intros x l y l' Hs Heq. specialize (Heq (key x)).
    assert (Hin : In x (filter (fun a => key a =? key x) (y :: l'))).
    { rewrite <- Heq. cbn. rewrite Z.eqb_refl. left. reflexivity. }
    apply filter_In in Hin. destruct Hin as [[<-|Hin] _]; [lia|].
    inversion Hs as [|? ? _ Hall]; subst. rewrite Forall_forall in Hall.
    apply (Hall x Hin). }
  induction l1 as [|x l1' IH]; intros l2 Hs1 Hs2 Heq.
  - destruct l2 as [|y l2']; [reflexivity|].
    specialize (Heq (key y)). cbn in Heq. rewrite Z.eqb_refl in Heq.
    discriminate.
  - destruct l2 as [|y l2'].
    { specialize (Heq (key x)). cbn in Heq. rewrite Z.eqb_refl in Heq.
      discriminate. }
    assert (Hxy : key x = key y).
    { pose proof (Hhead x l1' y l2' Hs2 Heq).
      pose proof (Hhead y l2' x l1' Hs1 (fun k => eq_sym (Heq k))). lia. }
    pose proof (Heq (key x)) as Hk. cbn in Hk.
    rewrite <- Hxy, Z.eqb_refl in Hk. injection Hk as <- _.
    f_equal. apply IH.
    + inversion Hs1; assumption.
    + inversion Hs2; assumption.
    + intros k. specialize (Heq k). cbn in Heq.
      destruct (key x =? k); [injection Heq as Heq|]; exact Heq.
Qed.

End SortFacts.

Example isoDateParse_2024 :
  Js.isoDateParse "2024-01-01T00:00:00.000Z" = Some 1704067200000.
Proof. reflexivity. Qed.
Example isoDateParse_epoch :
  Js.isoDateParse "1970-01-01T00:00:00.001Z" = Some 1.
Proof. reflexivity. Qed.
Example isoDateParse_hour_24 :
  Js.isoDateParse "2024-01-01T24:00:00.000Z"
  = Js.isoDateParse "2024-01-02T00:00:00.000Z"
  /\ Js.isoDateParse "2024-01-01T24:00:00.001Z" = None.
Proof. split; reflexivity. Qed.

Example isoDateParse_bad : Js.isoDateParse "unknown" = None.
Proof. reflexivity. Qed.

(** * The normaliser *)

Section Normaliser.

Variable h : Host.
Variable type_ : string.

(** Why a raw value is accepted, and what is pushed then. *)
Lemma pushItem_Some (raw : Js.value) (t t' : nat) (item : GalleryItem) :
  pushItem type_ raw h t = (Some item, t') ->
  exists fields id_ publishDate_ uploadDate_,
    raw = Js.Obj fields
    /\ Js.prop raw "id" = Some (Js.Str id_)
    /\ Js.nonEmpty id_ = true
    /\ item = normalized type_ raw id_ publishDate_ uploadDate_.
Proof.
  intros H. unfold pushItem in H.
  destruct (negb (Js.truthy raw)); [discriminate|].
  destruct raw as [|b|q|s|elems|fields]; try discriminate.
  cbn [Js.typeof] in H.
  destruct (getStr (Js.Obj fields) "id") as [id_|] eqn:Hid; [|discriminate].
  destruct (Js.nonEmpty id_) eqn:Hne; [|discriminate].
  unfold bind in H.
  destruct (orNow h _ t) as [publishDate_ t1].
  destruct (orNow h _ t1) as [uploadDate_ t2].
  injection H as <- _.
  exists fields, id_, publishDate_, uploadDate_.
  repeat split; try assumption.
  unfold getStr in Hid.
  destruct (Js.prop (Js.Obj fields) "id") as [[| | |s| |]|]; try discriminate.
  congruence.
Qed.


(** Conversely, an object with a non-empty string [id] is always pushed. *)
Lemma pushItem_accepts (fields : list (string * Js.value)) (id_ : string)
      (t : nat) :
  Js.prop (Js.Obj fields) "id" = Some (Js.Str id_) ->
  id_ <> "" ->
  exists item t',
    pushItem type_ (Js.Obj fields) h t = (Some item, t') /\ id item = id_.
Proof.
  intros Hid Hne. unfold pushItem, getStr. rewrite Hid.
  cbn [Js.truthy negb Js.typeof].
  destruct id_ as [|c rest]; [contradiction|]. cbn [Js.nonEmpty].
  unfold bind.
  destruct (orNow h _ t) as [publishDate_ t1].
  destruct (orNow h _ t1) as [uploadDate_ t2].
  eexists; eexists; split; reflexivity.
Qed.

Lemma isTrue_spec (raw : Js.value) (k : string) :
  isTrue raw k = true <-> Js.prop raw k = Some (Js.Bool true).
Proof.
  unfold isTrue.
  destruct (Js.prop raw k) as [[|[|]| | | |]|]; split; congruence.
Qed.

Lemma getStr_spec (raw : Js.value) (k s : string) :
  getStr raw k = Some s <-> Js.prop raw k = Some (Js.Str s).
Proof.
  unfold getStr.
  destruct (Js.prop raw k) as [[| | | | |]|]; split; congruence.
Qed.

Lemma oneOf_In (s : string) (allowed : list string) :
  oneOf s allowed = true <-> In s allowed.
Proof.
  unfold oneOf. rewrite existsb_exists. split.
  - intros [x [Hin Heq]]. apply String.eqb_eq in Heq. subst. assumption.
  - intros Hin. exists s. split; [assumption | apply String.eqb_refl].
Qed.

Lemma pickStatus_closed (raw : Js.value) : In (pickStatus raw) statusValues.
Proof.
  unfold pickStatus.
  destruct (getStr raw "status") as [s|].
  - destruct (oneOf s _) eqn:Hs.
    + apply oneOf_In in Hs. exact Hs.
    + destruct (isTrue raw "isPublished"); simpl; auto.
  - destruct (isTrue raw "isPublished"); simpl; auto.
Qed.

(** C1: the pushed record has [isPublished] true exactly when the raw
    [isPublished] is literally [true] or the resolved [status] is
    "published". *)
Theorem C1_published_iff_flag_or_status
        (raw : Js.value) (t t' : nat) (item : GalleryItem) :
  pushItem type_ raw h t = (Some item, t') ->
  (isPublished item = true <->
   Js.prop raw "isPublished" = Some (Js.Bool true)
   \/ status item = "published").
Proof.
  intros H. apply pushItem_Some in H.
  destruct H as (fields & id_ & pd & ud & -> & _ & _ & ->).
  cbn [isPublished status normalized].
  rewrite orb_true_iff, isTrue_spec, String.eqb_eq. reflexivity.
Qed.

(** C3: the resolved [status] lies in the closed set; a recognised raw
    [status] string is taken as it is; with any other raw [status] the
    value is inferred from the raw [isPublished] flag. *)
Theorem C3_status_resolution
        (raw : Js.value) (t t' : nat) (item : GalleryItem) :
  pushItem type_ raw h t = (Some item, t') ->
  In (status item) statusValues
  /\ (forall s, Js.prop raw "status" = Some (Js.Str s) ->
                In s statusValues -> status item = s)
  /\ ((forall s, Js.prop raw "status" = Some (Js.Str s) ->
                 ~ In s statusValues) ->
      (Js.prop raw "isPublished" = Some (Js.Bool true) ->
       status item = "published")
      /\ (Js.prop raw "isPublished" <> Some (Js.Bool true) ->
          status item = "development")).
Proof.
  intros H. apply pushItem_Some in H.
  destruct H as (fields & id_ & pd & ud & -> & _ & _ & ->).
  cbn [status normalized]. split; [apply pickStatus_closed|]. split.
  - intros s Hs Hin. unfold pickStatus.
    apply getStr_spec in Hs. rewrite Hs.
    apply oneOf_In in Hin. unfold statusValues in Hin. rewrite Hin.
    reflexivity.
  - intros Hno.
    assert (Hinfer : pickStatus (Js.Obj fields)
                     = if isTrue (Js.Obj fields) "isPublished"
                       then "published" else "development").
    { unfold pickStatus.
      destruct (getStr (Js.Obj fields) "status") as [s|] eqn:Hs;
        [|reflexivity].
      destruct (oneOf s _) eqn:Hin; [|reflexivity].
      apply oneOf_In in Hin. apply getStr_spec in Hs.
      exfalso. exact (Hno s Hs Hin). }
    rewrite Hinfer. split; intros Hflag.
    + apply isTrue_spec in Hflag. rewrite Hflag. reflexivity.
    + destruct (isTrue (Js.Obj fields) "isPublished") eqn:Hb;
        [|reflexivity].
      apply isTrue_spec in Hb. contradiction.
Qed.

(** C4: nothing is pushed for a value that is not an object, for an object
    without a string [id], and for an object whose [id] is the empty
    string; a pushed record carries the raw [id], which is not empty. *)
Theorem C4_rejects_without_id (raw : Js.value) (t : nat) :
  ((forall fields, raw <> Js.Obj fields) ->
   pushItem type_ raw h t = (None, t))
  /\ ((forall s, Js.prop raw "id" <> Some (Js.Str s)) ->
      pushItem type_ raw h t = (None, t))
  /\ (Js.prop raw "id" = Some (Js.Str "") ->
      pushItem type_ raw h t = (None, t))
  /\ (forall item t',
         pushItem type_ raw h t = (Some item, t') ->
         id item <> "" /\ Js.prop raw "id" = Some (Js.Str (id item))).
Proof.
  split; [|split; [|split]].
  - intros Hno. unfold pushItem.
    destruct raw as [|b|q|s|elems|fields]; cbn;
      try reflexivity.
    + destruct b; reflexivity.
    + destruct (negb _); reflexivity.
    + destruct (negb _); reflexivity.
    + exfalso. exact (Hno fields eq_refl).
  - intros Hno. unfold pushItem.
    destruct (negb (Js.truthy raw)); [reflexivity|].
    destruct (Js.typeof raw); try reflexivity.
    destruct (getStr raw "id") as [s|] eqn:Hs; [|reflexivity].
    apply getStr_spec in Hs. exfalso. exact (Hno s Hs).
  - intros Hid. unfold pushItem.
    destruct (negb (Js.truthy raw)); [reflexivity|].
    destruct (Js.typeof raw); try reflexivity.
    apply getStr_spec in Hid. rewrite Hid. reflexivity.
  - intros item t' H. apply pushItem_Some in H.
    destruct H as (fields & id_ & pd & ud & -> & Hid & Hne & ->).
    cbn [id normalized]. split; [|exact Hid].
    intros ->. discriminate.
Qed.

Lemma orLit_given (a b : option string) (m d : string) :
  given a m -> Js.orLit (Js.orElse a b) d = m.
Proof.
  intros [-> Hne]. destruct m as [|c rest]; [contradiction|]. reflexivity.
Qed.

Lemma orElse_missing (a b : option string) : missing a -> Js.orElse a b = b.
Proof. intros [->| ->]; reflexivity. Qed.

Lemma orElse_given (a b : option string) (m : string) :
  given a m -> Js.orElse a b = Some m.
Proof.
  intros [-> Hne]. destruct m as [|c rest]; [contradiction|]. reflexivity.
Qed.

(** C6 (amended): a modern field ([title], [content], [author]) that holds
    a non-empty string is taken, whatever its legacy alias holds; a modern
    field that is empty or not a string counts as absent and the alias
    ([name], [description], [developer]) is read instead. *)
Theorem C6_nonempty_modern_field_wins
        (raw : Js.value) (t t' : nat) (item : GalleryItem) :
  pushItem type_ raw h t = (Some item, t') ->
  ((forall m, given (getStr raw "title") m -> title item = m)
   /\ (forall m, given (getStr raw "content") m -> content item = m)
   /\ (forall m, given (getStr raw "author") m -> author item = m))
  /\ ((missing (getStr raw "title") ->
       title item = Js.orLit (getStr raw "name") "")
      /\ (missing (getStr raw "content") ->
          content item = Js.orLit (getStr raw "description") "")
      /\ (missing (getStr raw "author") ->
          author item = Js.orLit (getStr raw "developer") "")).
Proof.
  intros H. apply pushItem_Some in H.
  destruct H as (fields & id_ & pd & ud & -> & _ & _ & ->).
  cbn [title content author normalized].
  split; repeat split; intros;
    solve [ apply orLit_given; assumption
          | rewrite orElse_missing by assumption; reflexivity ].
Qed.

(** C7 (amended): [imageUrl] is the [imageUrl] string if non-empty, else
    the [iconUrl] string if non-empty, else the first string of the
    [screenshotUrls] array (undefined when there is none).  When the array
    holds no string, [screenshotUrls] is the one-element list of [imageUrl]
    if that is a non-empty string and the empty list otherwise; when it
    holds strings, [screenshotUrls] is the list of them. *)
Theorem C7_image_priority_and_default
        (raw : Js.value) (t t' : nat) (item : GalleryItem) :
  pushItem type_ raw h t = (Some item, t') ->
  (forall s, given (getStr raw "imageUrl") s -> imageUrl item = Some s)
  /\ (missing (getStr raw "imageUrl") ->
      forall s, given (getStr raw "iconUrl") s -> imageUrl item = Some s)
  /\ (missing (getStr raw "imageUrl") -> missing (getStr raw "iconUrl") ->
      imageUrl item = hd_error (getArrStr raw "screenshotUrls"))
  /\ (getArrStr raw "screenshotUrls" = [] ->
      forall s, given (imageUrl item) s -> screenshotUrls item = [s])
  /\ (getArrStr raw "screenshotUrls" = [] -> missing (imageUrl item) ->
      screenshotUrls item = [])
  /\ (getArrStr raw "screenshotUrls" <> [] ->
      screenshotUrls item = getArrStr raw "screenshotUrls").
Proof.
  intros H. apply pushItem_Some in H.
  destruct H as (fields & id_ & pd & ud & -> & _ & _ & ->).
  cbn [imageUrl screenshotUrls normalized]. unfold firstImage, screenshots.
  repeat split.
  - intros s Hs.
    rewrite (orElse_given _ _ s); [reflexivity|].
    split; [apply orElse_given; assumption | apply Hs].
  - intros Hi s Hs. rewrite (orElse_missing _ _ Hi).
    apply orElse_given. assumption.
  - intros Hi Hc. rewrite (orElse_missing _ _ Hi).
    apply orElse_missing. assumption.
  - intros Hnil s [Hs Hne]. rewrite Hnil in *. rewrite Hs.
    destruct s as [|c rest]; [contradiction|]. reflexivity.
  - intros Hnil Hm. rewrite Hnil in *.
    destruct Hm as [->| ->]; reflexivity.
  - intros Hne. destruct (getArrStr (Js.Obj fields) "screenshotUrls");
      [contradiction|reflexivity].
Qed.

End Normaliser.

(** C8: [{id:"a1", name:"Foo", isPublished:true}] requested under
    "featured" is pushed with title "Foo", published, status "published"
    and type (as well as app category) "featured". *)
Theorem C8_scenario_featured (h : Host) (t : nat) :
  exists item,
    pushItem "featured" raw_a1 h t = (Some item, S (S t))
    /\ title item = "Foo"
    /\ isPublished item = true
    /\ status item = "published"
    /\ type item = "featured"
    /\ appCategory item = "featured".
Proof.
  eexists. split; [reflexivity|]. repeat split.
Qed.



(** * The listing *)

Section Listing.

Variable h : Host.
Variable type_ : string.

Lemma appended_pushed (raw : Js.value) (t : nat) pushed_ t' :
  pushItem type_ raw h t = (pushed_, t') ->
  Forall (pushedBy h type_) (appended pushed_).
Proof.
  intros Hpush. destruct pushed_ as [item|]; constructor; [|constructor].
  exists raw, t, t'. exact Hpush.
Qed.

Lemma forEachPush_pushed (elems : list Js.value) :
  forall t items t',
    forEachPush h type_ elems t = (items, t') ->
    Forall (pushedBy h type_) items.
Proof.
  induction elems as [|raw rest IH]; intros t items t' H; cbn in H.
  - injection H as <- _. constructor.
  - unfold bind in H.
    destruct (pushItem type_ raw h t) as [pushed_ t1] eqn:Hpush.
    destruct (forEachPush h type_ rest t1) as [more t2] eqn:Hrest.
    injection H as <- _. apply IH in Hrest.
    apply Forall_app. split; [|assumption].
    eapply appended_pushed, Hpush.
Qed.

Lemma loadFile_pushed (jsonFile : Blob) (t : nat) items t' :
  loadFile h type_ jsonFile t = (items, t') ->
  Forall (pushedBy h type_) items.
Proof.
  unfold loadFile. intros H.
  destruct (blob_fetch h (url jsonFile)) as [| |[data|]];
    try (injection H as <- _; constructor).
  assert (Hone : forall data items t',
             (pushed_ <- pushItem type_ data h ;; ret (appended pushed_)) t
             = (items, t') ->
             Forall (pushedBy h type_) items).
  { intros data0 items0 t0 H0. unfold bind in H0.
    destruct (pushItem type_ data0 h t) as [pushed_ t1] eqn:Hpush.
    injection H0 as <- _. eapply appended_pushed, Hpush. }
  destruct data;
    try (destruct (_ && _);
         [eapply Hone, H | injection H as <- _; constructor]).
  eapply forEachPush_pushed, H.
Qed.

Lemma loadItems_pushed (files : list Blob) :
  forall t items t',
    loadItems h type_ files t = (items, t') ->
    Forall (pushedBy h type_) items.
Proof.
  induction files as [|jsonFile rest IH]; intros t items t' H; cbn in H.
  - injection H as <- _. constructor.
  - unfold bind in H.
    destruct (loadFile h type_ jsonFile t) as [pushed_ t1] eqn:Hfile.
    destruct (loadItems h type_ rest t1) as [more t2] eqn:Hrest.
    injection H as <- _. apply Forall_app. split.
    + eapply loadFile_pushed, Hfile.
    + eapply IH, Hrest.
Qed.

(** A file that cannot be fetched, answers with an error status or does
    not parse pushes nothing and leaves the loop running. *)
Lemma loadFile_skips (jsonFile : Blob) (t : nat) :
  blob_fetch h (url jsonFile) = NetworkError
  \/ blob_fetch h (url jsonFile) = HttpStatus
  \/ blob_fetch h (url jsonFile) = Body None ->
  loadFile h type_ jsonFile t = ([], t).
Proof.
  unfold loadFile. intros [-> | [-> | ->]]; reflexivity.
Qed.

Lemma loadItems_app (before after : list Blob) (t : nat) :
  loadItems h type_ (before ++ after) t
  = let (items1, t1) := loadItems h type_ before t in
    let (items2, t2) := loadItems h type_ after t1 in
    ((items1 ++ items2)%list, t2).
Proof.
  revert t. induction before as [|jsonFile rest IH]; intros t; cbn.
  - destruct (loadItems h type_ after t); reflexivity.
  - unfold bind. destruct (loadFile h type_ jsonFile t) as [pushed_ t1].
    rewrite IH.
    destruct (loadItems h type_ rest t1) as [items1 t2]. cbn.
    destruct (loadItems h type_ after t2) as [items2 t3]. cbn.
    unfold ret. rewrite app_assoc. reflexivity.
Qed.

Lemma loadItems_skips (before after : list Blob) (bad : Blob) (t : nat) :
  blob_fetch h (url bad) = NetworkError
  \/ blob_fetch h (url bad) = HttpStatus
  \/ blob_fetch h (url bad) = Body None ->
  loadItems h type_ (before ++ bad :: after) t
  = loadItems h type_ (before ++ after) t.
Proof.
  intros Hbad. rewrite !loadItems_app.
  destruct (loadItems h type_ before t) as [items1 t1].
  cbn [loadItems]. unfold bind.
  rewrite (loadFile_skips bad t1 Hbad).
  destruct (loadItems h type_ after t1) as [items2 t2]. reflexivity.
Qed.

Lemma allBlobs_fails (folders : list string) (folderPath : string) :
  In folderPath folders ->
  blob_list h (folderPath ++ "/") = None ->
  allBlobs h folders = None.
Proof.
  induction folders as [|f rest IH]; intros Hin Hfail; [contradiction|].
  cbn. destruct Hin as [->|Hin].
  - rewrite Hfail. reflexivity.
  - destruct (blob_list h (f ++ "/")); [|reflexivity].
    rewrite (IH Hin Hfail). reflexivity.
Qed.

Lemma GET_Json (t : nat) body cacheControl t' :
  GET h (Some type_) t = (Json body cacheControl, t') ->
  exists blobs items,
    allBlobs h (folderPaths type_) = Some blobs
    /\ loadItems h type_ (jsonFiles blobs) t = (items, t')
    /\ body = filteredItems h type_ items.
Proof.
  unfold GET. intros H.
  destruct (negb (Js.nonEmpty type_)); [discriminate|].
  destruct (allBlobs h (folderPaths type_)) as [blobs|]; [|discriminate].
  unfold bind in H.
  destruct (loadItems h type_ (jsonFiles blobs) t) as [items t1] eqn:Hload.
  injection H as <- _ <-. exists blobs, items.
  split; [reflexivity|]. split; [exact Hload | reflexivity].
Qed.

Lemma filteredItems_In (items : list GalleryItem) (item : GalleryItem) :
  In item (filteredItems h type_ items)
  <-> In item items /\ keeps type_ item = true.
Proof.
  unfold filteredItems. rewrite sort_In, filter_In. reflexivity.
Qed.

Lemma pushedBy_latched (item : GalleryItem) :
  pushedBy h type_ item -> status item = "published" ->
  isPublished item = true.
Proof.
  intros (raw & t & t' & Hpush) Hst. apply pushItem_Some in Hpush.
  destruct Hpush as (fields & id_ & pd & ud & -> & _ & _ & ->).
  cbn [isPublished status normalized] in *. rewrite Hst.
  apply orb_true_r.
Qed.

End Listing.

Section ListingClaims.

Variable h : Host.

(** C2: the records GET returns are exactly the loaded records its filter
    admits: under "gallery"/"normal" those that are published or in
    review, under "featured"/"events" those that are published. *)
Theorem C2_listing_keeps_admitted_records
        (type_ : string) (t : nat) (body : list GalleryItem)
        (cacheControl : string) (t' : nat) :
  GET h (Some type_) t = (Json body cacheControl, t') ->
  exists blobs items,
    allBlobs h (folderPaths type_) = Some blobs
    /\ loadItems h type_ (jsonFiles blobs) t = (items, t')
    /\ (forall item, In item body -> In item items)
    /\ (type_ = "gallery" \/ type_ = "normal" ->
        forall item, In item items ->
          (In item body <->
           isPublished item = true \/ status item = "in-review"))
    /\ (type_ = "featured" \/ type_ = "events" ->
        forall item, In item items ->
          (In item body <-> isPublished item = true))
    /\ (type_ = "featured" ->
        forall item, In item body -> isPublished item = true)
    /\ (type_ = "gallery" ->
        forall item, In item items -> status item = "in-review" ->
          In item body).
Proof.
  intros HGET. destruct (GET_Json h type_ t body cacheControl t' HGET)
    as (blobs & items & Hlist & Hload & ->).
  pose proof (loadItems_pushed h type_ _ _ _ _ Hload) as Hpushed.
  rewrite Forall_forall in Hpushed.
  assert (Hall : isAllApps type_ = true ->
            forall item, In item items ->
              (In item (filteredItems h type_ items) <->
               isPublished item = true \/ status item = "in-review")).
  { intros Hty item Hin. rewrite filteredItems_In. unfold keeps.
    rewrite Hty, !orb_true_iff, !String.eqb_eq. split.
    - intros [_ [[Hp|Hr]|Hs]]; auto.
      left. apply (pushedBy_latched h type_); auto.
    - intros [Hp|Hr]; auto. }
  assert (Hrest : isAllApps type_ = false ->
            forall item, In item items ->
              (In item (filteredItems h type_ items) <->
               isPublished item = true)).
  { intros Hty item Hin. rewrite filteredItems_In. unfold keeps.
    rewrite Hty. tauto. }
  exists blobs, items.
  split; [exact Hlist|]. split; [exact Hload|].
  split; [|split; [|split; [|split]]].
  - intros item Hin. apply filteredItems_In in Hin. tauto.
  - intros [-> | ->]; apply Hall; reflexivity.
  - intros [-> | ->]; apply Hrest; reflexivity.
  - intros -> item Hin. apply filteredItems_In in Hin as Hin'.
    apply (Hrest eq_refl item); tauto.
  - intros -> item Hin Hst. apply (Hall eq_refl item Hin). right. exact Hst.
Qed.

Lemma allBlobs_succeeds (folders : list string) :
  (forall folderPath, In folderPath folders ->
     blob_list h (folderPath ++ "/") <> None) ->
  exists blobs, allBlobs h folders = Some blobs.
Proof.
  induction folders as [|f rest IH]; intros Hok; cbn.
  - exists []. reflexivity.
  - destruct (blob_list h (f ++ "/")) as [blobs|] eqn:Hf.
    + destruct IH as [more Hmore]; [intros; apply Hok; right; assumption|].
      rewrite Hmore. eexists. reflexivity.
    + exfalso. apply (Hok f); [left; reflexivity | exact Hf].
Qed.

(** C9: GET answers 400 when the [type] parameter is missing or empty;
    500 as soon as one enumeration call fails; and otherwise the JSON array
    built from the files that load, where a file that cannot be fetched or
    parsed is skipped without changing what the other files contribute. *)
Theorem C9_listing_error_signals (type_ : option string) (t : nat) :
  (type_ = None \/ type_ = Some "" ->
   GET h type_ t = (JsonError typeRequired 400, t))
  /\ (forall ty folderPath,
         type_ = Some ty -> ty <> "" ->
         In folderPath (folderPaths ty) ->
         blob_list h (folderPath ++ "/") = None ->
         GET h type_ t = (JsonError listingFailed 500, t))
  /\ (forall ty,
         type_ = Some ty -> ty <> "" ->
         (forall folderPath, In folderPath (folderPaths ty) ->
            blob_list h (folderPath ++ "/") <> None) ->
         exists blobs,
           allBlobs h (folderPaths ty) = Some blobs
           /\ GET h type_ t
              = (Json (filteredItems h ty
                         (fst (loadItems h ty (jsonFiles blobs) t))) noStore,
                 snd (loadItems h ty (jsonFiles blobs) t)))
  /\ (forall ty before bad after t0,
         blob_fetch h (url bad) = NetworkError
         \/ blob_fetch h (url bad) = HttpStatus
         \/ blob_fetch h (url bad) = Body None ->
         loadItems h ty (before ++ bad :: after) t0
         = loadItems h ty (before ++ after) t0).
Proof.
  split; [|split; [|split]].
  - intros [-> | ->]; reflexivity.
  - intros ty folderPath -> Hne Hin Hfail. unfold GET.
    destruct ty as [|c rest]; [contradiction|]. cbn [Js.nonEmpty negb].
    rewrite (allBlobs_fails h _ folderPath Hin Hfail).
    reflexivity.
  - intros ty -> Hne Hok. unfold GET.
    destruct ty as [|c rest]; [contradiction|]. cbn [Js.nonEmpty negb].
    destruct (allBlobs_succeeds _ Hok) as [blobs Hblobs].
    exists blobs. split; [exact Hblobs|]. rewrite Hblobs. unfold bind.
    destruct (loadItems h (String c rest) (jsonFiles blobs) t).
    reflexivity.
  - intros ty before bad after t0 Hbad. apply loadItems_skips. exact Hbad.
Qed.

(** When every record kept has a date that parses, the listing is in
    non-increasing order of time, and records of equal time stay in the
    order in which they were loaded. *)
Lemma filteredItems_sorted_stable (type_ : string) (items : list GalleryItem) :
  Forall (fun item => getTime h item <> None) (filter (keeps type_) items) ->
  StronglySorted (descendingBy (sortTimestamp h)) (filteredItems h type_ items)
  /\ (forall k,
         filter (fun a => sortTimestamp h a =? k) (filteredItems h type_ items)
         = filter (fun a => sortTimestamp h a =? k)
                  (filter (keeps type_) items))
  /\ Permutation (filteredItems h type_ items) (filter (keeps type_) items).
Proof.
  intros Hvalid. unfold filteredItems.
  assert (Hkey : ordersByKey (byRecency h) (sortTimestamp h)
                             (filter (keeps type_) items)).
  { rewrite Forall_forall in Hvalid. intros x y Hx Hy.
    unfold byRecency, sortTimestamp.
    pose proof (Hvalid x Hx). pose proof (Hvalid y Hy).
    destruct (getTime h x), (getTime h y); congruence. }
  split; [|split].
  - apply sort_sorted. exact Hkey.
  - intros k. apply sort_stable. exact Hkey.
  - apply sort_perm.
Qed.

End ListingClaims.

(** C5 fails on the store of [datedHost]: the record with the unreadable
    date compares as equal to both its neighbours, and the listing returns
    the record of January before the record of June. *)
Theorem C5_unreadable_date_breaks_order :
  exists body,
    GET datedHost (Some "gallery") 0%nat = (Json body noStore, 0%nat)
    /\ map id body = ["old"; "bad"; "new"]
    /\ map (getTime datedHost) body
       = [Some 1704067200000; None; Some 1717200000000]
    /\ ~ StronglySorted (descendingBy (sortTimestamp datedHost)) body.
Proof.
  eexists. split; [reflexivity|]. split; [reflexivity|].
  split; [reflexivity|].
  intros Hsorted. inversion Hsorted as [|a l _ Hall]; subst.
  rewrite Forall_forall in Hall.
  specialize (Hall _ (or_intror (or_introl eq_refl))).
  vm_compute in Hall. apply Hall. reflexivity.
Qed.

(** With dates that parse, the same store is listed newest first. *)
Example cleanHost_newest_first :
  exists body,
    GET cleanHost (Some "gallery") 0%nat = (Json body noStore, 0%nat)
    /\ map id body = ["new"; "mid"; "old"].
Proof. eexists. split; reflexivity. Qed.

(** * Prefixes and suffixes of keys *)

Lemma prefix_append (a b : string) : String.prefix a (a ++ b) = true.
Proof.
  induction a as [|c rest IH]; cbn.
  - destruct b; reflexivity.
  - destruct (ascii_dec c c) as [_|Hne]; [exact IH | contradiction].
Qed.

Lemma length_append (a b : string) :
  String.length (a ++ b) = (String.length a + String.length b)%nat.
Proof. induction a as [|c rest IH]; cbn; [reflexivity | now rewrite IH]. Qed.

Lemma substring_whole (b : string) : substring 0 (String.length b) b = b.
Proof. induction b as [|c rest IH]; cbn; [reflexivity | now rewrite IH]. Qed.

Lemma substring_append (a b : string) :
  substring (String.length a) (String.length b) (a ++ b) = b.
Proof.
  induction a as [|c rest IH]; cbn; [apply substring_whole | exact IH].
Qed.

Lemma endsWith_append (a b : string) : Js.endsWith (a ++ b) b = true.
Proof.
  unfold Js.endsWith. rewrite length_append.
  replace (String.length a + String.length b - String.length b)%nat
    with (String.length a) by lia.
  rewrite substring_append, String.eqb_refl, andb_true_r.
  apply Nat.leb_le. lia.
Qed.

Lemma append_assoc (a b c : string) : ((a ++ b) ++ c = a ++ (b ++ c))%string.
Proof. induction a as [|x rest IH]; cbn; [reflexivity | now rewrite IH]. Qed.

(** ** Instances *)

Lemma C1_published_iff_flag_or_status_witness :
  pushItem "gallery" raw_review_flagged emptyHost 0%nat
  = (Some (pushed "gallery" raw_review_flagged "r1"), 2%nat)
  /\ (isPublished (pushed "gallery" raw_review_flagged "r1") = true <->
      Js.prop raw_review_flagged "isPublished" = Some (Js.Bool true)
      \/ status (pushed "gallery" raw_review_flagged "r1") = "published").
Proof.
  split; [reflexivity|].
  apply (C1_published_iff_flag_or_status emptyHost "gallery"
           raw_review_flagged 0%nat 2%nat).
  reflexivity.
Defined.

(** The two signals disagree on this record, and the flag alone makes it
    published. *)
Example review_flagged_latches :
  status (pushed "gallery" raw_review_flagged "r1") = "in-review"
  /\ isPublished (pushed "gallery" raw_review_flagged "r1") = true.
Proof. split; reflexivity. Qed.

Lemma C3_status_resolution_witness :
  pushItem "gallery" raw_odd_status emptyHost 0%nat
  = (Some (pushed "gallery" raw_odd_status "s1"), 2%nat)
  /\ In (status (pushed "gallery" raw_odd_status "s1")) statusValues
  /\ status (pushed "gallery" raw_odd_status "s1") = "published".
Proof.
  assert (Hpush : pushItem "gallery" raw_odd_status emptyHost 0%nat
                  = (Some (pushed "gallery" raw_odd_status "s1"), 2%nat))
    by reflexivity.
  split; [exact Hpush|].
  destruct (C3_status_resolution emptyHost "gallery" raw_odd_status 0%nat 2%nat _
              Hpush) as (Hin & _ & Hinfer).
  split; [exact Hin|].
  apply Hinfer; [|reflexivity].
  intros s Hs. injection Hs as <-.
  unfold statusValues. simpl. intros [H|[H|[H|[]]]]; discriminate.
Defined.

Lemma C4_rejects_without_id_witness :
  pushItem "gallery" (Js.Arr [Js.Str "a1"]) emptyHost 0%nat = (None, 0%nat)
  /\ pushItem "gallery" (Js.Obj [("id", Js.Num 7%Q)]) emptyHost 0%nat
     = (None, 0%nat)
  /\ pushItem "gallery" (Js.Obj [("id", Js.Str "")]) emptyHost 0%nat
     = (None, 0%nat)
  /\ id (pushed "featured" raw_a1 "a1") <> "".
Proof.
  split; [|split; [|split]].
  - destruct (C4_rejects_without_id emptyHost "gallery"
                (Js.Arr [Js.Str "a1"]) 0%nat) as (Hnot & _).
    apply Hnot. intros fields. discriminate.
  - destruct (C4_rejects_without_id emptyHost "gallery"
                (Js.Obj [("id", Js.Num 7%Q)]) 0%nat) as (_ & Hnoid & _).
    apply Hnoid. intros s. discriminate.
  - destruct (C4_rejects_without_id emptyHost "gallery"
                (Js.Obj [("id", Js.Str "")]) 0%nat) as (_ & _ & Hempty & _).
    apply Hempty. reflexivity.
  - destruct (C4_rejects_without_id emptyHost "featured" raw_a1 0%nat)
      as (_ & _ & _ & Hpushed).
    apply (Hpushed (pushed "featured" raw_a1 "a1") 2%nat). reflexivity.
Defined.

(** C6, as stated, fails on [{id:"t1", title:"", name:"Foo"}]: both fields
    are set, to different strings, and the record takes the alias. *)
Lemma C6_empty_title_takes_alias :
  Js.prop raw_empty_title "title" = Some (Js.Str "")
  /\ Js.prop raw_empty_title "name" = Some (Js.Str "Foo")
  /\ pushItem "gallery" raw_empty_title emptyHost 0%nat
     = (Some (pushed "gallery" raw_empty_title "t1"), 2%nat)
  /\ title (pushed "gallery" raw_empty_title "t1") = "Foo"
  /\ title (pushed "gallery" raw_empty_title "t1") <> "".
Proof. repeat split; try reflexivity. discriminate. Qed.

Lemma C6_nonempty_modern_field_wins_witness :
  pushItem "gallery" raw_both_names emptyHost 0%nat
  = (Some (pushed "gallery" raw_both_names "t2"), 2%nat)
  /\ title (pushed "gallery" raw_both_names "t2") = "New"
  /\ content (pushed "gallery" raw_both_names "t2") = "Body"
  /\ author (pushed "gallery" raw_both_names "t2") = "Ann".
Proof.
  assert (Hpush : pushItem "gallery" raw_both_names emptyHost 0%nat
                  = (Some (pushed "gallery" raw_both_names "t2"), 2%nat))
    by reflexivity.
  split; [exact Hpush|].
  destruct (C6_nonempty_modern_field_wins emptyHost "gallery" raw_both_names
              0%nat 2%nat _ Hpush) as ((Ht & Hc & Ha) & _).
  split; [|split]; [apply Ht | apply Hc | apply Ha];
    (split; [reflexivity | discriminate]).
Defined.

(** C7, as stated, fails on [{id:"i0"}]: there is no image list, and
    [screenshotUrls] is empty instead of a one-element list holding
    [imageUrl] (which is undefined). *)
Lemma C7_no_image_gives_empty_list :
  Js.prop raw_no_image "screenshotUrls" = None
  /\ pushItem "gallery" raw_no_image emptyHost 0%nat
     = (Some (pushed "gallery" raw_no_image "i0"), 2%nat)
  /\ imageUrl (pushed "gallery" raw_no_image "i0") = None
  /\ screenshotUrls (pushed "gallery" raw_no_image "i0") = []
  /\ ~ (exists s, imageUrl (pushed "gallery" raw_no_image "i0") = Some s
                  /\ screenshotUrls (pushed "gallery" raw_no_image "i0")
                     = [s]).
Proof.
  repeat split; try reflexivity. intros [s [H _]]. discriminate.
Qed.

Lemma C7_image_priority_and_default_witness :
  pushItem "gallery" raw_icon_only emptyHost 0%nat
  = (Some (pushed "gallery" raw_icon_only "i1"), 2%nat)
  /\ imageUrl (pushed "gallery" raw_icon_only "i1") = Some "icon.png"
  /\ screenshotUrls (pushed "gallery" raw_icon_only "i1") = ["icon.png"].
Proof.
  assert (Hpush : pushItem "gallery" raw_icon_only emptyHost 0%nat
                  = (Some (pushed "gallery" raw_icon_only "i1"), 2%nat))
    by reflexivity.
  split; [exact Hpush|].
  destruct (C7_image_priority_and_default emptyHost "gallery" raw_icon_only
              0%nat 2%nat _ Hpush) as (_ & Hicon & _ & Hone & _).
  assert (Himg : imageUrl (pushed "gallery" raw_icon_only "i1")
                 = Some "icon.png").
  { apply Hicon; [left; reflexivity|]. split; [reflexivity|discriminate]. }
  split; [exact Himg|].
  apply Hone; [reflexivity|]. split; [exact Himg|discriminate].
Defined.

Lemma C2_listing_keeps_admitted_records_witness :
  GET mixedHost (Some "gallery") 0%nat
  = (Json [pushed "gallery"
             (Js.Obj [("id", Js.Str "pub"); ("isPublished", Js.Bool true)])
             "pub";
           normalized "gallery"
             (Js.Obj [("id", Js.Str "rev"); ("status", Js.Str "in-review")])
             "rev" (Date_now mixedHost 2%nat) (Date_now mixedHost 3%nat)]
          noStore, 6%nat)
  /\ exists blobs items,
       allBlobs mixedHost (folderPaths "gallery") = Some blobs
       /\ loadItems mixedHost "gallery" (jsonFiles blobs) 0%nat
          = (items, 6%nat)
       /\ length items = 3%nat.
Proof.
  assert (HGET : GET mixedHost (Some "gallery") 0%nat
    = (Json [pushed "gallery"
               (Js.Obj [("id", Js.Str "pub"); ("isPublished", Js.Bool true)])
               "pub";
             normalized "gallery"
               (Js.Obj [("id", Js.Str "rev"); ("status", Js.Str "in-review")])
               "rev" (Date_now mixedHost 2%nat) (Date_now mixedHost 3%nat)]
            noStore, 6%nat)) by reflexivity.
  split; [exact HGET|].
  destruct (C2_listing_keeps_admitted_records mixedHost "gallery" 0%nat _ _ _
              HGET) as (blobs & items & Hlist & Hload & _).
  exists blobs, items. split; [exact Hlist|]. split; [exact Hload|].
  vm_compute in Hlist. injection Hlist as <-.
  vm_compute in Hload. injection Hload as <-. reflexivity.
Defined.

(** The same store listed under "gallery" and under "featured". *)
Example mixedHost_listings :
  (exists body,
      GET mixedHost (Some "gallery") 0%nat = (Json body noStore, 6%nat)
      /\ map (fun item => (id item, isPublished item, status item)) body
         = [("pub", true, "published"); ("rev", false, "in-review")])
  /\ (exists body,
         GET mixedHost (Some "featured") 0%nat = (Json body noStore, 6%nat)
         /\ map (fun item => (id item, isPublished item, status item)) body
            = [("pub", true, "published")]).
Proof. split; eexists; split; reflexivity. Qed.

Lemma C9_listing_error_signals_witness :
  GET emptyHost None 0%nat = (JsonError typeRequired 400, 0%nat)
  /\ GET downHost (Some "gallery") 0%nat = (JsonError listingFailed 500, 0%nat)
  /\ (exists blobs,
         allBlobs mixedHost (folderPaths "featured") = Some blobs
         /\ GET mixedHost (Some "featured") 0%nat
            = (Json (filteredItems mixedHost "featured"
                       (fst (loadItems mixedHost "featured" (jsonFiles blobs)
                               0%nat))) noStore,
               snd (loadItems mixedHost "featured" (jsonFiles blobs) 0%nat)))
  /\ loadItems mixedHost "featured"
       ([] ++ blobAt "gallery-featured/broken.json"
           :: [blobAt "gallery-featured/apps.json"]) 0%nat
     = loadItems mixedHost "featured"
         ([] ++ [blobAt "gallery-featured/apps.json"]) 0%nat.
Proof.
  split; [|split; [|split]].
  - destruct (C9_listing_error_signals emptyHost None 0%nat) as (Hmiss & _).
    apply Hmiss. left. reflexivity.
  - destruct (C9_listing_error_signals downHost (Some "gallery") 0%nat)
      as (_ & Hdown & _).
    apply (Hdown "gallery" "gallery-gallery");
      [reflexivity | discriminate | left; reflexivity | reflexivity].
  - destruct (C9_listing_error_signals mixedHost (Some "featured") 0%nat)
      as (_ & _ & Hok & _).
    apply (Hok "featured"); [reflexivity | discriminate |].
    intros folderPath [<-|[]]. discriminate.
  - destruct (C9_listing_error_signals mixedHost (Some "featured") 0%nat)
      as (_ & _ & _ & Hskip).
    apply Hskip. right. right. reflexivity.
Defined.


(** * More on the normaliser *)

Section NormaliserFields.

Variable h : Host.
Variable type_ : string.

Lemma given_or_missing (o : option string) :
  (exists s, given o s) \/ missing o.
Proof.
  destruct o as [[|c rest]|].
  - right. right. reflexivity.
  - left. exists (String c rest). split; [reflexivity|discriminate].
  - right. left. reflexivity.
Qed.

Lemma given_not_missing (o : option string) (s : string) :
  given o s -> ~ missing o.
Proof. intros [-> Hne] [H|H]; [discriminate|]. injection H as ->. auto. Qed.

Lemma orLit_missing (a : option string) (d : string) :
  missing a -> Js.orLit a d = d.
Proof. intros [->| ->]; reflexivity. Qed.

Lemma orLit_direct (a : option string) (m d : string) :
  given a m -> Js.orLit a d = m.
Proof.
  intros [-> Hne]. destruct m as [|c rest]; [contradiction|]. reflexivity.
Qed.

Lemma given_orElse (a b : option string) (m : string) :
  given a m -> given (Js.orElse a b) m.
Proof. intros Hm. split; [apply orElse_given, Hm | apply Hm]. Qed.

(** What [pushItem] pushes, with the clock readings it takes. *)
Lemma pushItem_dates (raw : Js.value) (t t' : nat) (item : GalleryItem) :
  pushItem type_ raw h t = (Some item, t') ->
  exists id_ t1,
    item = normalized type_ raw id_ (publishDate item) (uploadDate item)
    /\ orNow h (Js.orElse (getStr raw "publishDate")
                          (getStr raw "uploadDate")) t
       = (publishDate item, t1)
    /\ orNow h (Js.orElse (getStr raw "uploadDate")
                          (getStr raw "publishDate")) t1
       = (uploadDate item, t').
Proof.
  intros H. unfold pushItem in H.
  destruct (negb (Js.truthy raw)); [discriminate|].
  destruct (Js.typeof raw); try discriminate.
  destruct (getStr raw "id") as [id_|]; [|discriminate].
  destruct (Js.nonEmpty id_); [|discriminate].
  unfold bind in H.
  destruct (orNow h _ t) as [pd t1] eqn:Hpd.
  destruct (orNow h _ t1) as [ud t2] eqn:Hud.
  injection H as <- <-. exists id_, t1. cbn. auto.
Qed.

(** X1: the [type] of a pushed record is the raw [type] when that is one
    of the four known types, and the type of the request otherwise; under
    a request for a known type it is always a known type. *)
Theorem X1_type_resolution
        (raw : Js.value) (t t' : nat) (item : GalleryItem) :
  pushItem type_ raw h t = (Some item, t') ->
  (forall ty, getStr raw "type" = Some ty -> In ty typeValues ->
              type item = ty)
  /\ ((forall ty, getStr raw "type" = Some ty -> ~ In ty typeValues) ->
      type_ <> "" -> type item = type_)
  /\ (In type_ typeValues -> In (type item) typeValues).
Proof.
  intros H. apply pushItem_Some in H.
  destruct H as (fields & id_ & pd & ud & -> & _ & _ & ->).
  cbn [type normalized]. unfold pickType.
  assert (Hreq : type_ <> "" -> Js.orLit (Some type_) "gallery" = type_).
  { intros Hne. destruct type_; [contradiction|reflexivity]. }
  split; [|split].
  - intros ty Hty Hin. rewrite Hty.
    apply oneOf_In in Hin. unfold typeValues in Hin. rewrite Hin.
    reflexivity.
  - intros Hno Hne.
    destruct (getStr (Js.Obj fields) "type") as [ty|] eqn:Hty;
      [|apply Hreq, Hne].
    destruct (oneOf ty _) eqn:Hin; [|apply Hreq, Hne].
    apply oneOf_In in Hin. exfalso. exact (Hno ty eq_refl Hin).
  - intros Hin.
    assert (Hne : type_ <> "").
    { intros ->. simpl in Hin. intuition discriminate. }
    destruct (getStr (Js.Obj fields) "type") as [ty|] eqn:Hty;
      [|rewrite (Hreq Hne); exact Hin].
    destruct (oneOf ty _) eqn:Hty'.
    + apply oneOf_In in Hty'. exact Hty'.
    + rewrite (Hreq Hne). exact Hin.
Qed.

(** X2: the [appCategory] of a pushed record is the raw [appCategory] when
    that is "featured", "events" or "normal"; otherwise it follows the
    request: "featured" and "events" give themselves, every other type
    gives "normal". *)
Theorem X2_category_resolution
        (raw : Js.value) (t t' : nat) (item : GalleryItem) :
  pushItem type_ raw h t = (Some item, t') ->
  In (appCategory item) categoryValues
  /\ (forall c, getStr raw "appCategory" = Some c -> In c categoryValues ->
                appCategory item = c)
  /\ ((forall c, getStr raw "appCategory" = Some c ->
                 ~ In c categoryValues) ->
      (type_ = "featured" -> appCategory item = "featured")
      /\ (type_ = "events" -> appCategory item = "events")
      /\ (type_ <> "featured" -> type_ <> "events" ->
          appCategory item = "normal")).
Proof.
  intros H. apply pushItem_Some in H.
  destruct H as (fields & id_ & pd & ud & -> & _ & _ & ->).
  cbn [appCategory normalized]. unfold pickCategory.
  assert (HbyType : In (byType type_) categoryValues).
  { unfold byType. destruct (String.eqb type_ "featured");
      [left; reflexivity|].
    destruct (String.eqb type_ "events");
      [right; left; reflexivity | right; right; left; reflexivity]. }
  split; [|split].
  - destruct (getStr (Js.Obj fields) "appCategory") as [c|]; [|exact HbyType].
    destruct (oneOf c _) eqn:Hc; [|exact HbyType].
    apply oneOf_In in Hc. exact Hc.
  - intros c Hc Hin. rewrite Hc. apply oneOf_In in Hin.
    unfold categoryValues in Hin. rewrite Hin. reflexivity.
  - intros Hno.
    assert (Hfall : match getStr (Js.Obj fields) "appCategory" with
                    | Some c =>
                        if oneOf c ["featured"; "events"; "normal"] then c
                        else byType type_
                    | None => byType type_
                    end = byType type_).
    { destruct (getStr (Js.Obj fields) "appCategory") as [c|] eqn:Hc;
        [|reflexivity].
      destruct (oneOf c _) eqn:Hin; [|reflexivity].
      apply oneOf_In in Hin. exfalso. exact (Hno c eq_refl Hin). }
    rewrite Hfall. unfold byType. split; [|split].
    + intros ->. reflexivity.
    + intros ->. reflexivity.
    + intros Hf He.
      apply String.eqb_neq in Hf. apply String.eqb_neq in He.
      rewrite Hf, He. reflexivity.
Qed.

(** X3: when the raw value gives a publish date or an upload date, the
    record takes it for both fields where the other is missing, and the
    clock is not read; when it gives neither, the clock is read twice,
    once for each field. *)
Theorem X3_dates_and_clock
        (raw : Js.value) (t t' : nat) (item : GalleryItem) :
  pushItem type_ raw h t = (Some item, t') ->
  (forall p, given (getStr raw "publishDate") p ->
     publishDate item = p /\ t' = t
     /\ (forall u, given (getStr raw "uploadDate") u -> uploadDate item = u)
     /\ (missing (getStr raw "uploadDate") -> uploadDate item = p))
  /\ (missing (getStr raw "publishDate") ->
      forall u, given (getStr raw "uploadDate") u ->
        publishDate item = u /\ uploadDate item = u /\ t' = t)
  /\ (missing (getStr raw "publishDate") ->
      missing (getStr raw "uploadDate") ->
      publishDate item = Date_now h t
      /\ uploadDate item = Date_now h (S t)
      /\ t' = S (S t)).
Proof.
  intros H. apply pushItem_dates in H.
  destruct H as (id_ & t1 & _ & Hpd & Hud).
  assert (Hgiven : forall o s tt, given o s -> orNow h o tt = (s, tt)).
  { intros o s tt [-> Hne]. destruct s; [contradiction|reflexivity]. }
  assert (Hmiss : forall o tt, missing o ->
                    orNow h o tt = (Date_now h tt, S tt)).
  { intros o tt [->| ->]; reflexivity. }
  split; [|split].
  - intros p Hp.
    rewrite (Hgiven _ p t (given_orElse _ _ p Hp)) in Hpd.
    injection Hpd as Hpd <-.
    destruct (given_or_missing (getStr raw "uploadDate")) as [[u Hu]|Hm].
    + rewrite (Hgiven _ u t (given_orElse _ _ u Hu)) in Hud.
      injection Hud as Hud <-.
      split; [auto|]. split; [reflexivity|]. split.
      * intros u' [Hu' _]. destruct Hu as [Hu _]. congruence.
      * intros Hm. exfalso. exact (given_not_missing _ _ Hu Hm).
    + rewrite (orElse_missing _ _ Hm) in Hud.
      rewrite (Hgiven _ p t Hp) in Hud. injection Hud as Hud <-.
      split; [auto|]. split; [reflexivity|]. split.
      * intros u' Hu'. exfalso. exact (given_not_missing _ _ Hu' Hm).
      * congruence.
  - intros Hm u Hu.
    rewrite (orElse_missing _ _ Hm), (Hgiven _ u t Hu) in Hpd.
    injection Hpd as Hpd <-.
    rewrite (Hgiven _ u t (given_orElse _ _ u Hu)) in Hud.
    injection Hud as Hud <-. auto.
  - intros Hmp Hmu.
    rewrite (orElse_missing _ _ Hmp), (Hmiss _ t Hmu) in Hpd.
    injection Hpd as Hpd <-.
    rewrite (orElse_missing _ _ Hmu), (Hmiss _ (S t) Hmp) in Hud.
    injection Hud as Hud <-. auto.
Qed.

(** X4: the legacy-named fields of a pushed record mirror the modern
    ones: [name], [developer] and [description] take the legacy field when
    it holds a non-empty string, and a pair of fields carries one and the
    same value as soon as one side of it is missing in the raw value. *)
Theorem X4_alias_fields_mirror
        (raw : Js.value) (t t' : nat) (item : GalleryItem) :
  pushItem type_ raw h t = (Some item, t') ->
  ((forall l, given (getStr raw "name") l -> name item = l)
   /\ (forall l, given (getStr raw "developer") l -> developer item = l)
   /\ (forall l, given (getStr raw "description") l -> description item = l))
  /\ ((missing (getStr raw "title") \/ missing (getStr raw "name") ->
       title item = name item)
      /\ (missing (getStr raw "author") \/ missing (getStr raw "developer") ->
          author item = developer item)
      /\ (missing (getStr raw "content")
          \/ missing (getStr raw "description") ->
          content item = description item)).
Proof.
  intros H. apply pushItem_Some in H.
  destruct H as (fields & id_ & pd & ud & -> & _ & _ & ->).
  cbn [title name author developer content description normalized].
  assert (Hpair : forall a b : option string,
             missing a \/ missing b ->
             Js.orLit (Js.orElse a b) "" = Js.orLit (Js.orElse b a) "").
  { intros a b Hm.
    destruct a as [[|ca ra]|], b as [[|cb rb]|]; try reflexivity.
    destruct Hm as [[H|H]|[H|H]]; discriminate. }
  split; [repeat split; intros; apply orLit_given; assumption|].
  repeat split; apply Hpair.
Qed.

(** X5: [iconUrl] is the raw [iconUrl] when that is a non-empty string,
    else the record's [imageUrl] when that is a non-empty string, else the
    empty string; and a record whose [imageUrl] is a non-empty string has
    at least one entry in [screenshotUrls]. *)
Theorem X5_icon_and_screenshots
        (raw : Js.value) (t t' : nat) (item : GalleryItem) :
  pushItem type_ raw h t = (Some item, t') ->
  (forall s, given (getStr raw "iconUrl") s -> iconUrl item = s)
  /\ (missing (getStr raw "iconUrl") ->
      iconUrl item = Js.orLit (imageUrl item) "")
  /\ (forall s, given (imageUrl item) s -> screenshotUrls item <> []).
Proof.
  intros H. apply pushItem_Some in H.
  destruct H as (fields & id_ & pd & ud & -> & _ & _ & ->).
  cbn [iconUrl imageUrl screenshotUrls normalized]. split; [|split].
  - intros s Hs. apply orLit_given. exact Hs.
  - intros Hm. rewrite (orElse_missing _ _ Hm). reflexivity.
  - intros s [Hs Hne]. unfold screenshots.
    destruct (getArrStr (Js.Obj fields) "screenshotUrls"); [|discriminate].
    rewrite Hs. destruct s; [contradiction|discriminate].
Qed.

End NormaliserFields.

(** * More on the listing *)

Section ListingFacts.

Variable h : Host.

Lemma pushItem_unguarded (type_ : string) (raw : Js.value) (t : nat) :
  Js.truthy raw
  && match Js.prop raw "id" with
     | Some v => Js.truthy v
     | None => false
     end = false ->
  pushItem type_ raw h t = (None, t).
Proof.
  intros Hguard. unfold pushItem.
  destruct (Js.truthy raw); [|reflexivity]. cbn [negb andb] in *.
  destruct (Js.typeof raw); try reflexivity.
  unfold getStr.
  destruct (Js.prop raw "id") as [[| | |s| |]|]; try reflexivity.
  cbn in Hguard. rewrite Hguard. reflexivity.
Qed.

Lemma pickType_closed (type_ : string) (raw : Js.value) :
  In type_ typeValues -> In (pickType type_ raw) typeValues.
Proof.
  intros Hin. unfold pickType.
  assert (Hreq : Js.orLit (Some type_) "gallery" = type_).
  { destruct type_; [|reflexivity]. simpl in Hin. intuition discriminate. }
  destruct (getStr raw "type") as [ty|]; [|rewrite Hreq; exact Hin].
  destruct (oneOf ty _) eqn:Hty; [|rewrite Hreq; exact Hin].
  apply oneOf_In in Hty. exact Hty.
Qed.

Lemma folderPaths_unknown (type_ : string) :
  ~ In type_ typeValues -> folderPaths type_ = [].
Proof.
  intros Hno. unfold folderPaths, isAllApps.
  destruct (String.eqb_spec type_ "gallery") as [->|_];
    [exfalso; apply Hno; simpl; auto|].
  destruct (String.eqb_spec type_ "normal") as [->|_];
    [exfalso; apply Hno; simpl; auto|].
  destruct (String.eqb_spec type_ "featured") as [->|_];
    [exfalso; apply Hno; simpl; auto|].
  destruct (String.eqb_spec type_ "events") as [->|_];
    [exfalso; apply Hno; simpl; auto|].
  reflexivity.
Qed.

(** X6: a JSON file that holds one value which is not an array contributes
    to the listing exactly what a file holding the one-element array of
    that value contributes: the test on [data.id] before the call lets
    through every value that [pushItem] accepts. *)
Theorem X6_single_object_as_one_element_array
        (type_ : string) (single wrapped : Blob) (raw : Js.value) (t : nat) :
  (forall elems, raw <> Js.Arr elems) ->
  blob_fetch h (url single) = Body (Some raw) ->
  blob_fetch h (url wrapped) = Body (Some (Js.Arr [raw])) ->
  loadFile h type_ single t = loadFile h type_ wrapped t.
Proof.
  intros Hnot Hsingle Hwrapped. unfold loadFile.
  rewrite Hsingle, Hwrapped. cbn [forEachPush]. unfold bind, ret.
  assert (Hrhs : (let (a, t'0) := pushItem type_ raw h t in
                  ((appended a ++ [])%list, t'0))
                 = (let (a, t'0) := pushItem type_ raw h t in
                    (appended a, t'0))).
  { destruct (pushItem type_ raw h t). rewrite app_nil_r. reflexivity. }
  rewrite Hrhs. clear Hrhs.
  destruct raw as [|b|q|s|elems|fields];
    try (exfalso; eapply Hnot; reflexivity);
    (destruct (Js.truthy _ && _) eqn:Hguard; [reflexivity|];
     rewrite (pushItem_unguarded type_ _ t Hguard); reflexivity).
Qed.

(** X7: when the date of every record in the response parses, the
    response is in non-increasing order of time, it holds the records the
    filter keeps and no other, and records of equal time stand in the
    order in which they were loaded. *)
Theorem X7_listing_newest_first
        (type_ : string) (t : nat) (body : list GalleryItem)
        (cacheControl : string) (t' : nat) :
  GET h (Some type_) t = (Json body cacheControl, t') ->
  Forall (fun item => getTime h item <> None) body ->
  exists blobs items,
    allBlobs h (folderPaths type_) = Some blobs
    /\ loadItems h type_ (jsonFiles blobs) t = (items, t')
    /\ StronglySorted (descendingBy (sortTimestamp h)) body
    /\ Permutation body (filter (keeps type_) items)
    /\ (forall k,
           filter (fun a => sortTimestamp h a =? k) body
           = filter (fun a => sortTimestamp h a =? k)
                    (filter (keeps type_) items)).
Proof.
  intros HGET Hvalid.
  destruct (GET_Json h type_ t body cacheControl t' HGET)
    as (blobs & items & Hlist & Hload & ->).
  exists blobs, items. split; [exact Hlist|]. split; [exact Hload|].
  assert (Hkept : Forall (fun item => getTime h item <> None)
                         (filter (keeps type_) items)).
  { rewrite Forall_forall in *. intros item Hin. apply Hvalid.
    unfold filteredItems. apply sort_In. exact Hin. }
  destruct (filteredItems_sorted_stable h type_ items Hkept)
    as (Hsorted & Hstable & Hperm).
  auto.
Qed.

(** X8: every record of a response has a non-empty [id], a [status], a
    [type], a [store] and an [appCategory] from their closed sets,
    whatever the stored JSON holds and whatever type was requested; the
    response forbids caching. *)
Theorem X8_listed_records_well_formed
        (type_ : string) (t : nat) (body : list GalleryItem)
        (cacheControl : string) (t' : nat) :
  GET h (Some type_) t = (Json body cacheControl, t') ->
  cacheControl = noStore
  /\ Forall (fun item =>
               id item <> ""
               /\ In (status item) statusValues
               /\ In (type item) typeValues
               /\ In (store item) storeValues
               /\ In (appCategory item) categoryValues) body.
Proof.
  intros HGET.
  assert (Hcc : cacheControl = noStore).
  { unfold GET in HGET.
    destruct (negb (Js.nonEmpty type_)); [discriminate|].
    destruct (allBlobs h (folderPaths type_)); [|discriminate].
    unfold bind in HGET. destruct (loadItems h type_ _ t).
    injection HGET as _ <- _. reflexivity. }
  split; [exact Hcc|].
  destruct (GET_Json h type_ t body cacheControl t' HGET)
    as (blobs & items & Hlist & Hload & ->).
  destruct (in_dec string_dec type_ typeValues) as [Hknown|Hunknown].
  - pose proof (loadItems_pushed h type_ _ _ _ _ Hload) as Hpushed.
    rewrite Forall_forall in *. intros item Hin.
    apply filteredItems_In in Hin. destruct Hin as [Hin _].
    destruct (Hpushed item Hin) as (raw & t0 & t1 & Hpush).
    apply pushItem_Some in Hpush.
    destruct Hpush as (fields & id_ & pd & ud & -> & _ & Hne & ->).
    cbn [id status type store appCategory normalized].
    split; [intros ->; discriminate|].
    split; [apply pickStatus_closed|].
    split; [apply pickType_closed, Hknown|].
    split.
    + unfold pickStore. destruct (getStr _ "store") as [s|];
        [destruct (String.eqb s "app-store")|]; simpl; auto.
    + unfold pickCategory, byType.
      destruct (getStr _ "appCategory") as [c|].
      * destruct (oneOf c _) eqn:Hc; [apply oneOf_In in Hc; exact Hc|].
        destruct (String.eqb type_ "featured"); [simpl; auto|].
        destruct (String.eqb type_ "events"); simpl; auto.
      * destruct (String.eqb type_ "featured"); [simpl; auto|].
        destruct (String.eqb type_ "events"); simpl; auto.
  - rewrite (folderPaths_unknown type_ Hunknown) in Hlist.
    injection Hlist as <-. cbn in Hload. injection Hload as <- _.
    constructor.
Qed.

End ListingFacts.

(** * The mutation handlers *)

Lemma prefix_refl (a : string) : String.prefix a a = true.
Proof.
  induction a as [|c rest IH]; cbn; [reflexivity|].
  destruct (ascii_dec c c) as [_|Hne]; [exact IH | contradiction].
Qed.

Lemma includes_append (a part b : string) :
  includes (a ++ (part ++ b)) part = true.
Proof.
  induction a as [|c rest IH].
  - cbn [append]. destruct (part ++ b) eqn:Happ; cbn [includes];
      rewrite <- Happ, prefix_append; reflexivity.
  - cbn [append includes]. rewrite IH. apply orb_true_r.
Qed.

Lemma append_empty (a : string) : a ++ "" = a.
Proof. induction a as [|c rest IH]; cbn; [reflexivity | now rewrite IH]. Qed.

Lemma includes_jsonKey (jsonFolder text : string) :
  includes (jsonKey jsonFolder text) ("/" ++ text ++ ".json") = true.
Proof.
  unfold jsonKey.
  rewrite <- (append_empty ("/" ++ text ++ ".json")) at 1.
  apply includes_append.
Qed.

Lemma endsWith_jsonKey (jsonFolder text : string) :
  Js.endsWith (jsonKey jsonFolder text) ".json" = true.
Proof. unfold jsonKey. rewrite <- !append_assoc. apply endsWith_append. Qed.

(** What [findJson] returns for an id that converts to text. *)
Lemma findJson_Hit (text : string) (blobs : list Blob) (hit : Blob) :
  findJson (Some text) blobs = Hit hit ->
  In hit blobs
  /\ Js.endsWith (pathname hit) ".json" = true
  /\ includes (pathname hit) ("/" ++ text ++ ".json") = true.
Proof.
  induction blobs as [|blob rest IH]; cbn; [discriminate|].
  destruct (Js.endsWith (pathname blob) ".json") eqn:Hjson.
  - destruct (includes (pathname blob) _) eqn:Hinc.
    + intros H. injection H as <-. auto.
    + intros H. destruct (IH H) as (? & ? & ?). auto.
  - intros H. destruct (IH H) as (? & ? & ?). auto.
Qed.

Lemma findJson_Missing (text : string) (blobs : list Blob) :
  findJson (Some text) blobs = Missing <->
  Forall (fun blob =>
            Js.endsWith (pathname blob) ".json"
            && includes (pathname blob) ("/" ++ text ++ ".json") = false)
         blobs.
Proof.
  induction blobs as [|blob rest IH]; cbn.
  - split; [constructor | reflexivity].
  - destruct (Js.endsWith (pathname blob) ".json") eqn:Hjson.
    + destruct (includes (pathname blob) _) eqn:Hinc.
      * split; [discriminate|]. intros H. inversion H as [|? ? Hhead _].
        rewrite Hjson, Hinc in Hhead. discriminate.
      * rewrite IH. split.
        -- intros H. constructor; [rewrite Hjson, Hinc; reflexivity|exact H].
        -- intros H. inversion H. assumption.
    + rewrite IH. split.
      * intros H. constructor; [rewrite Hjson; reflexivity|exact H].
      * intros H. inversion H. assumption.
Qed.

Lemma findJson_not_Threw (text : string) (blobs : list Blob) :
  findJson (Some text) blobs <> Threw.
Proof.
  induction blobs as [|blob rest IH]; cbn; [discriminate|].
  destruct (Js.endsWith (pathname blob) ".json"); [|exact IH].
  destruct (includes (pathname blob) _); [discriminate|exact IH].
Qed.

(** The search returns the first blob that matches. *)
Lemma findJson_first (text : string) (before after : list Blob) (hit : Blob) :
  Forall (fun blob => matchesJson text blob = false) before ->
  matchesJson text hit = true ->
  findJson (Some text) (before ++ hit :: after) = Hit hit.
Proof.
  unfold matchesJson. intros Hbefore Hhit.
  induction Hbefore as [|blob rest Hblob _ IH]; cbn [app findJson].
  - apply andb_true_iff in Hhit. destruct Hhit as [-> ->]. reflexivity.
  - destruct (Js.endsWith (pathname blob) ".json"); [|exact IH].
    cbn [andb] in Hblob. rewrite Hblob. exact IH.
Qed.

Lemma findJson_Hit_first (text : string) (blobs : list Blob) (hit : Blob) :
  findJson (Some text) blobs = Hit hit ->
  exists earlier later,
    blobs = (earlier ++ hit :: later)%list
    /\ Forall (fun blob => matchesJson text blob = false) earlier
    /\ matchesJson text hit = true.
Proof.
  unfold matchesJson.
  induction blobs as [|blob rest IH]; cbn [findJson]; [discriminate|].
  destruct (Js.endsWith (pathname blob) ".json") eqn:Hjson.
  - destruct (includes (pathname blob) _) eqn:Hinc.
    + intros H. injection H as <-. exists [], rest.
      rewrite Hjson, Hinc. repeat split. constructor.
    + intros H. destruct (IH H) as (earlier & later & -> & Hearlier & Hhit).
      exists (blob :: earlier), later. repeat split; [|exact Hhit].
      constructor; [rewrite Hjson, Hinc; reflexivity | exact Hearlier].
  - intros H. destruct (IH H) as (earlier & later & -> & Hearlier & Hhit).
    exists (blob :: earlier), later. repeat split; [|exact Hhit].
    constructor; [rewrite Hjson; reflexivity | exact Hearlier].
Qed.

Lemma findJson_None_not_Hit (blobs : list Blob) (hit : Blob) :
  findJson None blobs <> Hit hit.
Proof.
  induction blobs as [|blob rest IH]; cbn; [discriminate|].
  destruct (Js.endsWith (pathname blob) ".json"); [discriminate|exact IH].
Qed.

Section Mutations.

Variable h : Host.
Variable s : Store.

(** X11: PUT and DELETE find the JSON blob that POST or PUT wrote for an
    id when no blob listed before it matches the search.  The search
    returns the first listed [.json] blob whose path contains [/id.json],
    whichever blob that is; when the blob written as [<folder>/<id>.json]
    is listed for the type and none of the blobs listed before it
    matches, it is the blob returned, and the first store call of DELETE
    for that id, and of PUT for an item with that id, deletes it. *)
Theorem X11_written_key_is_located
        (ty jsonFolder text : string) (written : Blob)
        (before after : list Blob) :
  Js.nonEmpty ty = true ->
  allBlobs h (folderPaths ty) = Some (before ++ written :: after)%list ->
  pathname written = jsonKey jsonFolder text ->
  Forall (fun blob => matchesJson text blob = false) before ->
  findJson (Some text) (before ++ written :: after) = Hit written
  /\ (Js.nonEmpty text = true ->
      exists reply rest,
        DELETE h s (Some ty) (Some text) = (reply, Del (url written) :: rest))
  /\ (forall body item,
        itemWithId body = Some item ->
        idText s item = Some text ->
        exists reply rest,
          PUT h s (Some ty) (Some body) = (reply, Del (url written) :: rest))
  /\ (forall blobs hit,
        findJson (Some text) blobs = Hit hit <->
        exists earlier later,
          blobs = (earlier ++ hit :: later)%list
          /\ Forall (fun blob => matchesJson text blob = false) earlier
          /\ matchesJson text hit = true).
Proof.
  intros Hty Hlist Hpath Hbefore.
  assert (Hmatch : matchesJson text written = true).
  { unfold matchesJson.
    rewrite Hpath, endsWith_jsonKey, includes_jsonKey. reflexivity. }
  pose proof (findJson_first text before after written Hbefore Hmatch)
    as Hfind.
  split; [exact Hfind|]. split; [|split].
  - intros Htext. unfold DELETE, absent. rewrite Hty, Htext. cbn [negb orb].
    rewrite Hlist, Hfind.
    destruct (blob_del s 0%nat (url written)); [|eauto].
    destruct (findImage text _) as [imageFile|]; [|eauto].
    destruct (blob_del s 1%nat (url imageFile)); eauto.
  - intros body item Hitem Htext.
    assert (Hmain :
      PUT h s (Some ty) (Some body)
      = if blob_del s 0%nat (url written)
        then match blob_put s 1%nat (jsonKey (PUT_jsonFolder ty) text) with
             | Some jsonUrl =>
                 (Success (Some item) (Some jsonUrl) (Some updated),
                  [Del (url written);
                   PutJson (jsonKey (PUT_jsonFolder ty) text) item])
             | None =>
                 (Failure editFailed 500,
                  [Del (url written);
                   PutJson (jsonKey (PUT_jsonFolder ty) text) item])
             end
        else (Failure editFailed 500, [Del (url written)])).
    { unfold PUT, absent. rewrite Hty. cbn [negb].
      destruct body; try discriminate Hitem;
        rewrite Hitem, Hlist, Htext, Hfind; reflexivity. }
    rewrite Hmain.
    destruct (blob_del s 0%nat (url written)); [|eauto].
    destruct (blob_put s 1%nat _); eauto.
  - intros blobs hit. split.
    + apply findJson_Hit_first.
    + intros (earlier & later & -> & Hearlier & Hhit).
      apply findJson_first; assumption.
Qed.

(** X12: PUT does not touch the store when it answers 400 or 404; when it
    touches it, the first call deletes a listed [.json] blob of the
    requested type whose path contains [/id.json], and the only other
    call writes the item, as sent, under the folder of the type; a
    success means both calls were issued, in that order. *)
Theorem X12_PUT_store_calls
        (type_ : option string) (json : option Js.value)
        (reply : Reply) (calls : list StoreCall) :
  PUT h s type_ json = (reply, calls) ->
  (forall e, reply = Failure e 400 \/ reply = Failure e 404 -> calls = [])
  /\ (calls = []
      \/ exists ty body blobs existing text item,
           type_ = Some ty /\ json = Some body
           /\ itemWithId body = Some item
           /\ idText s item = Some text
           /\ allBlobs h (folderPaths ty) = Some blobs
           /\ In existing blobs
           /\ Js.endsWith (pathname existing) ".json" = true
           /\ includes (pathname existing) ("/" ++ text ++ ".json") = true
           /\ (calls = [Del (url existing)]
               \/ calls = [Del (url existing);
                           PutJson (jsonKey (PUT_jsonFolder ty) text) item]))
  /\ (forall item jsonUrl message,
         reply = Success item jsonUrl message ->
         exists deleted_ key sent,
           calls = [Del deleted_; PutJson key sent]
           /\ item = Some sent
           /\ blob_put s 1%nat key = jsonUrl).
Proof.
  unfold PUT. intros H.
  destruct (absent type_).
  { injection H as <- <-. repeat split; auto; discriminate. }
  destruct type_ as [ty|], json as [body|];
    try (injection H as <- <-; repeat split; auto; try discriminate;
         intros e [He|He]; discriminate).
  assert (Hmain :
    match itemWithId body with
    | Some item =>
        match allBlobs h (folderPaths ty) with
        | Some blobs =>
            match findJson (idText s item) blobs, idText s item with
            | Hit existingFile, Some text =>
                if blob_del s 0%nat (url existingFile)
                then
                  match blob_put s 1%nat
                                 (jsonKey (PUT_jsonFolder ty) text) with
                  | Some jsonUrl =>
                      (Success (Some item) (Some jsonUrl) (Some updated),
                       [Del (url existingFile);
                        PutJson (jsonKey (PUT_jsonFolder ty) text) item])
                  | None =>
                      (Failure editFailed 500,
                       [Del (url existingFile);
                        PutJson (jsonKey (PUT_jsonFolder ty) text) item])
                  end
                else (Failure editFailed 500, [Del (url existingFile)])
            | Missing, _ => (Failure notFound 404, [])
            | _, _ => (Failure editFailed 500, [])
            end
        | None => (Failure editFailed 500, [])
        end
    | None => (Failure itemRequired 400, [])
    end = (reply, calls) \/ (reply, calls) = (Failure editFailed 500, [])).
  { destruct body; auto. }
  clear H. destruct Hmain as [H|H];
    [|injection H as -> ->; repeat split; auto; try discriminate;
      intros e [He|He]; discriminate].
  destruct (itemWithId body) as [item|] eqn:Hitem;
    [|injection H as <- <-; repeat split; auto; discriminate].
  destruct (allBlobs h (folderPaths ty)) as [blobs|] eqn:Hblobs;
    [|injection H as <- <-; repeat split; auto; try discriminate;
      intros e [He|He]; discriminate].
  destruct (idText s item) as [text|] eqn:Htext.
  - destruct (findJson (Some text) blobs) as [| |existing] eqn:Hfind;
      try (injection H as <- <-; repeat split; auto; try discriminate;
           intros e [He|He]; discriminate).
    destruct (findJson_Hit _ _ _ Hfind) as (Hin & Hjson & Hinc).
    destruct (blob_del s 0%nat (url existing)).
    + destruct (blob_put s 1%nat _) as [jsonUrl|] eqn:Hput;
        injection H as <- <-.
      * split; [intros e [He|He]; discriminate|]. split.
        -- right. exists ty, body, blobs, existing, text, item.
           repeat split; auto.
        -- intros i u m Heq. injection Heq as <- <- <-.
           eexists _, _, _. repeat split. exact Hput.
      * split; [intros e [He|He]; discriminate|]. split.
        -- right. exists ty, body, blobs, existing, text, item.
           repeat split; auto.
        -- discriminate.
    + injection H as <- <-.
      split; [intros e [He|He]; discriminate|]. split.
      * right. exists ty, body, blobs, existing, text, item.
        repeat split; auto.
      * discriminate.
  - destruct (findJson None blobs) as [| |existing] eqn:Hfind;
      injection H as <- <-; repeat split; auto; try discriminate;
      intros e [He|He]; discriminate.
Qed.

(** X13: an update is not atomic.  When PUT has found and deleted the
    existing blob and the write is then refused, it answers 500 with the
    old blob gone and nothing written in its place. *)
Theorem X13_PUT_failed_write_loses_record
        (ty : string) (body item : Js.value) (blobs : list Blob)
        (existing : Blob) (text : string) :
  ty <> "" ->
  body <> Js.Null ->
  itemWithId body = Some item ->
  idText s item = Some text ->
  allBlobs h (folderPaths ty) = Some blobs ->
  findJson (Some text) blobs = Hit existing ->
  blob_del s 0%nat (url existing) = true ->
  blob_put s 1%nat (jsonKey (PUT_jsonFolder ty) text) = None ->
  PUT h s (Some ty) (Some body)
  = (Failure editFailed 500,
     [Del (url existing); PutJson (jsonKey (PUT_jsonFolder ty) text) item]).
Proof.
  intros Hty Hbody Hitem Htext Hblobs Hfind Hdel Hput. unfold PUT.
  destruct ty as [|c rest]; [contradiction|]. cbn [absent Js.nonEmpty negb].
  destruct body; try contradiction;
    rewrite Hitem, Hblobs, Htext, Hfind, Hdel, Hput; reflexivity.
Qed.

(** X14: DELETE does not touch the store when it answers 400 or 404; it
    issues at most two calls, both deletions: first a listed [.json] blob
    whose path contains [/id.json], then at most one listed blob that is
    not a [.json] blob and whose path contains [/id.]; a success means
    the JSON blob was deleted. *)
Theorem X14_DELETE_store_calls
        (type_ id_ : option string) (reply : Reply) (calls : list StoreCall) :
  DELETE h s type_ id_ = (reply, calls) ->
  (forall e, reply = Failure e 400 \/ reply = Failure e 404 -> calls = [])
  /\ (calls = []
      \/ exists ty text blobs jsonFile,
           type_ = Some ty /\ id_ = Some text
           /\ allBlobs h (folderPaths ty) = Some blobs
           /\ In jsonFile blobs
           /\ Js.endsWith (pathname jsonFile) ".json" = true
           /\ includes (pathname jsonFile) ("/" ++ text ++ ".json") = true
           /\ (calls = [Del (url jsonFile)]
               \/ exists imageFile,
                    In imageFile blobs
                    /\ Js.endsWith (pathname imageFile) ".json" = false
                    /\ includes (pathname imageFile) ("/" ++ text ++ ".")
                       = true
                    /\ calls = [Del (url jsonFile); Del (url imageFile)]))
  /\ (forall item jsonUrl message,
         reply = Success item jsonUrl message ->
         exists deleted_ rest, calls = Del deleted_ :: rest).
Proof.
  unfold DELETE. intros H.
  destruct (absent type_ || absent id_).
  { injection H as <- <-. repeat split; auto; discriminate. }
  destruct type_ as [ty|], id_ as [text|];
    try (injection H as <- <-; repeat split; auto; discriminate).
  destruct (allBlobs h (folderPaths ty)) as [blobs|] eqn:Hblobs;
    [|injection H as <- <-; repeat split; auto; try discriminate;
      intros e [He|He]; discriminate].
  destruct (findJson (Some text) blobs) as [| |jsonFile] eqn:Hfind;
    try (injection H as <- <-; repeat split; auto; try discriminate;
         intros e [He|He]; discriminate).
  destruct (findJson_Hit _ _ _ Hfind) as (Hin & Hjson & Hinc).
  assert (Hone : exists ty0 text0 blobs0 jsonFile0,
             Some ty = Some ty0 /\ Some text = Some text0
             /\ allBlobs h (folderPaths ty0) = Some blobs0
             /\ In jsonFile0 blobs0
             /\ Js.endsWith (pathname jsonFile0) ".json" = true
             /\ includes (pathname jsonFile0) ("/" ++ text0 ++ ".json") = true
             /\ jsonFile0 = jsonFile /\ blobs0 = blobs /\ text0 = text).
  { exists ty, text, blobs, jsonFile. repeat split; auto. }
  destruct (blob_del s 0%nat (url jsonFile)).
  - destruct (findImage text blobs) as [imageFile|] eqn:Himage.
    + apply find_some in Himage. destruct Himage as [Hin' Htest].
      apply andb_true_iff in Htest. destruct Htest as [Hinc' Hnot].
      apply negb_true_iff in Hnot.
      assert (Hcalls : forall r, (r, [Del (url jsonFile);
                                       Del (url imageFile)]) = (reply, calls) ->
                (forall e, r = Failure e 400 \/ r = Failure e 404 -> False) ->
                (forall e,
                    reply = Failure e 400 \/ reply = Failure e 404 ->
                    calls = [])
                /\ (calls = []
                    \/ exists ty0 text0 blobs0 jsonFile0,
                         Some ty = Some ty0 /\ Some text = Some text0
                         /\ allBlobs h (folderPaths ty0) = Some blobs0
                         /\ In jsonFile0 blobs0
                         /\ Js.endsWith (pathname jsonFile0) ".json" = true
                         /\ includes (pathname jsonFile0)
                                     ("/" ++ text0 ++ ".json") = true
                         /\ (calls = [Del (url jsonFile0)]
                             \/ exists imageFile0,
                                  In imageFile0 blobs0
                                  /\ Js.endsWith (pathname imageFile0) ".json"
                                     = false
                                  /\ includes (pathname imageFile0)
                                              ("/" ++ text0 ++ ".") = true
                                  /\ calls = [Del (url jsonFile0);
                                              Del (url imageFile0)]))
                /\ (forall item jsonUrl message,
                       reply = Success item jsonUrl message ->
                       exists deleted_ rest, calls = Del deleted_ :: rest)).
      { intros r Heq Hr. injection Heq as <- <-. split; [|split].
        - intros e He. exfalso. exact (Hr e He).
        - right. exists ty, text, blobs, jsonFile. repeat split; auto.
          right. exists imageFile. repeat split; auto.
        - intros. eexists _, _. reflexivity. }
      destruct (blob_del s 1%nat (url imageFile));
        (eapply Hcalls; [exact H|]); intros e [He|He]; discriminate.
    + injection H as <- <-. split; [intros e [He|He]; discriminate|].
      split; [|intros; eexists _, _; reflexivity].
      right. exists ty, text, blobs, jsonFile. repeat split; auto.
  - injection H as <- <-. split; [intros e [He|He]; discriminate|].
    split; [|discriminate].
    right. exists ty, text, blobs, jsonFile. repeat split; auto.
Qed.

End Mutations.

(** ** Creating through a JSON body *)

Lemma assoc_withType (fields : list (string * Js.value)) (ty k : string) :
  Js.assoc k (withType fields ty)
  = if String.eqb k "type" then Some (Js.Str ty) else Js.assoc k fields.
Proof.
  induction fields as [|[k' v] rest IH]; cbn [withType Js.assoc].
  - destruct (String.eqb k "type"); reflexivity.
  - destruct (String.eqb_spec "type" k') as [<-|Hk']; cbn [Js.assoc].
    + destruct (String.eqb k "type"); reflexivity.
    + destruct (String.eqb_spec k k') as [->|Hk].
      * destruct (String.eqb_spec k' "type") as [->|_];
          [contradiction|reflexivity].
      * exact IH.
Qed.

Section RetypedFields.

Variable fields : list (string * Js.value).
Variable ty : string.

Let sent : Js.value := Js.Obj fields.
Let stored : Js.value := Js.Obj (withType fields ty).

Lemma prop_withType (k : string) :
  k <> "type" -> Js.prop stored k = Js.prop sent k.
Proof.
  intros Hk. cbn. rewrite assoc_withType.
  apply String.eqb_neq in Hk. rewrite Hk. reflexivity.
Qed.

Lemma getStr_withType (k : string) :
  k <> "type" -> getStr stored k = getStr sent k.
Proof. intros Hk. unfold getStr. rewrite (prop_withType k Hk). reflexivity. Qed.

Lemma getArrStr_withType (k : string) :
  k <> "type" -> getArrStr stored k = getArrStr sent k.
Proof.
  intros Hk. unfold getArrStr. rewrite (prop_withType k Hk). reflexivity.
Qed.

Lemma getNum_withType (k : string) (d : Js.number) :
  k <> "type" -> getNum stored k d = getNum sent k d.
Proof. intros Hk. unfold getNum. rewrite (prop_withType k Hk). reflexivity. Qed.

Lemma isTrue_withType (k : string) :
  k <> "type" -> isTrue stored k = isTrue sent k.
Proof. intros Hk. unfold isTrue. rewrite (prop_withType k Hk). reflexivity. Qed.

Lemma idText_withType (s : Store) : idText s stored = idText s sent.
Proof.
  unfold idText. rewrite prop_withType by discriminate. reflexivity.
Qed.

Lemma pickType_withType (listed : string) :
  In ty typeValues -> pickType listed stored = ty.
Proof.
  intros Hin. unfold pickType, getStr, stored. cbn [Js.prop].
  rewrite assoc_withType, String.eqb_refl. cbv beta iota.
  apply oneOf_In in Hin. unfold typeValues in Hin. rewrite Hin.
  reflexivity.
Qed.

Lemma normalized_withType (listed id_ publishDate_ uploadDate_ : string) :
  In ty typeValues ->
  normalized listed stored id_ publishDate_ uploadDate_
  = retyped (normalized listed sent id_ publishDate_ uploadDate_) ty.
Proof.
  intros Hin. unfold normalized, retyped.
  cbn [id title content author imageUrl publishDate tags isPublished type
       store storeUrl appCategory status name developer description iconUrl
       screenshotUrls rating downloads version size category views likes
       uploadDate isFeatured isEvent adminStoreUrl].
  unfold pickStatus, pickStore, pickCategory, firstImage, screenshots.
  rewrite (pickType_withType listed Hin).
  rewrite !getStr_withType, !getArrStr_withType, !getNum_withType,
    !isTrue_withType by discriminate.
  reflexivity.
Qed.

End RetypedFields.

Section Creation.

Variable h : Host.
Variable s : Store.

Lemma pushItem_withType
      (fields : list (string * Js.value)) (ty listed : string) (t : nat) :
  In ty typeValues ->
  pushItem listed (Js.Obj (withType fields ty)) h t
  = (option_map (fun item => retyped item ty)
                (fst (pushItem listed (Js.Obj fields) h t)),
     snd (pushItem listed (Js.Obj fields) h t)).
Proof.
  intros Hin. unfold pushItem. cbn [Js.truthy negb Js.typeof].
  rewrite getStr_withType by discriminate.
  destruct (getStr (Js.Obj fields) "id") as [id_|]; [|reflexivity].
  destruct (Js.nonEmpty id_); [|reflexivity].
  rewrite !getStr_withType by discriminate. unfold bind.
  destruct (orNow h _ t) as [publishDate_ t1].
  destruct (orNow h _ t1) as [uploadDate_ t2].
  cbn. rewrite (normalized_withType fields ty listed _ _ _ Hin).
  reflexivity.
Qed.

Lemma reparse_withType (fields : list (string * Js.value)) (ty : string) :
  Js.reparse (Js.Obj (withType fields ty))
  = Js.Obj (withType (map (fun kv => (fst kv, Js.reparse (snd kv))) fields)
                     ty).
Proof.
  cbn [Js.reparse]. f_equal.
  induction fields as [|[k v] rest IH]; cbn [withType map fst snd].
  - reflexivity.
  - destruct (String.eqb "type" k); cbn [map fst snd Js.reparse].
    + reflexivity.
    + rewrite IH. reflexivity.
Qed.

(** The JSON write of POST with a JSON body. *)
Lemma POST_json_put
      (ty : string) (json : option Js.value) (reply : Reply)
      (calls : list StoreCall) (key : string) (body : Js.value) :
  POST_json s (Some ty) json = (reply, calls) ->
  In (PutJson key body) calls ->
  exists sent fields text,
    json = Some sent
    /\ itemWithId sent = Some (Js.Obj fields)
    /\ idText s (Js.Obj fields) = Some text
    /\ key = jsonKey (POST_jsonFolder ty) text
    /\ body = Js.Obj (withType fields ty).
Proof.
  unfold POST_json. intros H Hin.
  destruct (absent (Some ty)); [injection H as <- <-; destruct Hin|].
  destruct json as [sent|]; [|injection H as <- <-; destruct Hin].
  assert (Hmain :
    match itemWithId sent with
    | Some (Js.Obj fields) =>
        match idText s (Js.Obj (withType fields ty)) with
        | Some text =>
            match blob_put s 0%nat (jsonKey (POST_jsonFolder ty) text) with
            | Some jsonUrl =>
                (Success (Some (Js.Obj (withType fields ty))) (Some jsonUrl)
                         None,
                 [PutJson (jsonKey (POST_jsonFolder ty) text)
                          (Js.Obj (withType fields ty))])
            | None =>
                (Failure createFailed 500,
                 [PutJson (jsonKey (POST_jsonFolder ty) text)
                          (Js.Obj (withType fields ty))])
            end
        | None => (Failure createFailed 500, [])
        end
    | _ => (Failure itemRequired 400, [])
    end = (reply, calls) \/ calls = []).
  { destruct sent; auto; injection H as <- <-; auto. }
  clear H. destruct Hmain as [H| ->]; [|destruct Hin].
  destruct (itemWithId sent) as [[| | | | |fields]|] eqn:Hitem;
    try (injection H as <- <-; destruct Hin).
  rewrite idText_withType in H.
  destruct (idText s (Js.Obj fields)) as [text|] eqn:Htext;
    [|injection H as <- <-; destruct Hin].
  exists sent, fields, text.
  destruct (blob_put s 0%nat _); injection H as <- <-;
    destruct Hin as [Heq|[]]; injection Heq as <- <-; auto.
Qed.

(** X15: what POST stores for a JSON body is the item with its [type]
    set to the type of the request.  The JSON write of the handler carries
    the fields of the item sent, retyped; the blob it leaves, read back by
    the normaliser under any listing, gives the record that the item,
    stored as it is, would give, with that one field replaced (the request
    type being one of the four known types).  Storing turns a number out
    of range into [null]; for an item without such a number the record is
    that of the item as sent, retyped. *)
Theorem X15_POST_json_forces_type
        (ty listed : string) (json : option Js.value) (reply : Reply)
        (calls : list StoreCall) (key : string) (body : Js.value) (t : nat) :
  In ty typeValues ->
  POST_json s (Some ty) json = (reply, calls) ->
  In (PutJson key body) calls ->
  exists sent fields,
    json = Some sent
    /\ itemWithId sent = Some (Js.Obj fields)
    /\ body = Js.Obj (withType fields ty)
    /\ pushItem listed (Js.reparse body) h t
       = (option_map (fun item => retyped item ty)
                     (fst (pushItem listed (Js.reparse (Js.Obj fields)) h t)),
          snd (pushItem listed (Js.reparse (Js.Obj fields)) h t))
    /\ (Js.reparse (Js.Obj fields) = Js.Obj fields ->
        pushItem listed (Js.reparse body) h t
        = (option_map (fun item => retyped item ty)
                      (fst (pushItem listed (Js.Obj fields) h t)),
           snd (pushItem listed (Js.Obj fields) h t))).
Proof.
  intros Hty HPOST Hin.
  destruct (POST_json_put ty json reply calls key body HPOST Hin)
    as (sent & fields & text & -> & Hitem & _ & _ & ->).
  exists sent, fields. split; [reflexivity|]. split; [exact Hitem|].
  split; [reflexivity|].
  assert (Hread :
    pushItem listed (Js.reparse (Js.Obj (withType fields ty))) h t
    = (option_map (fun item => retyped item ty)
                  (fst (pushItem listed (Js.reparse (Js.Obj fields)) h t)),
       snd (pushItem listed (Js.reparse (Js.Obj fields)) h t))).
  { rewrite reparse_withType. cbn [Js.reparse].
    apply pushItem_withType. exact Hty. }
  split; [exact Hread|].
  intros Hsame. rewrite Hread, Hsame. reflexivity.
Qed.

(** X16: POST with a JSON body never deletes and never looks at what is
    stored: it answers 400 without a store call, and otherwise issues at
    most one call, the write of the retyped item under the POST folder of
    the type, keyed by the id of the item as sent. *)
Theorem X16_POST_json_store_calls
        (type_ : option string) (json : option Js.value)
        (reply : Reply) (calls : list StoreCall) :
  POST_json s type_ json = (reply, calls) ->
  (forall e, reply = Failure e 400 -> calls = [])
  /\ (calls = []
      \/ exists ty body fields text,
           type_ = Some ty /\ json = Some body
           /\ itemWithId body = Some (Js.Obj fields)
           /\ idText s (Js.Obj fields) = Some text
           /\ calls = [PutJson (jsonKey (POST_jsonFolder ty) text)
                               (Js.Obj (withType fields ty))])
  /\ (forall item jsonUrl message,
         reply = Success item jsonUrl message ->
         exists key stored,
           calls = [PutJson key stored]
           /\ item = Some stored
           /\ blob_put s 0%nat key = jsonUrl
           /\ message = None).
Proof.
  unfold POST_json. intros H.
  destruct (absent type_).
  { injection H as <- <-. repeat split; auto; discriminate. }
  destruct type_ as [ty|], json as [body|];
    try (injection H as <- <-; repeat split; auto; discriminate).
  assert (Hmain :
    match itemWithId body with
    | Some (Js.Obj fields) =>
        match idText s (Js.Obj (withType fields ty)) with
        | Some text =>
            match blob_put s 0%nat (jsonKey (POST_jsonFolder ty) text) with
            | Some jsonUrl =>
                (Success (Some (Js.Obj (withType fields ty))) (Some jsonUrl)
                         None,
                 [PutJson (jsonKey (POST_jsonFolder ty) text)
                          (Js.Obj (withType fields ty))])
            | None =>
                (Failure createFailed 500,
                 [PutJson (jsonKey (POST_jsonFolder ty) text)
                          (Js.Obj (withType fields ty))])
            end
        | None => (Failure createFailed 500, [])
        end
    | _ => (Failure itemRequired 400, [])
    end = (reply, calls) \/ (reply, calls) = (Failure createFailed 500, [])).
  { destruct body; auto. }
  clear H. destruct Hmain as [H|H];
    [|injection H as -> ->; repeat split; auto; discriminate].
  destruct (itemWithId body) as [[| | | | |fields]|] eqn:Hitem;
    try (injection H as <- <-; repeat split; auto; discriminate).
  rewrite idText_withType in H.
  destruct (idText s (Js.Obj fields)) as [text|] eqn:Htext;
    [|injection H as <- <-; repeat split; auto; discriminate].
  destruct (blob_put s 0%nat _) as [jsonUrl|] eqn:Hput; injection H as <- <-.
  - split; [discriminate|]. split.
    + right. exists ty, body, fields, text. repeat split; auto.
    + intros i u m Heq. injection Heq as <- <- <-.
      eexists _, _. repeat split. exact Hput.
  - split; [discriminate|]. split; [|discriminate].
    right. exists ty, body, fields, text. repeat split; auto.
Qed.

End Creation.

(** ** Types and folders *)

(** X18: a type that is not one of the four is accepted by every handler
    and leads nowhere: POST with a JSON body stores the item under
    [gallery-<type>], while GET lists nothing for that type and PUT and
    DELETE answer 404 for every id, none of them consulting the store. *)
Theorem X18_unknown_type (ty : string) :
  ty <> "" ->
  ~ In ty typeValues ->
  (forall h t, GET h (Some ty) t = (Json [] noStore, t))
  /\ (forall h s body item,
         body <> Js.Null -> itemWithId body = Some item ->
         PUT h s (Some ty) (Some body) = (Failure notFound 404, []))
  /\ (forall h s text,
         text <> "" ->
         DELETE h s (Some ty) (Some text) = (Failure notFound 404, []))
  /\ (forall s body fields text jsonUrl,
         body <> Js.Null ->
         itemWithId body = Some (Js.Obj fields) ->
         idText s (Js.Obj fields) = Some text ->
         blob_put s 0%nat (jsonKey ("gallery-" ++ ty) text) = Some jsonUrl ->
         POST_json s (Some ty) (Some body)
         = (Success (Some (Js.Obj (withType fields ty))) (Some jsonUrl) None,
            [PutJson (jsonKey ("gallery-" ++ ty) text)
                     (Js.Obj (withType fields ty))])).
Proof.
  intros Hne Hunknown.
  pose proof (folderPaths_unknown ty Hunknown) as Hfolders.
  assert (Hfolder : POST_jsonFolder ty = "gallery-" ++ ty).
  { unfold POST_jsonFolder, isAllApps.
    destruct (String.eqb_spec ty "gallery") as [->|_];
      [exfalso; apply Hunknown; simpl; auto|].
    destruct (String.eqb_spec ty "normal") as [->|_];
      [exfalso; apply Hunknown; simpl; auto|].
    reflexivity. }
  assert (Hpresent : absent (Some ty) = false).
  { destruct ty; [contradiction|reflexivity]. }
  split; [|split; [|split]].
  - intros h t. unfold GET. destruct ty; [contradiction|].
    cbn [Js.nonEmpty negb]. rewrite Hfolders. reflexivity.
  - intros h s body item Hbody Hitem. unfold PUT.
    rewrite Hpresent, Hitem, Hfolders. cbn [allBlobs findJson].
    destruct body; try contradiction; reflexivity.
  - intros h s text Htext. unfold DELETE. rewrite Hpresent.
    destruct text; [contradiction|]. cbn [absent Js.nonEmpty negb orb].
    rewrite Hfolders. reflexivity.
  - intros s body fields text jsonUrl Hbody Hitem Htext Hput.
    unfold POST_json. rewrite Hpresent, Hitem, idText_withType, Htext.
    rewrite Hfolder, Hput.
    destruct body; try contradiction; reflexivity.
Qed.

(** ** Creating through a form *)

Section FormCreation.

Variable h : Host.
Variable s : Store.

(** What a successful form request has stored. *)
Lemma POST_form_Success (ty : string) (form : Form) (t t' : nat)
      (item : option Js.value) (jsonUrl message : option string)
      (calls : list StoreCall) :
  POST_form h s (Some ty) (Some form) t
  = ((Success item jsonUrl message, calls), t') ->
  filled (form "title") && filled (form "content") && filled (form "author")
  = true
  /\ t' = S (S (S t))
  /\ exists imageUrl_ tags_ before,
       formTags s (form "tags") = Some tags_
       /\ item = Some (formItem form ty
                         (ty ++ "-" ++ Date_ms s t ++ "-" ++ random36 s)
                         imageUrl_ (Date_now h (S t)) (Date_now h (S (S t)))
                         tags_)
       /\ calls = (before
                   ++ [PutJson (jsonKey (POST_jsonFolder ty)
                                  (ty ++ "-" ++ Date_ms s t ++ "-"
                                      ++ random36 s))
                               (formItem form ty
                                  (ty ++ "-" ++ Date_ms s t ++ "-"
                                      ++ random36 s)
                                  imageUrl_ (Date_now h (S t))
                                  (Date_now h (S (S t))) tags_)])%list
       /\ (before = []
           \/ exists name_,
                form "file" = Some (File name_)
                /\ before = [PutFile (POST_imageFolder ty ++ "/"
                                      ++ ((ty ++ "-" ++ Date_ms s t ++ "-"
                                              ++ random36 s)
                                          ++ "." ++ extension name_))]).
Proof.
  unfold POST_form. intros H.
  destruct (absent (Some ty)); [discriminate|].
  destruct (filled (form "title") && filled (form "content")
            && filled (form "author")); [|discriminate].
  cbn [negb] in H. split; [reflexivity|].
  assert (Hwrite : forall imageUrl_ before,
             POST_write h s form ty
                        (ty ++ "-" ++ Date_ms s t ++ "-" ++ random36 s)
                        imageUrl_ before (S t)
             = ((Success item jsonUrl message, calls), t') ->
             t' = S (S (S t))
             /\ exists tags_,
                  formTags s (form "tags") = Some tags_
                  /\ item = Some (formItem form ty
                                    (ty ++ "-" ++ Date_ms s t ++ "-"
                                        ++ random36 s)
                                    imageUrl_ (Date_now h (S t))
                                    (Date_now h (S (S t))) tags_)
                  /\ calls = (before
                              ++ [PutJson
                                    (jsonKey (POST_jsonFolder ty)
                                       (ty ++ "-" ++ Date_ms s t ++ "-"
                                           ++ random36 s))
                                    (formItem form ty
                                       (ty ++ "-" ++ Date_ms s t ++ "-"
                                           ++ random36 s)
                                       imageUrl_ (Date_now h (S t))
                                       (Date_now h (S (S t))) tags_)])%list).
  { intros imageUrl_ before Hw. unfold POST_write, bind, now, ret in Hw.
    destruct (formTags s (form "tags")) as [tags_|]; [|discriminate].
    destruct (blob_put s (length before) _); [|discriminate].
    injection Hw as <- _ _ <- <-.
    split; [reflexivity|]. exists tags_. auto. }
  destruct (form "file") as [[text|name_]|] eqn:Hfile.
  - destruct (Js.nonEmpty text); [discriminate|].
    destruct (Hwrite None [] H) as (-> & tags_ & Htags & -> & ->).
    split; [reflexivity|]. exists None, tags_, []. auto.
  - destruct (blob_put s 0%nat _) as [imageUrl_|]; [|discriminate].
    destruct (Hwrite _ _ H) as (-> & tags_ & Htags & -> & ->).
    split; [reflexivity|].
    exists (Some imageUrl_), tags_,
      [PutFile (POST_imageFolder ty ++ "/"
                ++ ((ty ++ "-" ++ Date_ms s t ++ "-" ++ random36 s)
                    ++ "." ++ extension name_))].
    repeat split; auto. right. exists name_. auto.
  - destruct (Hwrite None [] H) as (-> & tags_ & Htags & -> & ->).
    split; [reflexivity|]. exists None, tags_, []. auto.
Qed.

(** X19: a form request that lacks a non-empty [title], [content] or
    [author] is answered 400 before the store or the clock is touched; a
    form request never deletes, issues at most the write of the image
    followed by the write of the JSON, and a success has read the clock
    three times and written the JSON last. *)
Theorem X19_POST_form_store_calls
        (ty : string) (form : Form) (t t' : nat)
        (reply : Reply) (calls : list StoreCall) :
  ty <> "" ->
  POST_form h s (Some ty) (Some form) t = ((reply, calls), t') ->
  (filled (form "title") && filled (form "content") && filled (form "author")
   = false ->
   reply = Failure fieldsRequired 400 /\ calls = [] /\ t' = t)
  /\ (forall e, reply = Failure e 400 -> calls = [] /\ t' = t)
  /\ (forall call, In call calls -> forall url_, call <> Del url_)
  /\ (length calls <= 2)%nat
  /\ (forall item jsonUrl message,
         reply = Success item jsonUrl message ->
         t' = S (S (S t))
         /\ exists before key stored,
              calls = (before ++ [PutJson key stored])%list
              /\ item = Some stored
              /\ Forall (fun call => exists k, call = PutFile k) before).
Proof.
  intros Hty H.
  assert (Hsuccess : forall item jsonUrl message,
             reply = Success item jsonUrl message ->
             t' = S (S (S t))
             /\ exists before key stored,
                  calls = (before ++ [PutJson key stored])%list
                  /\ item = Some stored
                  /\ Forall (fun call => exists k, call = PutFile k) before).
  { intros item jsonUrl message ->.
    destruct (POST_form_Success _ _ _ _ _ _ _ _ H)
      as (_ & -> & imageUrl_ & tags_ & before & _ & -> & -> & Hbefore).
    split; [reflexivity|]. eexists before, _, _.
    split; [reflexivity|]. split; [reflexivity|].
    destruct Hbefore as [->|(name_ & _ & ->)]; repeat constructor.
    eexists. reflexivity. }
  assert (Hrest :
    (filled (form "title") && filled (form "content")
     && filled (form "author") = false ->
     reply = Failure fieldsRequired 400 /\ calls = [] /\ t' = t)
    /\ (forall e, reply = Failure e 400 -> calls = [] /\ t' = t)
    /\ (forall call, In call calls -> forall url_, call <> Del url_)
    /\ (length calls <= 2)%nat); [|tauto].
  clear Hsuccess. unfold POST_form in H.
  destruct ty as [|c rest]; [contradiction|].
  cbn [absent Js.nonEmpty negb] in H.
  destruct (filled (form "title") && filled (form "content")
            && filled (form "author")).
  2:{ cbn [negb] in H. unfold ret in H. injection H as <- <- <-.
      split; [auto|]. split; [auto|].
      split; [intros call []|cbn; lia]. }
  cbn [negb] in H. split; [discriminate|].
  assert (Hwrite : forall imageUrl_ before,
             (length before <= 1)%nat ->
             (forall call, In call before -> forall url_, call <> Del url_) ->
             POST_write h s form (String c rest)
                        (String c rest ++ "-" ++ Date_ms s t ++ "-"
                                ++ random36 s)
                        imageUrl_ before (S t)
             = ((reply, calls), t') ->
             (forall e, reply = Failure e 400 -> calls = [] /\ t' = t)
             /\ (forall call, In call calls -> forall url_, call <> Del url_)
             /\ (length calls <= 2)%nat).
  { intros imageUrl_ before Hlen Hnodel Hw.
    unfold POST_write, bind, now, ret in Hw.
    destruct (formTags s (form "tags")) as [tags_|].
    - assert (Hcalls :
        forall key stored,
          (forall call, In call (before ++ [PutJson key stored])%list ->
                        forall url_, call <> Del url_)
          /\ (length (before ++ [PutJson key stored])%list <= 2)%nat).
      { intros key stored. split.
        - intros call Hin. apply in_app_or in Hin.
          destruct Hin as [Hin|[<-|[]]]; [apply Hnodel, Hin|discriminate].
        - rewrite length_app. cbn. lia. }
      destruct (blob_put s (length before) _); injection Hw as <- <- <-;
        (split; [discriminate | apply Hcalls]).
    - injection Hw as <- <- <-. split; [discriminate|].
      split; [exact Hnodel | lia]. }
  destruct (form "file") as [[text|name_]|].
  - destruct (Js.nonEmpty text).
    + injection H as <- <- <-. split; [discriminate|].
      split; [intros call []|cbn; lia].
    + apply (Hwrite None []); [cbn; lia | intros ? [] | exact H].
  - destruct (blob_put s 0%nat _) as [imageUrl_|].
    + eapply (Hwrite (Some imageUrl_) [PutFile _]);
        [cbn; lia | intros ? [<-|[]]; discriminate | exact H].
    + injection H as <- <- <-. split; [discriminate|].
      split; [intros call [<-|[]]; discriminate | cbn; lia].
  - apply (Hwrite None []); [cbn; lia | intros ? [] | exact H].
Qed.

End FormCreation.

(** ** Where POST and PUT write, and what GET reads *)

Section WrittenKeys.

Variable s : Store.

Lemma POST_write_put (h : Host) (form : Form) (ty id_ : string)
      (imageUrl_ : option string) (before : list StoreCall) (t t' : nat)
      (reply : Reply) (calls : list StoreCall) (key : string)
      (body : Js.value) :
  POST_write h s form ty id_ imageUrl_ before t = ((reply, calls), t') ->
  (forall k b, ~ In (PutJson k b) before) ->
  In (PutJson key body) calls ->
  key = jsonKey (POST_jsonFolder ty) id_.
Proof.
  unfold POST_write, bind, now, ret. intros H Hbefore Hin.
  destruct (formTags s (form "tags")) as [tags_|].
  - destruct (blob_put s (length before) _); injection H as <- <- <-;
      apply in_app_or in Hin;
      (destruct Hin as [Hin|[Heq|[]]];
       [exfalso; exact (Hbefore _ _ Hin) | injection Heq as <- _; reflexivity]).
  - injection H as <- <- <-. exfalso. exact (Hbefore _ _ Hin).
Qed.

Lemma POST_form_put (h : Host) (ty : string) (formData : option Form)
      (t t' : nat) (reply : Reply) (calls : list StoreCall) (key : string)
      (body : Js.value) :
  POST_form h s (Some ty) formData t = ((reply, calls), t') ->
  In (PutJson key body) calls ->
  exists text, key = jsonKey (POST_jsonFolder ty) text.
Proof.
  unfold POST_form, ret. intros H Hin.
  destruct (absent (Some ty)); [injection H as <- <- <-; destruct Hin|].
  destruct formData as [form|]; [|injection H as <- <- <-; destruct Hin].
  destruct (negb _); [injection H as <- <- <-; destruct Hin|].
  exists (ty ++ "-" ++ Date_ms s t ++ "-" ++ random36 s).
  destruct (form "file") as [[text|name_]|].
  - destruct (Js.nonEmpty text); [injection H as <- <- <-; destruct Hin|].
    eapply POST_write_put; [exact H | intros k b [] | exact Hin].
  - destruct (blob_put s 0%nat _) as [imageUrl_|].
    + eapply POST_write_put; [exact H | | exact Hin].
      intros k b [Heq|[]]. discriminate.
    + injection H as <- <- <-. destruct Hin as [Heq|[]]. discriminate.
  - eapply POST_write_put; [exact H | intros k b [] | exact Hin].
Qed.

(** Every JSON write of POST goes to the POST folder of the type, every
    JSON write of PUT to the PUT folder. *)
Lemma POST_writes_key (ty key : string) :
  POST_writes s ty key -> exists text, key = jsonKey (POST_jsonFolder ty) text.
Proof.
  intros (h & contentType & json & formData & t & reply & calls & t' & body
          & H & Hin).
  unfold POST, ret in H. destruct (isJsonRequest contentType).
  - injection H as H _.
    destruct (POST_json_put s ty json reply calls key body H Hin)
      as (_ & _ & text & _ & _ & _ & -> & _).
    exists text. reflexivity.
  - exact (POST_form_put h ty formData t t' reply calls key body H Hin).
Qed.

Lemma PUT_writes_key (ty key : string) :
  PUT_writes s ty key -> exists text, key = jsonKey (PUT_jsonFolder ty) text.
Proof.
  intros (h & json & reply & calls & body & H & Hin).
  unfold PUT in H.
  destruct (absent (Some ty)); [injection H as <- <-; destruct Hin|].
  destruct json as [sent|]; [|injection H as <- <-; destruct Hin].
  assert (Hmain :
    calls = []
    \/ exists item blobs existingFile text,
         idText s item = Some text
         /\ (if blob_del s 0%nat (url existingFile)
             then
               match blob_put s 1%nat (jsonKey (PUT_jsonFolder ty) text) with
               | Some jsonUrl =>
                   (Success (Some item) (Some jsonUrl) (Some updated),
                    [Del (url existingFile);
                     PutJson (jsonKey (PUT_jsonFolder ty) text) item])
               | None =>
                   (Failure editFailed 500,
                    [Del (url existingFile);
                     PutJson (jsonKey (PUT_jsonFolder ty) text) item])
               end
             else (Failure editFailed 500, [Del (url existingFile)]))
            = (reply, calls)
         /\ allBlobs h (folderPaths ty) = Some blobs).
  { destruct sent; try (injection H as <- <-; left; reflexivity);
      (destruct (itemWithId _) as [item|];
       [|injection H as <- <-; left; reflexivity]);
      (destruct (allBlobs h (folderPaths ty)) as [blobs|];
       [|injection H as <- <-; left; reflexivity]);
      (destruct (findJson (idText s item) blobs) as [| |existingFile];
       [destruct (idText s item); injection H as <- <-; left; reflexivity
       |destruct (idText s item); injection H as <- <-; left; reflexivity
       |]);
      (destruct (idText s item) as [text|] eqn:Htext;
       [|injection H as <- <-; left; reflexivity]);
      right; exists item, blobs, existingFile, text; auto. }
  clear H. destruct Hmain as [->|(item & blobs & existingFile & text & _ & H
                                 & _)]; [destruct Hin|].
  exists text.
  destruct (blob_del s 0%nat (url existingFile)).
  - destruct (blob_put s 1%nat _); injection H as <- <-;
      (destruct Hin as [Heq|[Heq|[]]];
       [discriminate | injection Heq as <- _; reflexivity]).
  - injection H as <- <-. destruct Hin as [Heq|[]]. discriminate.
Qed.

(** POST does write under each type, and so does PUT, on a store that
    deletes and that converts the id to its own text. *)
Lemma POST_writes_some (ty text : string) :
  Js.nonEmpty ty = true ->
  Js.nonEmpty text = true ->
  ToString s (Js.Str text) = Some text ->
  POST_writes s ty (jsonKey (POST_jsonFolder ty) text).
Proof.
  intros Hty Htext Hconv.
  assert (HPOST : exists reply,
    POST_json s (Some ty) (Some (body_of text))
    = (reply, [PutJson (jsonKey (POST_jsonFolder ty) text)
                       (Js.Obj (withType [("id", Js.Str text)] ty))])).
  { unfold POST_json, absent. rewrite Hty. cbn [negb body_of].
    unfold itemWithId. cbn [Js.prop Js.assoc String.eqb Ascii.eqb Bool.eqb].
    cbn. rewrite Htext. cbn.
    unfold idText. cbn. rewrite Hconv.
    destruct (blob_put s 0%nat _); eauto. }
  destruct HPOST as (reply & HPOST).
  exists emptyHost, (Some "application/json"), (Some (body_of text)), None,
    0%nat, reply,
    [PutJson (jsonKey (POST_jsonFolder ty) text)
             (Js.Obj (withType [("id", Js.Str text)] ty))],
    0%nat, (Js.Obj (withType [("id", Js.Str text)] ty)).
  split; [|left; reflexivity].
  unfold POST. cbn [isJsonRequest].
  change (includes "application/json" "application/json") with true.
  cbv beta iota. unfold ret. rewrite HPOST. reflexivity.
Qed.

Lemma prefix_empty (a : string) : String.prefix "" a = true.
Proof. destruct a; reflexivity. Qed.

Lemma itemWithId_body_of (text : string) :
  Js.nonEmpty text = true ->
  itemWithId (body_of text) = Some (Js.Obj [("id", Js.Str text)]).
Proof. intros Htext. unfold itemWithId. cbn. rewrite Htext. reflexivity. Qed.

Lemma PUT_writes_some (ty text url_ : string) :
  In ty typeValues ->
  Js.nonEmpty text = true ->
  ToString s (Js.Str text) = Some text ->
  blob_del s 0%nat url_ = true ->
  PUT_writes s ty (jsonKey (PUT_jsonFolder ty) text).
Proof.
  intros Hty Htext Hconv Hdel.
  pose (existing := {| pathname := jsonKey (PUT_jsonFolder ty) text;
                       url := url_ |}).
  assert (Hfind : findJson (Some text) [existing] = Hit existing).
  { cbn [findJson existing pathname].
    rewrite endsWith_jsonKey, includes_jsonKey. reflexivity. }
  assert (Hlist : allBlobs (storeHost [existing]) (folderPaths ty)
                  = Some [existing]).
  { simpl in Hty. unfold existing.
    destruct Hty as [<-|[<-|[<-|[<-|[]]]]];
      cbn; rewrite prefix_empty; reflexivity. }
  assert (Hne : absent (Some ty) = false).
  { simpl in Hty. destruct Hty as [<-|[<-|[<-|[<-|[]]]]]; reflexivity. }
  assert (Hid : idText s (Js.Obj [("id", Js.Str text)]) = Some text)
    by exact Hconv.
  assert (HPUT : exists reply,
    PUT (storeHost [existing]) s (Some ty) (Some (body_of text))
    = (reply, [Del url_;
               PutJson (jsonKey (PUT_jsonFolder ty) text)
                       (Js.Obj [("id", Js.Str text)])])).
  { unfold PUT. rewrite Hne, (itemWithId_body_of text Htext), Hlist.
    cbv beta iota. rewrite Hid, Hfind.
    change (url existing) with url_. rewrite Hdel.
    unfold body_of. destruct (blob_put s 1%nat _); eauto. }
  destruct HPUT as (reply & HPUT).
  exists (storeHost [existing]), (Some (body_of text)), reply,
    [Del url_;
     PutJson (jsonKey (PUT_jsonFolder ty) text)
             (Js.Obj [("id", Js.Str text)])],
    (Js.Obj [("id", Js.Str text)]).
  split; [exact HPUT | right; left; reflexivity].
Qed.

(** The blobs GET enumerates, for a store that keeps its contract for a
    blob. *)
Lemma allBlobs_In (h : Host) (blob : Blob) (folders : list string)
      (blobs : list Blob) (folderPath : string) :
  storesUnder h blob ->
  allBlobs h folders = Some blobs ->
  In folderPath folders ->
  String.prefix (folderPath ++ "/") (pathname blob) = true ->
  In blob blobs.
Proof.
  intros Hstore. revert blobs.
  induction folders as [|folder rest IH]; intros blobs Hall Hin Hprefix;
    [destruct Hin|].
  cbn [allBlobs] in Hall.
  destruct (blob_list h (folder ++ "/")) as [listed|] eqn:Hlist;
    [|discriminate].
  destruct (allBlobs h rest) as [more|]; [|discriminate].
  injection Hall as <-. apply in_or_app.
  destruct Hin as [->|Hin].
  - left. exact (Hstore _ _ Hlist Hprefix).
  - right. exact (IH more eq_refl Hin Hprefix).
Qed.

Lemma allBlobs_In_iff (h : Host) (blob : Blob) (folders : list string)
      (blobs : list Blob) :
  listsByPrefix h blob ->
  allBlobs h folders = Some blobs ->
  (In blob blobs <->
   existsb (fun folderPath =>
              String.prefix (folderPath ++ "/") (pathname blob)) folders
   = true).
Proof.
  intros Hstore. revert blobs.
  induction folders as [|folder rest IH]; intros blobs Hall;
    cbn [allBlobs existsb] in *.
  - injection Hall as <-. split; [intros [] | discriminate].
  - destruct (blob_list h (folder ++ "/")) as [listed|] eqn:Hlist;
      [|discriminate].
    destruct (allBlobs h rest) as [more|]; [|discriminate].
    injection Hall as <-.
    rewrite in_app_iff, orb_true_iff, (Hstore _ _ Hlist), (IH more eq_refl).
    reflexivity.
Qed.

Lemma jsonFiles_In (blob : Blob) (blobs : list Blob) :
  In blob (jsonFiles blobs) <->
  In blob blobs /\ Js.endsWith (pathname blob) ".json" = true.
Proof. unfold jsonFiles. apply filter_In. Qed.

Lemma prefix_jsonKey (jsonFolder text : string) :
  String.prefix (jsonFolder ++ "/") (jsonKey jsonFolder text) = true.
Proof. unfold jsonKey. rewrite <- append_assoc. apply prefix_append. Qed.

Lemma listsByPrefix_storesUnder (h : Host) (blob : Blob) :
  listsByPrefix h blob -> storesUnder h blob.
Proof.
  intros Hstore prefix_ blobs Hlist Hprefix.
  apply (Hstore _ _ Hlist). exact Hprefix.
Qed.

(** The sample store keeps the contract for each blob it holds. *)
Lemma storeHost_listsByPrefix (contents : list Blob) (blob : Blob) :
  In blob contents -> listsByPrefix (storeHost contents) blob.
Proof.
  intros Hin prefix_ blobs Hlist. cbn in Hlist. injection Hlist as <-.
  rewrite filter_In. tauto.
Qed.

(** GET loads what it enumerated and kept. *)
Lemma GET_loads (h : Host) (listed : string) (blobs : list Blob) (t : nat) :
  Js.nonEmpty listed = true ->
  allBlobs h (folderPaths listed) = Some blobs ->
  GET h (Some listed) t
  = (Json (filteredItems h listed
             (fst (loadItems h listed (jsonFiles blobs) t))) noStore,
     snd (loadItems h listed (jsonFiles blobs) t)).
Proof.
  intros Hne Hall. unfold GET. rewrite Hne, Hall. cbn [negb].
  unfold bind, ret. destruct (loadItems h listed (jsonFiles blobs) t).
  reflexivity.
Qed.

(** C10: a JSON blob that POST or PUT writes for "gallery" or "normal" is
    among the files GET loads for either of the two types.  Every JSON
    write of POST for the two types has a key under [gallery-gallery];
    every JSON write of PUT has a key under [gallery-gallery] for
    "gallery" and under [gallery-normal] for "normal", so the two handlers
    never write the same key for "normal"; both handlers do write such
    keys.  On a store that lists a blob under every prefix of its
    pathname, the blob with a written key is enumerated by GET for either
    type and passes the [.json] filter, and GET builds its answer from
    the files so kept. *)
Theorem C10_written_blob_is_listed
        (h : Host) (written listed key : string) (blob : Blob)
        (blobs : list Blob) (t : nat) :
  written = "gallery" \/ written = "normal" ->
  listed = "gallery" \/ listed = "normal" ->
  POST_writes s written key \/ PUT_writes s written key ->
  pathname blob = key ->
  storesUnder h blob ->
  allBlobs h (folderPaths listed) = Some blobs ->
  In blob (jsonFiles blobs)
  /\ GET h (Some listed) t
     = (Json (filteredItems h listed
                (fst (loadItems h listed (jsonFiles blobs) t))) noStore,
        snd (loadItems h listed (jsonFiles blobs) t))
  /\ (POST_writes s written key ->
      exists text, key = jsonKey "gallery-gallery" text)
  /\ (PUT_writes s written key ->
      exists text,
        key = jsonKey (if String.eqb written "normal" then "gallery-normal"
                       else "gallery-gallery") text)
  /\ (forall key1 key2,
        POST_writes s "normal" key1 -> PUT_writes s "normal" key2 ->
        key1 <> key2)
  /\ (forall text,
        Js.nonEmpty text = true ->
        ToString s (Js.Str text) = Some text ->
        POST_writes s written (jsonKey "gallery-gallery" text)
        /\ (forall url_,
              blob_del s 0%nat url_ = true ->
              PUT_writes s written
                (jsonKey (if String.eqb written "normal" then "gallery-normal"
                          else "gallery-gallery") text))).
Proof.
  intros Hw Hl Hwritten Hpath Hstore Hall.
  assert (Hpost : POST_jsonFolder written = "gallery-gallery")
    by (destruct Hw as [-> | ->]; reflexivity).
  assert (Hput : PUT_jsonFolder written
                 = if String.eqb written "normal" then "gallery-normal"
                   else "gallery-gallery")
    by (destruct Hw as [-> | ->]; reflexivity).
  assert (Hread : folderPaths listed = ["gallery-gallery"; "gallery-normal"])
    by (destruct Hl as [-> | ->]; reflexivity).
  assert (Hfolder : exists jsonFolder text,
             key = jsonKey jsonFolder text
             /\ In jsonFolder (folderPaths listed)).
  { rewrite Hread. destruct Hwritten as [H|H].
    - apply POST_writes_key in H. destruct H as (text & ->).
      exists "gallery-gallery", text. rewrite Hpost. cbn. auto.
    - apply PUT_writes_key in H. destruct H as (text & ->).
      exists (PUT_jsonFolder written), text.
      split; [reflexivity|].
      destruct Hw as [-> | ->]; cbn; auto. }
  destruct Hfolder as (jsonFolder & text & Hkey & Hin).
  split; [|split; [|split; [|split; [|split]]]].
  - apply jsonFiles_In. rewrite Hpath, Hkey. split.
    + apply (allBlobs_In h blob (folderPaths listed) blobs jsonFolder);
        try assumption.
      rewrite Hpath, Hkey. apply prefix_jsonKey.
    + apply endsWith_jsonKey.
  - apply GET_loads; [destruct Hl as [-> | ->]; reflexivity | exact Hall].
  - intros H. apply POST_writes_key in H. rewrite Hpost in H. exact H.
  - intros H. apply PUT_writes_key in H. rewrite Hput in H. exact H.
  - intros key1 key2 H1 H2.
    apply POST_writes_key in H1. apply PUT_writes_key in H2.
    destruct H1 as (text1 & ->), H2 as (text2 & ->).
    unfold jsonKey. cbn. discriminate.
  - intros text0 Htext Hconv. split.
    + rewrite <- Hpost. apply POST_writes_some; try assumption.
      destruct Hw as [-> | ->]; reflexivity.
    + intros url_ Hdel. rewrite <- Hput.
      apply (PUT_writes_some written text0 url_); try assumption.
      destruct Hw as [-> | ->]; simpl; tauto.
Qed.

(** X17: across the four known types, a JSON blob written by POST or by
    PUT under one type is among the files GET loads under another exactly
    when the two types are the same or are both among "gallery" and
    "normal": featured and event records are listed under their own type
    only.  The store is one that lists the blob under the prefixes of its
    pathname and under no other. *)
Theorem X17_folders_partition_the_types
        (h : Host) (written listed key : string) (blob : Blob)
        (blobs : list Blob) (t : nat) :
  In written typeValues ->
  In listed typeValues ->
  POST_writes s written key \/ PUT_writes s written key ->
  pathname blob = key ->
  listsByPrefix h blob ->
  allBlobs h (folderPaths listed) = Some blobs ->
  (In blob (jsonFiles blobs) <->
   written = listed \/ (isAllApps written = true /\ isAllApps listed = true))
  /\ GET h (Some listed) t
     = (Json (filteredItems h listed
                (fst (loadItems h listed (jsonFiles blobs) t))) noStore,
        snd (loadItems h listed (jsonFiles blobs) t)).
Proof.
  intros Hw Hl Hwritten Hpath Hstore Hall.
  split.
  2:{ apply GET_loads; [|exact Hall].
      simpl in Hl. destruct Hl as [<-|[<-|[<-|[<-|[]]]]]; reflexivity. }
  assert (Hkey : exists jsonFolder text,
             key = jsonKey jsonFolder text
             /\ (jsonFolder = POST_jsonFolder written
                 \/ jsonFolder = PUT_jsonFolder written)).
  { destruct Hwritten as [H|H].
    - apply POST_writes_key in H. destruct H as (text & ->). eauto.
    - apply PUT_writes_key in H. destruct H as (text & ->). eauto. }
  destruct Hkey as (jsonFolder & text & Hkey & Hfolder).
  rewrite jsonFiles_In, (allBlobs_In_iff h blob _ blobs Hstore Hall).
  rewrite Hpath, Hkey, endsWith_jsonKey.
  assert (Hsame : forall rest,
             (String.prefix (jsonFolder ++ "/") (jsonKey jsonFolder text)
              || rest) = true)
    by (intros rest; rewrite prefix_jsonKey; reflexivity).
  simpl in Hw, Hl.
  destruct Hw as [<-|[<-|[<-|[<-|[]]]]], Hl as [<-|[<-|[<-|[<-|[]]]]];
    destruct Hfolder as [-> | ->];
    cbn [folderPaths isAllApps String.eqb Ascii.eqb Bool.eqb orb existsb
         POST_jsonFolder PUT_jsonFolder append] in *;
    (split;
     [ intros [Hex _];
       first [ left; reflexivity
             | right; split; reflexivity
             | exfalso; cbn in Hex; discriminate Hex ]
     | intros Hrel; split; [|reflexivity];
       first [ apply Hsame
             | cbn; rewrite prefix_append; reflexivity
             | exfalso; destruct Hrel as [Heq|[Ha Hb]]; discriminate ] ]).
Qed.

End WrittenKeys.

Section FormReadBack.

Variable h : Host.
Variable s : Store.
Variable form : Form.
Variables ty id_ publishDate_ uploadDate_ : string.
Variable imageUrl_ : option string.
Variable tags_ : Js.value.

Let stored : Js.value :=
  formItem form ty id_ imageUrl_ publishDate_ uploadDate_ tags_.

Let inferred : string :=
  if entryIs (form "isPublished") "true" then "published" else "development".

Lemma prop_formItem :
  Js.prop stored "id" = Some (Js.Str id_)
  /\ Js.prop stored "title" = Some (entryValue (form "title"))
  /\ Js.prop stored "content" = Some (entryValue (form "content"))
  /\ Js.prop stored "author" = Some (entryValue (form "author"))
  /\ Js.prop stored "name" = Some (entryValue (form "title"))
  /\ Js.prop stored "description" = Some (entryValue (form "content"))
  /\ Js.prop stored "developer" = Some (entryValue (form "author"))
  /\ Js.prop stored "type" = Some (Js.Str ty)
  /\ Js.prop stored "status" = Some (entryOr (form "status") inferred)
  /\ Js.prop stored "isPublished"
     = Some (Js.Bool (entryIs (form "isPublished") "true"))
  /\ Js.prop stored "publishDate" = Some (Js.Str publishDate_)
  /\ Js.prop stored "uploadDate" = Some (Js.Str uploadDate_)
  /\ Js.prop stored "tags" = Some tags_.
Proof.
  unfold stored, formItem, inferred.
  destruct imageUrl_, (entryOpt (form "storeUrl")); cbn;
    repeat split; reflexivity.
Qed.

Lemma isTrue_formItem :
  isTrue stored "isPublished" = entryIs (form "isPublished") "true".
Proof.
  unfold isTrue.
  destruct prop_formItem as (_ & _ & _ & _ & _ & _ & _ & _ & _ & -> & _).
  destruct (entryIs (form "isPublished") "true"); reflexivity.
Qed.

Lemma pickStatus_formItem :
  pickStatus stored
  = match form "status" with
    | Some (Text st) => if oneOf st statusValues then st else inferred
    | _ => inferred
    end.
Proof.
  unfold pickStatus, getStr. rewrite isTrue_formItem.
  destruct prop_formItem as (_ & _ & _ & _ & _ & _ & _ & _ & -> & _).
  fold inferred. unfold entryOr, statusValues.
  destruct (form "status") as [[st|name_]|]; cbn.
  - destruct st as [|c rest]; cbn; [|reflexivity].
    unfold inferred. destruct (entryIs (form "isPublished") "true");
      reflexivity.
  - reflexivity.
  - unfold inferred. destruct (entryIs (form "isPublished") "true");
      reflexivity.
Qed.

Lemma pushItem_formItem (listed : string) (t0 : nat) :
  id_ <> "" -> publishDate_ <> "" -> uploadDate_ <> "" ->
  pushItem listed stored h t0
  = (Some (normalized listed stored id_ publishDate_ uploadDate_), t0).
Proof.
  intros Hid Hpd Hud. unfold pushItem.
  assert (Hobj : Js.truthy stored = true /\ Js.typeof stored = Js.TObject)
    by (split; reflexivity).
  destruct Hobj as [-> ->]. cbn [negb].
  unfold getStr.
  destruct prop_formItem
    as (-> & _ & _ & _ & _ & _ & _ & _ & _ & _ & -> & -> & _).
  destruct id_ as [|c0 r0]; [contradiction|]. cbn [Js.nonEmpty].
  destruct publishDate_ as [|c1 r1]; [contradiction|].
  destruct uploadDate_ as [|c2 r2]; [contradiction|].
  reflexivity.
Qed.

End FormReadBack.

Lemma getArrStr_strings (raw : Js.value) (k : string) (texts : list string) :
  Js.prop raw k = Some (Js.Arr (map Js.Str texts)) ->
  getArrStr raw k = texts.
Proof.
  intros Hprop. unfold getArrStr. rewrite Hprop. clear Hprop.
  induction texts as [|text rest IH]; cbn; [reflexivity|].
  f_equal. exact IH.
Qed.

Section FormRoundTrip.

Variable h : Host.
Variable s : Store.

(** X20: a record created through the form reads back as submitted: the
    normaliser accepts the stored JSON under any listing without reading
    the clock, and gives the generated id, the type of the request, the
    submitted title, content and author (also under their legacy names),
    the two creation dates, and a status that is the submitted one when it
    is recognised and is inferred from the publish flag otherwise. *)
Theorem X20_form_record_reads_back
        (ty listed : string) (form : Form) (t t' t0 : nat)
        (stored : Js.value) (jsonUrl message : option string)
        (calls : list StoreCall) (title_ content_ author_ : string) :
  In ty typeValues ->
  POST_form h s (Some ty) (Some form) t
  = ((Success (Some stored) jsonUrl message, calls), t') ->
  form "title" = Some (Text title_) ->
  form "content" = Some (Text content_) ->
  form "author" = Some (Text author_) ->
  Date_now h (S t) <> "" ->
  Date_now h (S (S t)) <> "" ->
  exists item,
    pushItem listed stored h t0 = (Some item, t0)
    /\ id item = ty ++ "-" ++ Date_ms s t ++ "-" ++ random36 s
    /\ type item = ty
    /\ (title item = title_ /\ name item = title_)
    /\ (content item = content_ /\ description item = content_)
    /\ (author item = author_ /\ developer item = author_)
    /\ (publishDate item = Date_now h (S t)
        /\ uploadDate item = Date_now h (S (S t)))
    /\ (forall st, form "status" = Some (Text st) -> In st statusValues ->
                   status item = st)
    /\ ((forall st, form "status" = Some (Text st) ->
                    ~ In st statusValues) ->
        status item = if entryIs (form "isPublished") "true"
                      then "published" else "development")
    /\ isPublished item
       = entryIs (form "isPublished") "true"
         || String.eqb (status item) "published"
    /\ (forall text, form "tags" = Some (Text text) -> text <> "" ->
                     tags item = map (String_trim s) (split text ","%char)).
Proof.
  intros Hty HPOST Htitle Hcontent Hauthor Hpd Hud.
  destruct (POST_form_Success _ _ _ _ _ _ _ _ _ _ HPOST)
    as (Hfilled & -> & imageUrl_ & tags_ & before & Htags & Hitem & _ & _).
  remember (ty ++ "-" ++ Date_ms s t ++ "-" ++ random36 s) as id_ eqn:Hid_.
  injection Hitem as ->.
  rewrite Htitle, Hcontent, Hauthor in Hfilled. cbn [filled] in Hfilled.
  apply andb_true_iff in Hfilled. destruct Hfilled as [Hfilled Ha].
  apply andb_true_iff in Hfilled. destruct Hfilled as [Ht Hc].
  assert (Hid : id_ <> "").
  { rewrite Hid_. destruct ty; discriminate. }
  eexists. split.
  { apply (pushItem_formItem h form ty id_ _ _ imageUrl_ tags_ listed t0);
      assumption. }
  cbn [id type title name content description author developer publishDate
       uploadDate status isPublished normalized].
  destruct (prop_formItem form ty id_
              (Date_now h (S t)) (Date_now h (S (S t))) imageUrl_ tags_)
    as (_ & Hp_title & Hp_content & Hp_author & Hp_name & Hp_desc & Hp_dev
        & Hp_type & _ & _ & _ & _ & Hp_tags).
  rewrite Htitle in Hp_title, Hp_name.
  rewrite Hcontent in Hp_content, Hp_desc.
  rewrite Hauthor in Hp_author, Hp_dev.
  cbn [entryValue entryJson] in *.
  apply getStr_spec in Hp_title, Hp_content, Hp_author, Hp_name, Hp_desc,
    Hp_dev, Hp_type.
  rewrite Hp_title, Hp_content, Hp_author, Hp_name, Hp_desc, Hp_dev.
  rewrite pickStatus_formItem, isTrue_formItem.
  split; [reflexivity|]. split.
  { unfold pickType. rewrite Hp_type.
    apply oneOf_In in Hty. unfold typeValues in Hty. rewrite Hty.
    reflexivity. }
  destruct title_ as [|? ?]; [discriminate|].
  destruct content_ as [|? ?]; [discriminate|].
  destruct author_ as [|? ?]; [discriminate|].
  split; [split; reflexivity|]. split; [split; reflexivity|].
  split; [split; reflexivity|]. split; [split; reflexivity|].
  split; [|split; [|split; [reflexivity|]]].
  - intros st -> Hin. apply oneOf_In in Hin. rewrite Hin. reflexivity.
  - intros Hno. destruct (form "status") as [[st|name_]|]; try reflexivity.
    destruct (oneOf st statusValues) eqn:Hin; [|reflexivity].
    apply oneOf_In in Hin. exfalso. exact (Hno st eq_refl Hin).
  - intros text Htext Hne. apply getArrStr_strings.
    rewrite Hp_tags. rewrite Htext in Htags. cbn [formTags] in Htags.
    destruct text as [|c rest]; [contradiction|]. cbn [Js.nonEmpty] in Htags.
    injection Htags as <-. rewrite map_map. reflexivity.
Qed.

(** X21: whether a record created through the form is listed follows from
    two form fields.  With the publish flag set to the text "true" every
    listing keeps it; without the flag, a submitted status "in-review"
    makes it appear under "gallery" and "normal" only, and any status
    other than "published" and "in-review" (or none) keeps it out of
    every listing. *)
Theorem X21_form_record_visibility
        (ty listed : string) (form : Form) (t t' t0 t1 : nat)
        (stored : Js.value) (jsonUrl message : option string)
        (calls : list StoreCall) (item : GalleryItem) :
  POST_form h s (Some ty) (Some form) t
  = ((Success (Some stored) jsonUrl message, calls), t') ->
  pushItem listed stored h t0 = (Some item, t1) ->
  (entryIs (form "isPublished") "true" = true -> keeps listed item = true)
  /\ (entryIs (form "isPublished") "true" = false ->
      form "status" = Some (Text "in-review") ->
      keeps listed item = isAllApps listed)
  /\ (entryIs (form "isPublished") "true" = false ->
      (forall st, form "status" = Some (Text st) ->
                  st <> "published" /\ st <> "in-review") ->
      keeps listed item = false).
Proof.
  intros HPOST Hpush.
  destruct (POST_form_Success _ _ _ _ _ _ _ _ _ _ HPOST)
    as (_ & _ & imageUrl_ & tags_ & before & _ & Hitem & _ & _).
  injection Hitem as ->.
  apply pushItem_Some in Hpush.
  destruct Hpush as (fields & id0 & pd & ud & Hobj & _ & _ & ->).
  unfold keeps. cbn [isPublished status normalized].
  rewrite pickStatus_formItem, isTrue_formItem.
  split; [|split].
  - intros ->. cbn. destruct (isAllApps listed); reflexivity.
  - intros -> ->. cbn. destruct (isAllApps listed); reflexivity.
  - intros -> Hno. cbn [orb].
    assert (Hst : match form "status" with
                  | Some (Text st) =>
                      if oneOf st statusValues then st else "development"
                  | _ => "development"
                  end = "development").
    { destruct (form "status") as [[st|name_]|] eqn:Hs; try reflexivity.
      destruct (oneOf st statusValues) eqn:Hin; [|reflexivity].
      apply oneOf_In in Hin. destruct (Hno st eq_refl) as [Hp Hr].
      simpl in Hin. intuition congruence. }
    rewrite Hst. cbn. destruct (isAllApps listed); reflexivity.
Qed.

End FormRoundTrip.

(** ** The image of a record *)

Lemma substring_split (s : string) :
  forall k, (k <= String.length s)%nat ->
            s = substring 0 k s ++ substring k (String.length s - k) s.
Proof.
  induction s as [|c rest IH]; intros k Hk.
  - destruct k; [reflexivity|cbn in Hk; lia].
  - destruct k as [|k'].
    + cbn [substring append String.length Nat.sub].
      rewrite substring_whole. reflexivity.
    + cbn [substring append String.length Nat.sub]. f_equal.
      apply IH. cbn in Hk. lia.
Qed.

Lemma endsWith_split (s suffix : string) :
  Js.endsWith s suffix = true -> exists front, s = front ++ suffix.
Proof.
  unfold Js.endsWith. intros H. apply andb_true_iff in H.
  destruct H as [Hlen Heq]. apply Nat.leb_le in Hlen.
  apply String.eqb_eq in Heq.
  exists (substring 0 (String.length s - String.length suffix) s).
  pose proof (substring_split s (String.length s - String.length suffix)
                ltac:(lia)) as Hsplit.
  replace (String.length s - (String.length s - String.length suffix))%nat
    with (String.length suffix) in Hsplit by lia.
  rewrite Heq in Hsplit. exact Hsplit.
Qed.

Section Splitting.

Variable sep : ascii.

Lemma splitAt_nonempty (current s : string) : splitAt sep current s <> [].
Proof.
  revert current. induction s as [|c rest IH]; intros current; cbn.
  - discriminate.
  - destruct (Ascii.eqb c sep); [discriminate | apply IH].
Qed.

Lemma last_cons_nonempty {A} (x d : A) (l : list A) :
  l <> [] -> last (x :: l) d = last l d.
Proof. destruct l; [contradiction | reflexivity]. Qed.

Lemma last_splitAt_after (front back current : string) :
  last (splitAt sep current (front ++ String sep back)) ""
  = last (splitAt sep "" back) "".
Proof.
  revert current. induction front as [|c rest IH]; intros current.
  - cbn [append splitAt]. rewrite Ascii.eqb_refl.
    apply last_cons_nonempty, splitAt_nonempty.
  - cbn [append splitAt]. destruct (Ascii.eqb c sep).
    + rewrite last_cons_nonempty by apply splitAt_nonempty. apply IH.
    + apply IH.
Qed.

Lemma noSep_append (a b : string) :
  noSep sep (a ++ b) = noSep sep a && noSep sep b.
Proof.
  induction a as [|c rest IH]; cbn; [reflexivity|].
  rewrite IH. apply andb_assoc.
Qed.

Lemma splitAt_noSep (piece : string) :
  noSep sep piece = true ->
  forall current, splitAt sep current piece = [current ++ piece].
Proof.
  induction piece as [|c rest IH]; intros Hno current.
  - cbn. rewrite append_empty. reflexivity.
  - cbn in Hno. apply andb_true_iff in Hno. destruct Hno as [Hc Hrest].
    apply negb_true_iff in Hc. cbn [splitAt]. rewrite Hc.
    rewrite (IH Hrest). rewrite append_assoc. reflexivity.
Qed.

Lemma last_splitAt_noSep (s : string) :
  forall current,
    noSep sep current = true ->
    noSep sep (last (splitAt sep current s) "") = true.
Proof.
  induction s as [|c rest IH]; intros current Hno.
  - exact Hno.
  - cbn [splitAt]. destruct (Ascii.eqb c sep) eqn:Hc.
    + rewrite last_cons_nonempty by apply splitAt_nonempty.
      apply IH. reflexivity.
    + apply IH. rewrite noSep_append, Hno. cbn. rewrite Hc. reflexivity.
Qed.

End Splitting.

Lemma extension_of_key (front name_ : string) :
  extension (front ++ "." ++ extension name_) = extension name_.
Proof.
  unfold extension at 1. unfold split.
  change (front ++ "." ++ extension name_)
    with (front ++ String "."%char (extension name_)).
  rewrite last_splitAt_after.
  rewrite splitAt_noSep; [reflexivity|].
  apply last_splitAt_noSep. reflexivity.
Qed.

Lemma find_Some_of_In {A} (f : A -> bool) (l : list A) (x : A) :
  In x l -> f x = true -> exists y, find f l = Some y.
Proof.
  intros Hin Hf. destruct (find f l) as [y|] eqn:Hfind; [eauto|].
  rewrite (find_none f l Hfind x Hin) in Hf. discriminate.
Qed.

(** X22: the image that POST stored for a record is within reach of
    DELETE: among listed blobs that include it, the image search for the
    id of the record returns a blob that is not a [.json] blob and whose
    path contains [/id.] - unless the uploaded file had the extension
    [json], in which case the image was written under the very key of the
    record's JSON. *)
Theorem X22_stored_image_is_located
        (ty id_ name_ : string) (image : Blob) (blobs : list Blob) :
  In image blobs ->
  pathname image
  = POST_imageFolder ty ++ "/" ++ (id_ ++ "." ++ extension name_) ->
  (extension name_ <> "json" ->
   exists hit,
     findImage id_ blobs = Some hit
     /\ In hit blobs
     /\ Js.endsWith (pathname hit) ".json" = false
     /\ includes (pathname hit) ("/" ++ id_ ++ ".") = true)
  /\ (extension name_ = "json" ->
      pathname image = jsonKey (POST_jsonFolder ty) id_).
Proof.
  intros Hin Hpath. split.
  - intros Hext.
    assert (Hinc : includes (pathname image) ("/" ++ id_ ++ ".") = true).
    { rewrite Hpath.
      replace ("/" ++ (id_ ++ "." ++ extension name_))
        with (("/" ++ id_ ++ ".") ++ extension name_).
      - apply includes_append.
      - cbn [append]. rewrite append_assoc. reflexivity. }
    assert (Hnot : Js.endsWith (pathname image) ".json" = false).
    { destruct (Js.endsWith (pathname image) ".json") eqn:Hends;
        [|reflexivity].
      exfalso. apply Hext.
      apply endsWith_split in Hends. destruct Hends as [front Hfront].
      assert (Hleft : extension (pathname image) = extension name_).
      { rewrite Hpath.
        replace (POST_imageFolder ty ++ "/" ++ (id_ ++ "." ++ extension name_))
          with ((POST_imageFolder ty ++ "/" ++ id_) ++ "." ++ extension name_).
        - apply extension_of_key.
        - rewrite !append_assoc. reflexivity. }
      assert (Hright : extension (pathname image) = "json").
      { rewrite Hfront. unfold extension, split.
        change (front ++ ".json") with (front ++ String "."%char "json").
        rewrite last_splitAt_after. reflexivity. }
      congruence. }
    destruct (find_Some_of_In
                (fun blob => includes (pathname blob) ("/" ++ id_ ++ ".")
                             && negb (Js.endsWith (pathname blob) ".json"))
                blobs image Hin) as [hit Hhit].
    { rewrite Hinc, Hnot. reflexivity. }
    exists hit. split; [exact Hhit|].
    apply find_some in Hhit. destruct Hhit as [Hhin Htest].
    apply andb_true_iff in Htest. destruct Htest as [Hi Hn].
    apply negb_true_iff in Hn. auto.
  - intros Hext. rewrite Hpath, Hext. reflexivity.
Qed.

(** * The gallery manager *)

Lemma filter_all {A} (f : A -> bool) (l : list A) :
  Forall (fun x => f x = true) l -> filter f l = l.
Proof.
  induction 1 as [|x rest Hx _ IH]; cbn; [reflexivity|].
  rewrite Hx, IH. reflexivity.
Qed.

Lemma GET_body_pushed (h : Host) (type_ : string) (t t' : nat)
      (body : list GalleryItem) (cacheControl : string) :
  GET h (Some type_) t = (Json body cacheControl, t') ->
  Forall (fun item => pushedBy h type_ item /\ keeps type_ item = true) body.
Proof.
  intros HGET.
  destruct (GET_Json h type_ t body cacheControl t' HGET)
    as (blobs & items & _ & Hload & ->).
  pose proof (loadItems_pushed h type_ _ _ _ _ Hload) as Hpushed.
  rewrite Forall_forall in *. intros item Hin.
  apply filteredItems_In in Hin. destruct Hin as [Hin Hkeep]. auto.
Qed.

(** X10: what the gallery manager shows after loading.  It asks the
    server for "gallery" in place of "normal"; on an error answer it keeps
    what it showed; for "gallery" and "normal" its own status filter lets
    through every record the server returned; for "featured" and "events"
    it shows the returned records whose status is "published", so that a
    record the server returned on the strength of its publish flag alone
    is not shown. *)
Theorem X10_manager_shows
        (h : Host) (type_ : string) (items : list GalleryItem) (t : nat) :
  In type_ typeValues ->
  GalleryManager.queryType type_ <> "normal"
  /\ (forall e st t',
         GET h (Some (GalleryManager.queryType type_)) t
         = (JsonError e st, t') ->
         GalleryManager.refresh h type_ items t = (items, t'))
  /\ (forall body cacheControl t',
         GET h (Some (GalleryManager.queryType type_)) t
         = (Json body cacheControl, t') ->
         GalleryManager.refresh h type_ items t
         = (GalleryManager.shown type_ body, t')
         /\ (type_ = "gallery" \/ type_ = "normal" ->
             GalleryManager.shown type_ body = body)
         /\ (type_ = "featured" \/ type_ = "events" ->
             GalleryManager.shown type_ body
             = filter (fun item => String.eqb (status item) "published") body
             /\ Forall (fun item => isPublished item = true)
                       (GalleryManager.shown type_ body))).
Proof.
  intros Hty. split; [|split].
  - simpl in Hty. destruct Hty as [<-|[<-|[<-|[<-|[]]]]]; discriminate.
  - intros e st t' HGET. unfold GalleryManager.refresh, bind.
    rewrite HGET. reflexivity.
  - intros body cacheControl t' HGET. split; [|split].
    + unfold GalleryManager.refresh, bind. rewrite HGET. reflexivity.
    + intros Hall.
      assert (Hq : GalleryManager.queryType type_ = "gallery")
        by (destruct Hall as [-> | ->]; reflexivity).
      unfold GalleryManager.shown. rewrite Hq. cbn [String.eqb].
      rewrite Hq in HGET. apply GET_body_pushed in HGET.
      replace (String.eqb "gallery" "gallery") with true by reflexivity.
      apply filter_all. rewrite Forall_forall in *. intros item Hin.
      destruct (HGET item Hin) as [(raw & t0 & t1 & Hpush) _].
      apply pushItem_Some in Hpush.
      destruct Hpush as (fields & id_ & pd & ud & -> & _ & _ & ->).
      cbn [status normalized].
      pose proof (pickStatus_closed (Js.Obj fields)) as Hst.
      simpl in Hst. destruct Hst as [<-|[<-|[<-|[]]]]; reflexivity.
    + intros Hown.
      assert (Hq : GalleryManager.queryType type_ = type_
                   /\ String.eqb type_ "gallery" = false
                   /\ isAllApps type_ = false)
        by (destruct Hown as [-> | ->]; repeat split; reflexivity).
      destruct Hq as (Hq & Hne & Hnotall).
      unfold GalleryManager.shown. rewrite Hq, Hne. split; [reflexivity|].
      rewrite Hq in HGET. apply GET_body_pushed in HGET.
      rewrite Forall_forall in *. intros item Hin.
      apply filter_In in Hin. destruct Hin as [Hin _].
      destruct (HGET item Hin) as [_ Hkeep].
      unfold keeps in Hkeep. rewrite Hnotall in Hkeep. exact Hkeep.
Qed.

(** ** More instances *)

Lemma X1_type_resolution_witness :
  pushItem "gallery" raw_typed emptyHost 0%nat
  = (Some (pushed "gallery" raw_typed "e1"), 2%nat)
  /\ type (pushed "gallery" raw_typed "e1") = "events".
Proof.
  assert (Hpush : pushItem "gallery" raw_typed emptyHost 0%nat
                  = (Some (pushed "gallery" raw_typed "e1"), 2%nat))
    by reflexivity.
  split; [exact Hpush|].
  destruct (X1_type_resolution emptyHost "gallery" raw_typed 0%nat 2%nat _
              Hpush) as (Hraw & _).
  apply Hraw; [reflexivity|]. right. right. left. reflexivity.
Defined.

Lemma X2_category_resolution_witness :
  pushItem "featured" raw_typed emptyHost 0%nat
  = (Some (pushed "featured" raw_typed "e1"), 2%nat)
  /\ appCategory (pushed "featured" raw_typed "e1") = "featured".
Proof.
  assert (Hpush : pushItem "featured" raw_typed emptyHost 0%nat
                  = (Some (pushed "featured" raw_typed "e1"), 2%nat))
    by reflexivity.
  split; [exact Hpush|].
  destruct (X2_category_resolution emptyHost "featured" raw_typed 0%nat 2%nat
              _ Hpush) as (_ & _ & Hrequest).
  apply Hrequest; [|reflexivity].
  intros c Hc. injection Hc as <-.
  unfold categoryValues. simpl. intros [H|[H|[H|[]]]]; discriminate.
Defined.

Lemma X3_dates_and_clock_witness :
  pushItem "gallery" (raw_dated "old" "2024-01-01T00:00:00.000Z") emptyHost
           5%nat
  = (Some (normalized "gallery" (raw_dated "old" "2024-01-01T00:00:00.000Z")
             "old" "2024-01-01T00:00:00.000Z" "2024-01-01T00:00:00.000Z"),
     5%nat)
  /\ publishDate
       (normalized "gallery" (raw_dated "old" "2024-01-01T00:00:00.000Z")
          "old" "2024-01-01T00:00:00.000Z" "2024-01-01T00:00:00.000Z")
     = "2024-01-01T00:00:00.000Z"
  /\ 5%nat = 5%nat.
Proof.
  assert (Hpush :
    pushItem "gallery" (raw_dated "old" "2024-01-01T00:00:00.000Z") emptyHost
             5%nat
    = (Some (normalized "gallery"
               (raw_dated "old" "2024-01-01T00:00:00.000Z")
               "old" "2024-01-01T00:00:00.000Z" "2024-01-01T00:00:00.000Z"),
       5%nat)) by reflexivity.
  split; [exact Hpush|].
  destruct (X3_dates_and_clock emptyHost "gallery" _ 5%nat 5%nat _ Hpush)
    as (_ & Hupload & _).
  destruct (Hupload (or_introl eq_refl) "2024-01-01T00:00:00.000Z")
    as (Hp & _ & Ht).
  - split; [reflexivity|discriminate].
  - split; [exact Hp | exact Ht].
Defined.

Lemma X4_alias_fields_mirror_witness :
  pushItem "featured" raw_a1 emptyHost 0%nat
  = (Some (pushed "featured" raw_a1 "a1"), 2%nat)
  /\ name (pushed "featured" raw_a1 "a1") = "Foo"
  /\ title (pushed "featured" raw_a1 "a1")
     = name (pushed "featured" raw_a1 "a1").
Proof.
  assert (Hpush : pushItem "featured" raw_a1 emptyHost 0%nat
                  = (Some (pushed "featured" raw_a1 "a1"), 2%nat))
    by reflexivity.
  split; [exact Hpush|].
  destruct (X4_alias_fields_mirror emptyHost "featured" raw_a1 0%nat 2%nat _
              Hpush) as ((Hname & _) & (Hsame & _)).
  split.
  - apply Hname. split; [reflexivity|discriminate].
  - apply Hsame. left. left. reflexivity.
Defined.

Lemma X5_icon_and_screenshots_witness :
  pushItem "gallery" raw_icon_only emptyHost 0%nat
  = (Some (pushed "gallery" raw_icon_only "i1"), 2%nat)
  /\ iconUrl (pushed "gallery" raw_icon_only "i1") = "icon.png"
  /\ screenshotUrls (pushed "gallery" raw_icon_only "i1") <> [].
Proof.
  assert (Hpush : pushItem "gallery" raw_icon_only emptyHost 0%nat
                  = (Some (pushed "gallery" raw_icon_only "i1"), 2%nat))
    by reflexivity.
  split; [exact Hpush|].
  destruct (X5_icon_and_screenshots emptyHost "gallery" raw_icon_only 0%nat
              2%nat _ Hpush) as (Hicon & _ & Hshots).
  split.
  - apply Hicon. split; [reflexivity|discriminate].
  - apply (Hshots "icon.png"). split; [reflexivity|discriminate].
Defined.

Lemma X6_single_object_as_one_element_array_witness :
  (forall elems, raw_a1 <> Js.Arr elems)
  /\ blob_fetch pairHost (url (blobAt "gallery-gallery/single.json"))
     = Body (Some raw_a1)
  /\ blob_fetch pairHost (url (blobAt "gallery-gallery/wrapped.json"))
     = Body (Some (Js.Arr [raw_a1]))
  /\ loadFile pairHost "gallery" (blobAt "gallery-gallery/single.json") 0%nat
     = loadFile pairHost "gallery" (blobAt "gallery-gallery/wrapped.json")
                0%nat.
Proof.
  assert (Hnot : forall elems, raw_a1 <> Js.Arr elems)
    by (intros elems; discriminate).
  split; [exact Hnot|]. split; [reflexivity|]. split; [reflexivity|].
  apply (X6_single_object_as_one_element_array pairHost "gallery"
           (blobAt "gallery-gallery/single.json")
           (blobAt "gallery-gallery/wrapped.json") raw_a1 0%nat Hnot);
    reflexivity.
Defined.

Lemma X7_listing_newest_first_witness :
  GET cleanHost (Some "gallery") 0%nat
  = (Json (listing cleanHost "gallery") noStore, 0%nat)
  /\ Forall (fun item => getTime cleanHost item <> None)
            (listing cleanHost "gallery")
  /\ StronglySorted (descendingBy (sortTimestamp cleanHost))
                    (listing cleanHost "gallery")
  /\ map id (listing cleanHost "gallery") = ["new"; "mid"; "old"].
Proof.
  assert (HGET : GET cleanHost (Some "gallery") 0%nat
                 = (Json (listing cleanHost "gallery") noStore, 0%nat))
    by reflexivity.
  assert (Hvalid : Forall (fun item => getTime cleanHost item <> None)
                          (listing cleanHost "gallery"))
    by (repeat constructor; discriminate).
  split; [exact HGET|]. split; [exact Hvalid|].
  destruct (X7_listing_newest_first cleanHost "gallery" 0%nat _ _ _ HGET
              Hvalid) as (blobs & items & _ & _ & Hsorted & _).
  split; [exact Hsorted | reflexivity].
Defined.

Lemma X8_listed_records_well_formed_witness :
  GET mixedHost (Some "gallery") 0%nat
  = (Json (listing mixedHost "gallery") noStore, 6%nat)
  /\ length (listing mixedHost "gallery") = 2%nat
  /\ Forall (fun item =>
               id item <> ""
               /\ In (status item) statusValues
               /\ In (type item) typeValues
               /\ In (store item) storeValues
               /\ In (appCategory item) categoryValues)
            (listing mixedHost "gallery").
Proof.
  assert (HGET : GET mixedHost (Some "gallery") 0%nat
                 = (Json (listing mixedHost "gallery") noStore, 6%nat))
    by reflexivity.
  split; [exact HGET|]. split; [reflexivity|].
  apply (X8_listed_records_well_formed mixedHost "gallery" 0%nat _ _ _ HGET).
Defined.

Lemma X11_written_key_is_located_witness :
  Js.nonEmpty "gallery" = true
  /\ allBlobs a1Host (folderPaths "gallery")
     = Some ([blobAt "gallery-gallery/a1.png"]
             ++ blobAt "gallery-gallery/a1.json" :: [])%list
  /\ findJson (Some "a1")
              ([blobAt "gallery-gallery/a1.png"]
               ++ blobAt "gallery-gallery/a1.json" :: [])
     = Hit (blobAt "gallery-gallery/a1.json")
  /\ DELETE a1Host openStore (Some "gallery") (Some "a1")
     = (Success None None (Some deleted),
        [Del "https://blob.example/gallery-gallery/a1.json";
         Del "https://blob.example/gallery-gallery/a1.png"])
  /\ hd_error (snd (PUT a1Host openStore (Some "gallery") (Some body_a1)))
     = Some (Del "https://blob.example/gallery-gallery/a1.json").
Proof.
  assert (Hty : Js.nonEmpty "gallery" = true) by reflexivity.
  assert (Hlist : allBlobs a1Host (folderPaths "gallery")
                  = Some ([blobAt "gallery-gallery/a1.png"]
                          ++ blobAt "gallery-gallery/a1.json" :: [])%list)
    by reflexivity.
  assert (Hbefore : Forall (fun blob => matchesJson "a1" blob = false)
                           [blobAt "gallery-gallery/a1.png"])
    by (constructor; [reflexivity | constructor]).
  destruct (X11_written_key_is_located a1Host openStore "gallery"
              "gallery-gallery" "a1" (blobAt "gallery-gallery/a1.json")
              [blobAt "gallery-gallery/a1.png"] [] Hty Hlist eq_refl Hbefore)
    as (Hfind & HDELETE & HPUT & _).
  split; [exact Hty|]. split; [exact Hlist|]. split; [exact Hfind|].
  split.
  - destruct (HDELETE eq_refl) as (reply & rest & Heq). reflexivity.
  - destruct (HPUT body_a1 (Js.Obj fields_a1) eq_refl eq_refl)
      as (reply & rest & Heq).
    rewrite Heq. reflexivity.
Defined.

(** A blob listed earlier whose path contains the searched text is taken
    instead: the blob of the id "1.json" for the id "1". *)
Example findJson_takes_first_match :
  findJson (Some "1") [blobAt "gallery-gallery/1.json.json";
                       blobAt "gallery-gallery/1.json"]
  = Hit (blobAt "gallery-gallery/1.json.json").
Proof. reflexivity. Qed.


Lemma X12_PUT_store_calls_witness :
  PUT a1Host openStore (Some "gallery") (Some body_a1)
  = (Success (Some (Js.Obj fields_a1))
             (Some "https://blob.example/gallery-gallery/a1.json")
             (Some updated),
     [Del "https://blob.example/gallery-gallery/a1.json";
      PutJson "gallery-gallery/a1.json" (Js.Obj fields_a1)])
  /\ exists deleted_ key sent,
       [Del "https://blob.example/gallery-gallery/a1.json";
        PutJson "gallery-gallery/a1.json" (Js.Obj fields_a1)]
       = [Del deleted_; PutJson key sent]
       /\ Some (Js.Obj fields_a1) = Some sent
       /\ blob_put openStore 1%nat key
          = Some "https://blob.example/gallery-gallery/a1.json".
Proof.
  assert (HPUT : PUT a1Host openStore (Some "gallery") (Some body_a1)
    = (Success (Some (Js.Obj fields_a1))
               (Some "https://blob.example/gallery-gallery/a1.json")
               (Some updated),
       [Del "https://blob.example/gallery-gallery/a1.json";
        PutJson "gallery-gallery/a1.json" (Js.Obj fields_a1)]))
    by reflexivity.
  split; [exact HPUT|].
  destruct (X12_PUT_store_calls a1Host openStore _ _ _ _ HPUT)
    as (_ & _ & Hsuccess).
  apply (Hsuccess _ _ _ eq_refl).
Defined.

Lemma X13_PUT_failed_write_loses_record_witness :
  "gallery" <> ""
  /\ body_a1 <> Js.Null
  /\ itemWithId body_a1 = Some (Js.Obj fields_a1)
  /\ idText oneCallStore (Js.Obj fields_a1) = Some "a1"
  /\ allBlobs a1Host (folderPaths "gallery")
     = Some [blobAt "gallery-gallery/a1.png"; blobAt "gallery-gallery/a1.json"]
  /\ findJson (Some "a1")
              [blobAt "gallery-gallery/a1.png";
               blobAt "gallery-gallery/a1.json"]
     = Hit (blobAt "gallery-gallery/a1.json")
  /\ blob_del oneCallStore 0%nat (url (blobAt "gallery-gallery/a1.json"))
     = true
  /\ blob_put oneCallStore 1%nat (jsonKey (PUT_jsonFolder "gallery") "a1")
     = None
  /\ PUT a1Host oneCallStore (Some "gallery") (Some body_a1)
     = (Failure editFailed 500,
        [Del (url (blobAt "gallery-gallery/a1.json"));
         PutJson (jsonKey (PUT_jsonFolder "gallery") "a1")
                 (Js.Obj fields_a1)]).
Proof.
  repeat (split; [first [reflexivity | discriminate]|]).
  apply (X13_PUT_failed_write_loses_record a1Host oneCallStore "gallery"
           body_a1 (Js.Obj fields_a1)
           [blobAt "gallery-gallery/a1.png"; blobAt "gallery-gallery/a1.json"]
           (blobAt "gallery-gallery/a1.json") "a1");
    first [reflexivity | discriminate].
Defined.

Lemma X14_DELETE_store_calls_witness :
  DELETE a1Host openStore (Some "gallery") (Some "a1")
  = (Success None None (Some deleted),
     [Del "https://blob.example/gallery-gallery/a1.json";
      Del "https://blob.example/gallery-gallery/a1.png"])
  /\ exists deleted_ rest,
       [Del "https://blob.example/gallery-gallery/a1.json";
        Del "https://blob.example/gallery-gallery/a1.png"]
       = Del deleted_ :: rest.
Proof.
  assert (HDEL : DELETE a1Host openStore (Some "gallery") (Some "a1")
    = (Success None None (Some deleted),
       [Del "https://blob.example/gallery-gallery/a1.json";
        Del "https://blob.example/gallery-gallery/a1.png"]))
    by reflexivity.
  split; [exact HDEL|].
  destruct (X14_DELETE_store_calls a1Host openStore _ _ _ _ HDEL)
    as (_ & _ & Hsuccess).
  apply (Hsuccess _ _ _ eq_refl).
Defined.

Lemma X15_POST_json_forces_type_witness :
  In "featured" typeValues
  /\ POST_json openStore (Some "featured") (Some body_huge)
     = (Success (Some (Js.Obj (withType fields_huge "featured")))
                (Some "https://blob.example/gallery-featured/a1.json") None,
        [PutJson "gallery-featured/a1.json"
                 (Js.Obj (withType fields_huge "featured"))])
  /\ exists sent fields,
       Some body_huge = Some sent
       /\ itemWithId sent = Some (Js.Obj fields)
       /\ Js.Obj (withType fields_huge "featured")
          = Js.Obj (withType fields "featured")
       /\ pushItem "gallery"
                   (Js.reparse (Js.Obj (withType fields_huge "featured")))
                   emptyHost 0%nat
          = (option_map (fun item => retyped item "featured")
               (fst (pushItem "gallery" (Js.reparse (Js.Obj fields))
                              emptyHost 0%nat)),
             snd (pushItem "gallery" (Js.reparse (Js.Obj fields))
                           emptyHost 0%nat))
       /\ (Js.reparse (Js.Obj fields) = Js.Obj fields ->
           pushItem "gallery"
                    (Js.reparse (Js.Obj (withType fields_huge "featured")))
                    emptyHost 0%nat
           = (option_map (fun item => retyped item "featured")
                (fst (pushItem "gallery" (Js.Obj fields) emptyHost 0%nat)),
              snd (pushItem "gallery" (Js.Obj fields) emptyHost 0%nat))).
Proof.
  assert (Hin : In "featured" typeValues) by (right; left; reflexivity).
  assert (HPOST : POST_json openStore (Some "featured") (Some body_huge)
     = (Success (Some (Js.Obj (withType fields_huge "featured")))
                (Some "https://blob.example/gallery-featured/a1.json") None,
        [PutJson "gallery-featured/a1.json"
                 (Js.Obj (withType fields_huge "featured"))]))
    by reflexivity.
  split; [exact Hin|]. split; [exact HPOST|].
  apply (X15_POST_json_forces_type emptyHost openStore "featured" "gallery"
           _ _ _ _ _ 0%nat Hin HPOST (or_introl eq_refl)).
Defined.

(** The rating of that item as sent, and of the record its blob reads
    back as. *)
Example huge_rating_is_stored_as_null :
  option_map rating
    (fst (pushItem "gallery" (Js.Obj (withType fields_huge "featured"))
                   emptyHost 0%nat))
  = Some (Js.Infinity false)
  /\ option_map rating
       (fst (pushItem "gallery"
                      (Js.reparse (Js.Obj (withType fields_huge "featured")))
                      emptyHost 0%nat))
     = Some (Js.Finite (45 # 10)).
Proof. split; reflexivity. Qed.


Lemma X16_POST_json_store_calls_witness :
  POST_json openStore (Some "featured") (Some body_a1)
  = (Success (Some (Js.Obj (withType fields_a1 "featured")))
             (Some "https://blob.example/gallery-featured/a1.json") None,
     [PutJson "gallery-featured/a1.json"
              (Js.Obj (withType fields_a1 "featured"))])
  /\ exists key stored,
       [PutJson "gallery-featured/a1.json"
                (Js.Obj (withType fields_a1 "featured"))]
       = [PutJson key stored]
       /\ Some (Js.Obj (withType fields_a1 "featured")) = Some stored
       /\ blob_put openStore 0%nat key
          = Some "https://blob.example/gallery-featured/a1.json"
       /\ @None string = None.
Proof.
  assert (HPOST : POST_json openStore (Some "featured") (Some body_a1)
    = (Success (Some (Js.Obj (withType fields_a1 "featured")))
               (Some "https://blob.example/gallery-featured/a1.json") None,
       [PutJson "gallery-featured/a1.json"
                (Js.Obj (withType fields_a1 "featured"))]))
    by reflexivity.
  split; [exact HPOST|].
  destruct (X16_POST_json_store_calls openStore _ _ _ _ HPOST)
    as (_ & _ & Hsuccess).
  apply (Hsuccess _ _ _ eq_refl).
Defined.


Lemma C10_written_blob_is_listed_witness :
  PUT_writes openStore "normal" "gallery-normal/a1.json"
  /\ POST_writes openStore "normal" "gallery-gallery/a1.json"
  /\ storesUnder (storeHost [blobAt "gallery-normal/a1.json"])
                 (blobAt "gallery-normal/a1.json")
  /\ allBlobs (storeHost [blobAt "gallery-normal/a1.json"])
              (folderPaths "gallery")
     = Some [blobAt "gallery-normal/a1.json"]
  /\ In (blobAt "gallery-normal/a1.json")
        (jsonFiles [blobAt "gallery-normal/a1.json"])
  /\ GET (storeHost [blobAt "gallery-normal/a1.json"]) (Some "gallery") 0%nat
     = (Json (filteredItems (storeHost [blobAt "gallery-normal/a1.json"])
                "gallery"
                (fst (loadItems (storeHost [blobAt "gallery-normal/a1.json"])
                        "gallery"
                        (jsonFiles [blobAt "gallery-normal/a1.json"]) 0%nat)))
             noStore,
        snd (loadItems (storeHost [blobAt "gallery-normal/a1.json"]) "gallery"
               (jsonFiles [blobAt "gallery-normal/a1.json"]) 0%nat)).
Proof.
  assert (HPUT : PUT_writes openStore "normal" "gallery-normal/a1.json").
  { exists a1Host, (Some body_a1),
      (Success (Some (Js.Obj fields_a1))
               (Some "https://blob.example/gallery-normal/a1.json")
               (Some updated)),
      [Del "https://blob.example/gallery-gallery/a1.json";
       PutJson "gallery-normal/a1.json" (Js.Obj fields_a1)],
      (Js.Obj fields_a1).
    split; [reflexivity | right; left; reflexivity]. }
  assert (Hstore : storesUnder (storeHost [blobAt "gallery-normal/a1.json"])
                               (blobAt "gallery-normal/a1.json")).
  { apply listsByPrefix_storesUnder, storeHost_listsByPrefix.
    left. reflexivity. }
  assert (Hall : allBlobs (storeHost [blobAt "gallery-normal/a1.json"])
                          (folderPaths "gallery")
                 = Some [blobAt "gallery-normal/a1.json"]) by reflexivity.
  destruct (C10_written_blob_is_listed openStore
              (storeHost [blobAt "gallery-normal/a1.json"])
              "normal" "gallery" "gallery-normal/a1.json"
              (blobAt "gallery-normal/a1.json")
              [blobAt "gallery-normal/a1.json"] 0%nat
              (or_intror eq_refl) (or_introl eq_refl) (or_intror HPUT)
              eq_refl Hstore Hall)
    as (Hin & HGET & _ & _ & _ & Hsome).
  split; [exact HPUT|].
  split; [exact (proj1 (Hsome "a1" eq_refl eq_refl))|].
  split; [exact Hstore|]. split; [exact Hall|].
  split; [exact Hin | exact HGET].
Defined.

Lemma X17_folders_partition_the_types_witness :
  In "normal" typeValues
  /\ In "featured" typeValues
  /\ POST_writes openStore "normal" "gallery-gallery/a1.json"
  /\ listsByPrefix (storeHost [blobAt "gallery-gallery/a1.json"])
                   (blobAt "gallery-gallery/a1.json")
  /\ allBlobs (storeHost [blobAt "gallery-gallery/a1.json"])
              (folderPaths "featured") = Some []
  /\ ~ In (blobAt "gallery-gallery/a1.json") (jsonFiles []).
Proof.
  assert (Hn : In "normal" typeValues) by (simpl; tauto).
  assert (Hf : In "featured" typeValues) by (simpl; tauto).
  assert (HPOST : POST_writes openStore "normal" "gallery-gallery/a1.json").
  { exists emptyHost, (Some "application/json"), (Some body_a1), None, 0%nat,
      (Success (Some (Js.Obj (withType fields_a1 "normal")))
               (Some "https://blob.example/gallery-gallery/a1.json") None),
      [PutJson "gallery-gallery/a1.json"
               (Js.Obj (withType fields_a1 "normal"))],
      0%nat, (Js.Obj (withType fields_a1 "normal")).
    split; [reflexivity | left; reflexivity]. }
  assert (Hstore : listsByPrefix (storeHost [blobAt "gallery-gallery/a1.json"])
                                 (blobAt "gallery-gallery/a1.json"))
    by (apply storeHost_listsByPrefix; left; reflexivity).
  assert (Hall : allBlobs (storeHost [blobAt "gallery-gallery/a1.json"])
                          (folderPaths "featured") = Some []) by reflexivity.
  destruct (X17_folders_partition_the_types openStore
              (storeHost [blobAt "gallery-gallery/a1.json"])
              "normal" "featured" "gallery-gallery/a1.json"
              (blobAt "gallery-gallery/a1.json") [] 0%nat
              Hn Hf (or_introl HPOST) eq_refl Hstore Hall)
    as (Hiff & _).
  split; [exact Hn|]. split; [exact Hf|]. split; [exact HPOST|].
  split; [exact Hstore|]. split; [exact Hall|].
  intros Hin. destruct (proj1 Hiff Hin) as [Heq|[_ Hb]]; discriminate.
Defined.

Lemma X18_unknown_type_witness :
  "archive" <> ""
  /\ ~ In "archive" typeValues
  /\ GET a1Host (Some "archive") 0%nat = (Json [] noStore, 0%nat)
  /\ PUT a1Host openStore (Some "archive") (Some body_a1)
     = (Failure notFound 404, [])
  /\ DELETE a1Host openStore (Some "archive") (Some "a1")
     = (Failure notFound 404, [])
  /\ POST_json openStore (Some "archive") (Some body_a1)
     = (Success (Some (Js.Obj (withType fields_a1 "archive")))
                (Some "https://blob.example/gallery-archive/a1.json") None,
        [PutJson (jsonKey ("gallery-" ++ "archive") "a1")
                 (Js.Obj (withType fields_a1 "archive"))]).
Proof.
  assert (Hne : "archive" <> "") by discriminate.
  assert (Hno : ~ In "archive" typeValues).
  { simpl. intros [H|[H|[H|[H|[]]]]]; discriminate. }
  split; [exact Hne|]. split; [exact Hno|].
  destruct (X18_unknown_type "archive" Hne Hno)
    as (HGET & HPUT & HDEL & HPOST).
  split; [apply HGET|]. split.
  - apply (HPUT a1Host openStore body_a1 (Js.Obj fields_a1));
      [discriminate | reflexivity].
  - split.
    + apply HDEL. discriminate.
    + apply (HPOST openStore body_a1 fields_a1 "a1");
        [discriminate | reflexivity | reflexivity | reflexivity].
Defined.

Lemma X19_POST_form_store_calls_witness :
  "gallery" <> ""
  /\ POST_form emptyHost openStore (Some "gallery") (Some form_foo) 0%nat
     = ((Success (Some stored_foo)
                 (Some ("https://blob.example/"
                        ++ jsonKey "gallery-gallery" id_foo)) None,
         [PutFile imageKey_foo;
          PutJson (jsonKey "gallery-gallery" id_foo) stored_foo]),
        3%nat)
  /\ (length [PutFile imageKey_foo;
              PutJson (jsonKey "gallery-gallery" id_foo) stored_foo]
      <= 2)%nat
  /\ forall call,
       In call [PutFile imageKey_foo;
                PutJson (jsonKey "gallery-gallery" id_foo) stored_foo] ->
       forall url_, call <> Del url_.
Proof.
  assert (Hne : "gallery" <> "") by discriminate.
  assert (HPOST :
    POST_form emptyHost openStore (Some "gallery") (Some form_foo) 0%nat
    = ((Success (Some stored_foo)
                (Some ("https://blob.example/"
                       ++ jsonKey "gallery-gallery" id_foo)) None,
        [PutFile imageKey_foo;
         PutJson (jsonKey "gallery-gallery" id_foo) stored_foo]),
       3%nat)) by reflexivity.
  split; [exact Hne|]. split; [exact HPOST|].
  destruct (X19_POST_form_store_calls emptyHost openStore "gallery" form_foo
              0%nat 3%nat _ _ Hne HPOST) as (_ & _ & Hnodel & Hlen & _).
  split; [exact Hlen | exact Hnodel].
Defined.

Lemma X20_form_record_reads_back_witness :
  In "gallery" typeValues
  /\ POST_form emptyHost openStore (Some "gallery") (Some form_foo) 0%nat
     = ((Success (Some stored_foo)
                 (Some ("https://blob.example/"
                        ++ jsonKey "gallery-gallery" id_foo)) None,
         [PutFile imageKey_foo;
          PutJson (jsonKey "gallery-gallery" id_foo) stored_foo]),
        3%nat)
  /\ form_foo "title" = Some (Text "Foo")
  /\ form_foo "content" = Some (Text "About Foo")
  /\ form_foo "author" = Some (Text "Ann")
  /\ Date_now emptyHost 1%nat <> ""
  /\ Date_now emptyHost 2%nat <> ""
  /\ exists item,
       pushItem "featured" stored_foo emptyHost 7%nat = (Some item, 7%nat)
       /\ id item = id_foo
       /\ type item = "gallery"
       /\ title item = "Foo"
       /\ status item = "development"
       /\ tags item = ["a"; "b"].
Proof.
  assert (Hin : In "gallery" typeValues) by (left; reflexivity).
  assert (HPOST :
    POST_form emptyHost openStore (Some "gallery") (Some form_foo) 0%nat
    = ((Success (Some stored_foo)
                (Some ("https://blob.example/"
                       ++ jsonKey "gallery-gallery" id_foo)) None,
        [PutFile imageKey_foo;
         PutJson (jsonKey "gallery-gallery" id_foo) stored_foo]),
       3%nat)) by reflexivity.
  assert (Hd1 : Date_now emptyHost 1%nat <> "") by discriminate.
  assert (Hd2 : Date_now emptyHost 2%nat <> "") by discriminate.
  split; [exact Hin|]. split; [exact HPOST|].
  split; [reflexivity|]. split; [reflexivity|]. split; [reflexivity|].
  split; [exact Hd1|]. split; [exact Hd2|].
  destruct (X20_form_record_reads_back emptyHost openStore "gallery"
              "featured" form_foo 0%nat 3%nat 7%nat stored_foo _ _ _
              "Foo" "About Foo" "Ann" Hin HPOST eq_refl eq_refl eq_refl
              Hd1 Hd2)
    as (item & Hpush & Hid & Htype & (Htitle & _) & _ & _ & _ & _ & Hstatus
        & _ & Htags).
  exists item. split; [exact Hpush|]. split; [exact Hid|].
  split; [exact Htype|]. split; [exact Htitle|]. split.
  - apply Hstatus. intros st Hst. discriminate.
  - apply (Htags "a,b"); [reflexivity | discriminate].
Defined.

Lemma X21_form_record_visibility_witness :
  POST_form emptyHost openStore (Some "gallery") (Some form_foo) 0%nat
  = ((Success (Some stored_foo)
              (Some ("https://blob.example/"
                     ++ jsonKey "gallery-gallery" id_foo)) None,
      [PutFile imageKey_foo;
       PutJson (jsonKey "gallery-gallery" id_foo) stored_foo]),
     3%nat)
  /\ pushItem "gallery" stored_foo emptyHost 0%nat = (Some item_foo, 0%nat)
  /\ keeps "gallery" item_foo = false.
Proof.
  assert (HPOST :
    POST_form emptyHost openStore (Some "gallery") (Some form_foo) 0%nat
    = ((Success (Some stored_foo)
                (Some ("https://blob.example/"
                       ++ jsonKey "gallery-gallery" id_foo)) None,
        [PutFile imageKey_foo;
         PutJson (jsonKey "gallery-gallery" id_foo) stored_foo]),
       3%nat)) by reflexivity.
  assert (Hpush : pushItem "gallery" stored_foo emptyHost 0%nat
                  = (Some item_foo, 0%nat)) by reflexivity.
  split; [exact HPOST|]. split; [exact Hpush|].
  destruct (X21_form_record_visibility emptyHost openStore "gallery"
              "gallery" form_foo 0%nat 3%nat 0%nat 0%nat stored_foo _ _ _
              item_foo HPOST Hpush) as (_ & _ & Hdraft).
  apply Hdraft; [reflexivity|]. intros st Hst. discriminate.
Defined.

Lemma X22_stored_image_is_located_witness :
  In (blobAt imageKey_foo)
     [blobAt (jsonKey "gallery-gallery" id_foo); blobAt imageKey_foo]
  /\ pathname (blobAt imageKey_foo)
     = POST_imageFolder "gallery" ++ "/"
       ++ (id_foo ++ "." ++ extension "shot.final.png")
  /\ extension "shot.final.png" <> "json"
  /\ exists hit,
       findImage id_foo
                 [blobAt (jsonKey "gallery-gallery" id_foo);
                  blobAt imageKey_foo] = Some hit
       /\ Js.endsWith (pathname hit) ".json" = false.
Proof.
  assert (Hin : In (blobAt imageKey_foo)
                   [blobAt (jsonKey "gallery-gallery" id_foo);
                    blobAt imageKey_foo])
    by (right; left; reflexivity).
  assert (Hext : extension "shot.final.png" <> "json") by discriminate.
  split; [exact Hin|]. split; [reflexivity|]. split; [exact Hext|].
  destruct (X22_stored_image_is_located "gallery" id_foo "shot.final.png"
              _ _ Hin eq_refl) as (Hfound & _).
  destruct (Hfound Hext) as (hit & Hfind & _ & Hnot & _).
  exists hit. split; [exact Hfind | exact Hnot].
Defined.

Lemma X10_manager_shows_witness :
  In "featured" typeValues
  /\ GET flaggedHost (Some (GalleryManager.queryType "featured")) 0%nat
     = (Json (listing flaggedHost "featured") noStore, 2%nat)
  /\ length (listing flaggedHost "featured") = 1%nat
  /\ GalleryManager.refresh flaggedHost "featured" [] 0%nat
     = (GalleryManager.shown "featured" (listing flaggedHost "featured"),
        2%nat)
  /\ GalleryManager.shown "featured" (listing flaggedHost "featured") = [].
Proof.
  assert (Hin : In "featured" typeValues) by (right; left; reflexivity).
  assert (HGET :
    GET flaggedHost (Some (GalleryManager.queryType "featured")) 0%nat
    = (Json (listing flaggedHost "featured") noStore, 2%nat))
    by reflexivity.
  split; [exact Hin|]. split; [exact HGET|]. split; [reflexivity|].
  destruct (X10_manager_shows flaggedHost "featured" [] 0%nat Hin)
    as (_ & _ & Hjson).
  destruct (Hjson _ _ _ HGET) as (Hrefresh & _ & Hown).
  split; [exact Hrefresh|].
  destruct (Hown (or_introl eq_refl)) as (Hshown & _).
  rewrite Hshown. reflexivity.
Defined.

(** * Reading a listed record back *)

Section ReadBack.

Variable item : GalleryItem.

Lemma getStr_toJson :
  getStr (toJson item) "id" = Some (id item)
  /\ getStr (toJson item) "title" = Some (title item)
  /\ getStr (toJson item) "content" = Some (content item)
  /\ getStr (toJson item) "author" = Some (author item)
  /\ getStr (toJson item) "imageUrl" = imageUrl item
  /\ getStr (toJson item) "publishDate" = Some (publishDate item)
  /\ getStr (toJson item) "type" = Some (type item)
  /\ getStr (toJson item) "store" = Some (store item)
  /\ getStr (toJson item) "storeUrl" = storeUrl item
  /\ getStr (toJson item) "appCategory" = Some (appCategory item)
  /\ getStr (toJson item) "status" = Some (status item)
  /\ getStr (toJson item) "name" = Some (name item)
  /\ getStr (toJson item) "developer" = Some (developer item)
  /\ getStr (toJson item) "description" = Some (description item)
  /\ getStr (toJson item) "iconUrl" = Some (iconUrl item)
  /\ getStr (toJson item) "downloads" = Some (downloads item)
  /\ getStr (toJson item) "version" = Some (version item)
  /\ getStr (toJson item) "size" = Some (size item)
  /\ getStr (toJson item) "category" = Some (category item)
  /\ getStr (toJson item) "uploadDate" = Some (uploadDate item)
  /\ getStr (toJson item) "adminStoreUrl" = adminStoreUrl item.
Proof.
  unfold getStr, toJson.
  destruct (imageUrl item), (storeUrl item), (adminStoreUrl item);
    cbn; repeat split; reflexivity.
Qed.

Lemma getOther_toJson :
  Js.prop (toJson item) "tags" = Some (Js.Arr (map Js.Str (tags item)))
  /\ Js.prop (toJson item) "screenshotUrls"
     = Some (Js.Arr (map Js.Str (screenshotUrls item)))
  /\ isTrue (toJson item) "isPublished" = isPublished item
  /\ isTrue (toJson item) "isFeatured" = isFeatured item
  /\ isTrue (toJson item) "isEvent" = isEvent item
  /\ (forall d, getNum (toJson item) "rating" d = finiteOr (rating item) d)
  /\ (forall d, getNum (toJson item) "views" d = finiteOr (views item) d)
  /\ (forall d, getNum (toJson item) "likes" d = finiteOr (likes item) d).
Proof.
  unfold isTrue, getNum, toJson.
  destruct (imageUrl item), (storeUrl item), (adminStoreUrl item);
    cbn; repeat split;
    try reflexivity;
    try (destruct (isPublished item); reflexivity);
    try (destruct (isFeatured item); reflexivity);
    try (destruct (isEvent item); reflexivity);
    intros d;
    try (destruct (rating item); reflexivity);
    try (destruct (views item); reflexivity);
    try (destruct (likes item); reflexivity).
Qed.

End ReadBack.

Lemma pair_read_back (a b : option string) :
  Js.orLit (Js.orElse (Some (Js.orLit (Js.orElse a b) ""))
                      (Some (Js.orLit (Js.orElse b a) ""))) ""
  = Js.orLit (Js.orElse a b) "".
Proof. destruct a as [[|? ?]|], b as [[|? ?]|]; reflexivity. Qed.

Lemma literal_read_back (a : option string) (d : string) :
  Js.orLit (Some (Js.orLit a d)) d = Js.orLit a d.
Proof. destruct a as [[|? ?]|], d; reflexivity. Qed.

Lemma image_read_back (img icon : option string) (shots : list string) :
  let first := Js.orElse (Js.orElse img icon) (hd_error shots) in
  let icon' := Js.orLit (Js.orElse icon first) "" in
  let shots' :=
    match shots with
    | _ :: _ => shots
    | [] => match first with
            | Some u => if Js.nonEmpty u then [u] else []
            | None => []
            end
    end in
  let first' := Js.orElse (Js.orElse first (Some icon')) (hd_error shots') in
  first' = first
  /\ Js.orLit (Js.orElse (Some icon') first') "" = icon'
  /\ match shots' with
     | _ :: _ => shots'
     | [] => match first' with
             | Some u => if Js.nonEmpty u then [u] else []
             | None => []
             end
     end = shots'.
Proof.
  destruct img as [[|? ?]|], icon as [[|? ?]|], shots as [|[|? ?] ?];
    cbn; repeat split; reflexivity.
Qed.

Lemma pickStore_closed (raw : Js.value) : In (pickStore raw) storeValues.
Proof.
  unfold pickStore. destruct (getStr raw "store") as [s|];
    [destruct (String.eqb s "app-store")|]; simpl; auto.
Qed.

Lemma pickCategory_closed (type_ : string) (raw : Js.value) :
  In (pickCategory type_ raw) categoryValues.
Proof.
  unfold pickCategory, byType.
  destruct (getStr raw "appCategory") as [c|].
  - destruct (oneOf c _) eqn:Hc; [apply oneOf_In in Hc; exact Hc|].
    destruct (String.eqb type_ "featured"); [simpl; auto|].
    destruct (String.eqb type_ "events"); simpl; auto.
  - destruct (String.eqb type_ "featured"); [simpl; auto|].
    destruct (String.eqb type_ "events"); simpl; auto.
Qed.

Section Idempotence.

Variable h : Host.
Variables type_ listed : string.
Variable raw : Js.value.
Variables id_ publishDate_ uploadDate_ : string.

Let item : GalleryItem :=
  normalized type_ raw id_ publishDate_ uploadDate_.

Lemma normalized_toJson :
  In type_ typeValues ->
  normalized listed (toJson item) id_ publishDate_ uploadDate_
  = defaulted item.
Proof.
  intros Hty.
  destruct (getStr_toJson item)
    as (_ & Htitle & Hcontent & Hauthor & Himage & _ & Htype & Hstore
        & HstoreUrl & Hcat & Hstatus & Hname & Hdev & Hdesc & Hicon & Hdown
        & Hver & Hsize & Hcategory & _ & Hadmin).
  destruct (getOther_toJson item)
    as (Htags & Hshots & Hpub & Hfeat & Hevent & Hrating & Hviews & Hlikes).
  apply getArrStr_strings in Htags. apply getArrStr_strings in Hshots.
  assert (Hst : pickStatus (toJson item) = status item).
  { unfold pickStatus. rewrite Hstatus.
    pose proof (pickStatus_closed raw) as Hin. apply oneOf_In in Hin.
    unfold statusValues in Hin. cbn [status item normalized].
    rewrite Hin. reflexivity. }
  assert (Hty' : pickType listed (toJson item) = type item).
  { unfold pickType. rewrite Htype.
    pose proof (pickType_closed type_ raw Hty) as Hin. apply oneOf_In in Hin.
    unfold typeValues in Hin. cbn [type item normalized].
    rewrite Hin. reflexivity. }
  assert (Hsto : pickStore (toJson item) = store item).
  { unfold pickStore. rewrite Hstore. cbn [store item normalized].
    pose proof (pickStore_closed raw) as Hin. simpl in Hin.
    destruct Hin as [<-|[<-|[]]]; reflexivity. }
  assert (Hca : pickCategory listed (toJson item) = appCategory item).
  { unfold pickCategory. rewrite Hcat. cbn [appCategory item normalized].
    pose proof (pickCategory_closed type_ raw) as Hin. apply oneOf_In in Hin.
    unfold categoryValues in Hin. rewrite Hin. reflexivity. }
  destruct (image_read_back (getStr raw "imageUrl") (getStr raw "iconUrl")
                            (getArrStr raw "screenshotUrls"))
    as (Hfirst & Hicon' & Hshots').
  unfold normalized at 1.
  rewrite Hst, Hty', Hsto, Hca.
  unfold firstImage, screenshots.
  rewrite Htitle, Hcontent, Hauthor, Himage, HstoreUrl, Hname, Hdev, Hdesc,
    Hicon, Hdown, Hver, Hsize, Hcategory, Hadmin, Htags, Hshots, Hpub, Hfeat,
    Hevent, Hrating, Hviews, Hlikes.
  unfold defaulted, item, normalized.
  cbn [id title content author imageUrl publishDate tags isPublished type
       store storeUrl appCategory status name developer description iconUrl
       screenshotUrls rating downloads version size category views likes
       uploadDate isFeatured isEvent adminStoreUrl].
  unfold firstImage, screenshots.
  rewrite !pair_read_back, !literal_read_back.
  rewrite Hicon', Hshots', Hfirst.
  f_equal.
  destruct (isTrue raw "isPublished"); [reflexivity|].
  cbn [orb]. apply orb_diag.
Qed.

End Idempotence.

Lemma defaulted_finite (item : GalleryItem) :
  isFinite (rating item) -> isFinite (views item) -> isFinite (likes item) ->
  defaulted item = item.
Proof.
  destruct item as [? ? ? ? ? ? ? ? ? ? ? ? ? ? ? ? ? ? r ? ? ? ? v l ? ? ? ?].
  cbn. intros Hr Hv Hl.
  destruct r; [|contradiction]. destruct v; [|contradiction].
  destruct l; [|contradiction]. reflexivity.
Qed.

(** X9: the normaliser is idempotent on what GET answers, up to numbers
    out of range.  With a clock that never yields an empty text, every
    record of a response, written out as the JSON of the response and read
    again under any listing, is accepted without a clock reading and gives
    the same record, except that a rating, view count or like count that
    is an infinity (written as [null] by the response) comes back as the
    default of its field; a record whose three numbers are finite comes
    back as the very same record. *)
Theorem X9_listed_record_reads_back
        (h : Host) (type_ listed : string) (t t' t0 : nat)
        (body : list GalleryItem) (cacheControl : string) :
  (forall n, Date_now h n <> "") ->
  GET h (Some type_) t = (Json body cacheControl, t') ->
  forall item, In item body ->
    pushItem listed (toJson item) h t0 = (Some (defaulted item), t0)
    /\ (isFinite (rating item) -> isFinite (views item) ->
        isFinite (likes item) ->
        pushItem listed (toJson item) h t0 = (Some item, t0)).
Proof.
  intros Hclock HGET item Hin.
  enough (Hread : pushItem listed (toJson item) h t0
                  = (Some (defaulted item), t0)).
  { split; [exact Hread|]. intros Hr Hv Hl.
    rewrite Hread, (defaulted_finite item Hr Hv Hl). reflexivity. }
  destruct (in_dec string_dec type_ typeValues) as [Hknown|Hunknown].
  2:{ destruct (GET_Json h type_ t body cacheControl t' HGET)
        as (blobs & items & Hlist & Hload & ->).
      rewrite (folderPaths_unknown type_ Hunknown) in Hlist.
      injection Hlist as <-. cbn in Hload. injection Hload as <- _.
      destruct Hin. }
  apply GET_body_pushed in HGET. rewrite Forall_forall in HGET.
  destruct (HGET item Hin) as [(raw & t1 & t2 & Hpush) _].
  destruct (pushItem_Some h type_ raw t1 t2 item Hpush)
    as (fields & id0 & pd0 & ud0 & _ & _ & Hne & Hidem).
  assert (Hid : id item = id0) by (rewrite Hidem; reflexivity).
  destruct (pushItem_dates h type_ raw t1 t2 item Hpush)
    as (id_ & t3 & Hitem & Hpd & Hud).
  assert (Hsame : id_ = id0) by (rewrite Hitem in Hid; exact Hid).
  subst id_.
  assert (Hdate : forall o tt text tt',
             orNow h o tt = (text, tt') -> text <> "").
  { intros o tt text tt' Ho. unfold orNow in Ho.
    destruct o as [[|c rest]|]; injection Ho as <- _;
      [apply Hclock | discriminate | apply Hclock]. }
  pose proof (Hdate _ _ _ _ Hpd) as Hpd_ne.
  pose proof (Hdate _ _ _ _ Hud) as Hud_ne.
  unfold pushItem.
  assert (Hobj : Js.truthy (toJson item) = true
                 /\ Js.typeof (toJson item) = Js.TObject)
    by (split; reflexivity).
  destruct Hobj as [-> ->]. cbn [negb].
  destruct (getStr_toJson item)
    as (-> & _ & _ & _ & _ & -> & _ & _ & _ & _ & _ & _ & _ & _ & _ & _ & _
        & _ & _ & -> & _).
  rewrite Hid, Hne. unfold bind.
  assert (Hgiven : forall a b tt, a <> "" ->
             orNow h (Js.orElse (Some a) b) tt = (a, tt)).
  { intros a b tt Ha. destruct a; [contradiction|reflexivity]. }
  rewrite (Hgiven _ _ t0 Hpd_ne), (Hgiven _ _ t0 Hud_ne).
  unfold ret. f_equal. f_equal.
  replace (defaulted item)
    with (defaulted (normalized type_ raw id0 (publishDate item)
                                (uploadDate item)))
    by (rewrite <- Hitem; reflexivity).
  remember (publishDate item) as pd eqn:Epd.
  remember (uploadDate item) as ud eqn:Eud.
  rewrite Hitem. apply normalized_toJson. exact Hknown.
Qed.

Lemma X9_listed_record_reads_back_witness :
  (forall n, Date_now hugeHost n <> "")
  /\ GET hugeHost (Some "featured") 0%nat
     = (Json (listing hugeHost "featured") noStore, 4%nat)
  /\ Forall (fun item =>
               pushItem "gallery" (toJson item) hugeHost 9%nat
               = (Some (defaulted item), 9%nat)
               /\ (isFinite (rating item) -> isFinite (views item) ->
                   isFinite (likes item) ->
                   pushItem "gallery" (toJson item) hugeHost 9%nat
                   = (Some item, 9%nat)))
            (listing hugeHost "featured").
Proof.
  assert (Hclock : forall n, Date_now hugeHost n <> "")
    by (intros n; discriminate).
  assert (HGET : GET hugeHost (Some "featured") 0%nat
                 = (Json (listing hugeHost "featured") noStore, 4%nat))
    by reflexivity.
  split; [exact Hclock|]. split; [exact HGET|].
  apply Forall_forall. intros item Hin.
  apply (X9_listed_record_reads_back hugeHost "featured" "gallery" 0%nat
           4%nat 9%nat _ _ Hclock HGET item Hin).
Defined.

(** The two ratings of that listing, as listed and as read back from the
    response. *)
Example huge_rating_reads_back_default :
  map rating (listing hugeHost "featured")
  = [Js.Infinity false; Js.Finite 3]
  /\ map (fun item =>
            option_map rating
              (fst (pushItem "gallery" (toJson item) hugeHost 9%nat)))
         (listing hugeHost "featured")
     = [Some (Js.Finite (45 # 10)); Some (Js.Finite 3)].
Proof. split; reflexivity. Qed.

